(** * Profanity: window registry and event dispatch

    A shallow embedding of the window/session core of the Profanity
    terminal XMPP client:

    - [ui/core.c]           ([ui_incoming_msg], [ui_switch_win], ...),
    - [event/server_events.c] ([sv_ev_incoming_message],
                               [sv_ev_muc_self_online], ...),
    - [command/commands.c]  ([cmd_close], [cmd_form], [cmd_room],
                             [cmd_wins], [cmd_otr], [cmd_pgp]),
    - [config/preferences.c] ([prefs_get_boolean], [prefs_get_string]).

    The C program keeps its state in global singletons (the window hash
    table, the current window number, the preferences key file, the
    room table, the command autocompleter).  Here they are the fields
    of one [State] record that every function threads explicitly; calls
    into collaborators that the core only drives (status bar, title bar,
    notifier, network layer, logs) are recorded, in call order, in the
    [trace] field.  A [NULL] dereference ends a run: functions return
    [option], with [None] standing for the crash. *)

From Stdlib Require Import ZArith String Ascii List Lia.
From Stdlib Require DecimalString.
From Stdlib Require Import Sorted.
From stdpp Require Import base option list gmap strings fin_maps fin_sets.

Open Scope Z_scope.
Open Scope string_scope.

(** ** C integers *)

Definition INT_MAX : Z := 2147483647.

(** Two's-complement wrap-around of a 32-bit [int]. *)
Definition int_wrap (z : Z) : Z := (z + 2 ^ 31) mod 2 ^ 32 - 2 ^ 31.

(** [x++] on an [int]. *)
Definition int_incr (z : Z) : Z := int_wrap (z + 1).

(** ** Enumerations *)

Inductive prof_enc_t := PROF_ENC_NONE | PROF_ENC_OTR | PROF_ENC_PGP.

Inductive win_type_t :=
  WIN_CONSOLE | WIN_CHAT | WIN_MUC | WIN_MUC_CONFIG | WIN_PRIVATE | WIN_XML.

Inductive jabber_conn_status_t :=
  | JABBER_UNDEFINED | JABBER_STARTED | JABBER_CONNECTING
  | JABBER_CONNECTED | JABBER_DISCONNECTING | JABBER_DISCONNECTED.

Global Instance prof_enc_eq_dec : EqDecision prof_enc_t.
Proof. solve_decision. Defined.
Global Instance win_type_eq_dec : EqDecision win_type_t.
Proof. solve_decision. Defined.
Global Instance conn_status_eq_dec : EqDecision jabber_conn_status_t.
Proof. solve_decision. Defined.

(** The preferences read by the modelled functions. *)
Inductive preference_t :=
  | PREF_BEEP | PREF_FLASH | PREF_CHLOG | PREF_HISTORY | PREF_GRLOG
  | PREF_NOTIFY_MESSAGE | PREF_NOTIFY_ROOM | PREF_NOTIFY_ROOM_CURRENT
  | PREF_NOTIFY_ROOM_TEXT | PREF_OCCUPANTS | PREF_MUC_PRIVILEGES
  | PREF_WINS_AUTO_TIDY.

(** The print flags and themes handed to [win_print]. *)
Inductive print_flag := NO_ME | NO_DATE | NO_EOL | NO_COLOUR_FROM | NO_COLOUR_DATE.

Inductive theme_item_t :=
  | THEME_DEFAULT                       (* the literal 0 *)
  | THEME_ROOMINFO | THEME_ROOMMENTION | THEME_TEXT_THEM | THEME_TEXT_ME
  | THEME_ERROR | THEME_TYPING | THEME_ME | THEME_ONLINE
  | THEME_OTR_STARTED_TRUSTED | THEME_OTR_STARTED_UNTRUSTED | THEME_OTR_ENDED
  | THEME_PRESENCE (presence_str : string).   (* theme_main_presence_attrs *)

(** ** Window contents *)

(** An argument of a [printf]-style call: [%s] (possibly [NULL]) or [%d]. *)
Inductive fmt_arg :=
  | ArgS (s : option string)
  | ArgD (n : Z).

(** A [GDateTime]; only its presence matters to the core. *)
Inductive GDateTime := Timestamp (hh mm ss : Z) | Received (id : nat).

(** One entry of a window buffer.  [LPrint] is a call of [win_print] /
    [win_vprint] / [win_println] with its format string and arguments;
    the other constructors are the composite printers of [ui/window.c]. *)
Inductive Line :=
  | LPrint (show_char : ascii) (timestamp : option GDateTime)
           (flags : list print_flag) (theme : theme_item_t)
           (from : string) (fmt : string) (args : list fmt_arg)
  | LIncoming (timestamp : option GDateTime) (from : string)
              (message : string) (enc_mode : prof_enc_t)
  | LContact (barejid : string)
  | LStatusString (from : string) (show status : option string)
                  (pre default_show : string).

(** A room configuration form: the tags of its fields and the
    [modified] flag. *)
Record DataForm := mkDataForm {
  form_tags : list string;
  modified : bool
}.

Record ProfChatWin := mkChatWin {
  barejid : string;
  chat_unread : Z;
  enc_mode : prof_enc_t;
  chat_otr_is_trusted : bool;
  history_shown : bool
}.

Record ProfMucWin := mkMucWin {
  roomjid : string;
  muc_unread : Z
}.

Record ProfMucConfWin := mkMucConfWin {
  conf_roomjid : string;
  form : option DataForm
}.

Record ProfPrivateWin := mkPrivateWin {
  fulljid : string;
  priv_unread : Z
}.

(** The kind-specific part of a window: the tag [type] of [ProfWin]
    together with the fields of the struct it is cast to. *)
Inductive WinKind :=
  | KConsole
  | KChat (chatwin : ProfChatWin)
  | KMuc (mucwin : ProfMucWin)
  | KMucConf (confwin : ProfMucConfWin)
  | KPrivate (privatewin : ProfPrivateWin)
  | KXml.

Record ProfWin := mkWin {
  kind : WinKind;
  buffer : list Line       (* oldest line first *)
}.

Definition win_type (w : ProfWin) : win_type_t :=
  match kind w with
  | KConsole => WIN_CONSOLE
  | KChat _ => WIN_CHAT
  | KMuc _ => WIN_MUC
  | KMucConf _ => WIN_MUC_CONFIG
  | KPrivate _ => WIN_PRIVATE
  | KXml => WIN_XML
  end.

(** [win_unread] of ui/window.c. *)
Definition win_unread (w : ProfWin) : Z :=
  match kind w with
  | KChat c => chat_unread c
  | KMuc m => muc_unread m
  | KPrivate p => priv_unread p
  | _ => 0
  end.

(** ** Multi-user chat rooms *)

Record Occupant := mkOccupant {
  occ_nick : string;
  occ_jid : option string;
  occ_role : option string;
  occ_affiliation : option string;
  occ_show : option string;
  occ_status : option string
}.

(** Modelled from the spec: muc.c, the table of rooms being joined or
    joined, is not under src.  A room carries what the event handlers
    read and write through the [muc_*] accessors: our nickname, role and
    affiliation strings, the subject, the broadcasts queued while
    joining, the roster with its "complete" flag (joining / joined), the
    pending nickname change, the autojoin flag and the recorded
    "requires configuration" signal. *)
Record ChatRoom := mkChatRoom {
  room_nick : string;
  room_role : option string;
  room_affiliation : option string;
  room_subject : option string;
  room_pending_broadcasts : list string;
  room_roster : list Occupant;
  roster_received : bool;
  pending_nick_change : bool;
  room_autojoin : bool;
  room_requires_config : bool
}.

(** ** Calls into collaborators *)

(** The protocol actions that the modelled functions issue. *)
Inductive NetAction :=
  | IqRoomInfoRequest (room : string) (display : bool)
  | IqConfirmInstantRoom (room : string)
  | IqDestroyRoom (room : string)
  | IqRequestRoomConfigForm (room : string)
  | IqSubmitRoomConfig (room : string) (f : option DataForm)
  | IqRoomConfigCancel (room : string)
  | PresenceLeaveChatRoom (room : string)
  | MessageSendChatOtr (barejid : string) (message : string)
  | OtrEndSession (barejid : string).

Inductive Effect :=
  | StatusBarActive (num : Z)
  | StatusBarNew (num : Z)
  | StatusBarCurrent (num : Z)
  | StatusBarInactive (num : Z)
  | TitleBarSetTyping (typing : bool)
  | TitleBarConsole
  | TitleBarSwitch
  | Flash
  | Beep
  | NotifyMessage (window : Z) (name : string) (message : string)
  | NotifyRoomMessage (nick : string) (room : option string) (ui_index : Z)
                      (message : option string)
  | ConsShow (fmt : string) (args : list fmt_arg)
  | ConsShowIncomingMessage (name : string) (num : Z)
  | ConsBadCmdUsage (command : string)
  | ConsAlert
  | LogError (fmt : string) (args : list fmt_arg)
  | AcAddFormFields (f : option DataForm)
  | AcRemoveFormFields (f : option DataForm)
  | OccupantsWin (room : string)
  | ChatLogMsgIn (barejid : string) (message : string)
  | ChatLogPgpMsgIn (barejid : string) (message : string)
  | ChatLogOtrMsgIn (barejid : string) (message : string) (decrypted : bool)
  | ChatLogMsgInDelayed (barejid : string) (message : string)
  | GroupchatLogChat (me room nick message : string)
  | ConsShowWins
  | UiShowForm (window : Z)
  | UiShowFormFieldHelp (window : Z) (tag : string)
  | UiShowFormHelp (window : Z)
  | UiShowLines (window : Z)
  | ChatStateGone (barejid : string)
  | ChatSessionRemove (barejid : string)
  | Net (a : NetAction).

Definition is_net (e : Effect) : bool :=
  match e with Net _ => true | _ => false end.

(** ** The program state *)

Record State := mkState {
  windows : gmap Z ProfWin;            (* window_list.c: [windows] *)
  current : Z;                         (* window_list.c: [current] *)
  prefs_bool : preference_t -> option bool;    (* the key file [prefs] *)
  prefs_string : preference_t -> option string;
  conn_status : jabber_conn_status_t;  (* jabber_get_connection_status() *)
  rooms : gmap string ChatRoom;        (* muc.c: [rooms] *)
  invites : gset string;               (* muc.c: [invite_ac] *)
  commands_ac : gset string;           (* command.c: [commands_ac] *)
  trace : list Effect                  (* oldest call first *)
}.

Definition set_windows (ws : gmap Z ProfWin) (st : State) : State :=
  mkState ws (current st) (prefs_bool st) (prefs_string st) (conn_status st)
          (rooms st) (invites st) (commands_ac st) (trace st).

Definition set_current (n : Z) (st : State) : State :=
  mkState (windows st) n (prefs_bool st) (prefs_string st) (conn_status st)
          (rooms st) (invites st) (commands_ac st) (trace st).

Definition set_rooms (rs : gmap string ChatRoom) (st : State) : State :=
  mkState (windows st) (current st) (prefs_bool st) (prefs_string st)
          (conn_status st) rs (invites st) (commands_ac st) (trace st).

Definition set_invites (i : gset string) (st : State) : State :=
  mkState (windows st) (current st) (prefs_bool st) (prefs_string st)
          (conn_status st) (rooms st) i (commands_ac st) (trace st).

Definition set_commands_ac (ac : gset string) (st : State) : State :=
  mkState (windows st) (current st) (prefs_bool st) (prefs_string st)
          (conn_status st) (rooms st) (invites st) ac (trace st).

Definition set_trace (t : list Effect) (st : State) : State :=
  mkState (windows st) (current st) (prefs_bool st) (prefs_string st)
          (conn_status st) (rooms st) (invites st) (commands_ac st) t.

(** ** The monad of the embedding

    A C function of result type [A] becomes a [prof A]: it reads and
    updates the globals and either returns or dereferences [NULL]. *)

Definition prof (A : Type) : Type := State -> option (A * State).

Definition ret {A} (a : A) : prof A := fun st => Some (a, st).

Definition bind {A B} (m : prof A) (k : A -> prof B) : prof B :=
  fun st => match m st with
            | Some (a, st') => k a st'
            | None => None
            end.

Definition crash {A} : prof A := fun _ => None.

Definition get : prof State := fun st => Some (st, st).

Definition gets {A} (f : State -> A) : prof A := fun st => Some (f st, st).

Definition modify (f : State -> State) : prof unit := fun st => Some (tt, f st).

(** Dereferencing a pointer that may be [NULL]. *)
Definition deref {A} (p : option A) : prof A :=
  match p with Some a => ret a | None => crash end.

Declare Scope prof_scope.
Delimit Scope prof_scope with prof.
Bind Scope prof_scope with prof.

Notation "x ← y ; z" := (bind y (fun x => z))
  (at level 20, y at level 100, z at level 200, only parsing) : prof_scope.
Notation "' x ← y ; z" := (bind y (fun x => z))
  (at level 20, x pattern, y at level 100, z at level 200, only parsing)
  : prof_scope.
Notation "x ;; z" := (bind x (fun _ => z))
  (at level 100, z at level 200, only parsing, right associativity)
  : prof_scope.

Open Scope prof_scope.

(** Running a [void] function: the final state, if the run ends. *)
Definition exec {A} (m : prof A) (st : State) : option State :=
  snd <$> m st.

(** Running a function for its result. *)
Definition eval {A} (m : prof A) (st : State) : option A :=
  fst <$> m st.

(** A call into a collaborator. *)
Definition emit (e : Effect) : prof unit :=
  modify (fun st => set_trace (trace st ++ [e]) st).

Definition when (b : bool) (m : prof unit) : prof unit :=
  if b then m else ret tt.

(** [for (curr = l; curr; curr = g_list_next(curr)) body(curr->data)] *)
Fixpoint for_each {A} (l : list A) (body : A -> prof unit) : prof unit :=
  match l with
  | [] => ret tt
  | x :: l' => body x ;; for_each l' body
  end.

(** ** The window registry *)

(** Modelled from the spec: ui/window_list.c and ui/window.c are not
    under src.  The registry maps slot numbers to windows (section 4.1
    of the specification); a [ProfWin*] held by the code under src is
    represented by the slot of the window it points to, so
    [wins_get_num] is the identity and [wins_get_console] is slot 1. *)
Module Registry.

Definition wins_get_num (window : Z) : Z := window.

Definition wins_get_by_num (i : Z) (st : State) : option Z :=
  match windows st !! i with
  | Some _ => Some i
  | None => None
  end.

(** The console always occupies slot 1. *)
Definition wins_get_console (st : State) : option Z := wins_get_by_num 1 st.

Definition wins_get_current_num (st : State) : Z := current st.

Definition wins_get_current (st : State) : option Z :=
  wins_get_by_num (current st) st.

(** [wins_get_current() == window], for a [window] that is not [NULL]. *)
Definition wins_is_current (window : Z) (st : State) : bool :=
  bool_decide (wins_get_current st = Some window).

(** [lookup_by_key]: the slot of a window satisfying [P], if any.  The
    slots are searched in an order that depends on the set of used
    slots only. *)
Definition wins_find (P : ProfWin -> bool) (ws : gmap Z ProfWin) : option Z :=
  List.find (fun n => match ws !! n with Some w => P w | None => false end)
            (elements (dom ws)).

Definition is_chat_for (jid : string) (w : ProfWin) : bool :=
  match kind w with
  | KChat c => bool_decide (barejid c = jid)
  | _ => false
  end.

Definition is_muc_for (jid : string) (w : ProfWin) : bool :=
  match kind w with
  | KMuc m => bool_decide (roomjid m = jid)
  | _ => false
  end.

Definition is_muc_conf_for (jid : string) (w : ProfWin) : bool :=
  match kind w with
  | KMucConf c => bool_decide (conf_roomjid c = jid)
  | _ => false
  end.

Definition is_private_for (jid : string) (w : ProfWin) : bool :=
  match kind w with
  | KPrivate p => bool_decide (fulljid p = jid)
  | _ => false
  end.

Definition wins_get_chat (jid : string) (st : State) : option Z :=
  wins_find (is_chat_for jid) (windows st).

Definition wins_get_muc (jid : string) (st : State) : option Z :=
  wins_find (is_muc_for jid) (windows st).

Definition wins_get_muc_conf (jid : string) (st : State) : option Z :=
  wins_find (is_muc_conf_for jid) (windows st).

Definition wins_get_private (jid : string) (st : State) : option Z :=
  wins_find (is_private_for jid) (windows st).

(** The slot shown in the [p]-th position of the tab list: the source
    uses a base-10 wrap in which the tenth slot is numbered 0. *)
Definition win_num_of_pos (p : nat) : Z :=
  if (p =? 10)%nat then 0 else Z.of_nat p.

(** [create] allocates the lowest unused slot above the console slot. *)
Definition get_next_available_win_num (used : gset Z) : Z :=
  default 0
    (List.find (fun n => bool_decide (n ∉ used))
               (win_num_of_pos <$> seq 2 (S (size used)))).

Definition win_create_chat (jid : string) : ProfWin :=
  mkWin (KChat (mkChatWin jid 0 PROF_ENC_NONE false false)) [].

Definition win_create_muc (jid : string) : ProfWin :=
  mkWin (KMuc (mkMucWin jid 0)) [].

Definition win_create_private (jid : string) : ProfWin :=
  mkWin (KPrivate (mkPrivateWin jid 0)) [].

Definition wins_new (w : ProfWin) : prof Z := fun st =>
  let result := get_next_available_win_num (dom (windows st)) in
  Some (result, set_windows (<[result := w]> (windows st)) st).

Definition wins_new_chat (jid : string) : prof Z :=
  wins_new (win_create_chat jid).

Definition wins_new_muc (jid : string) : prof Z :=
  wins_new (win_create_muc jid).

Definition wins_new_private (jid : string) : prof Z :=
  wins_new (win_create_private jid).

(** [mark read]: the unread counter of a window that gets the focus is
    reset. *)
Definition win_clear_unread (w : ProfWin) : ProfWin :=
  match kind w with
  | KChat c =>
      mkWin (KChat (mkChatWin (barejid c) 0 (enc_mode c) (chat_otr_is_trusted c)
                              (history_shown c))) (buffer w)
  | KMuc m => mkWin (KMuc (mkMucWin (roomjid m) 0)) (buffer w)
  | KPrivate p => mkWin (KPrivate (mkPrivateWin (fulljid p) 0)) (buffer w)
  | _ => w
  end.

(** [set_current(n)]; an empty slot leaves the current window alone. *)
Definition wins_set_current_by_num (i : Z) : prof unit := fun st =>
  match windows st !! i with
  | Some w =>
      Some (tt, set_current i
                  (set_windows (<[i := win_clear_unread w]> (windows st)) st))
  | None => Some (tt, st)
  end.

(** [close(n)]: the console cannot be closed; closing the current window
    re-homes the current window to the console, which is what the
    callers under src rely on ([ui_close_win] redraws the title bar for
    the console right after the call). *)
Definition wins_close_by_num (i : Z) : prof unit := fun st =>
  if bool_decide (i = 1) then Some (tt, st)
  else
    let st1 := if bool_decide (i = current st) then set_current 1 st else st in
    Some (tt, set_windows (delete i (windows st1)) st1).

Definition wins_close_current : prof unit := fun st =>
  wins_close_by_num (current st) st.

(** Modelled from the spec: [wins_swap] of ui/window_list.c is not under
    src.  [swap(a, b)]: "exchanges two non-reserved, existing slots'
    window objects; fails silently ([NotFound]) if either slot is empty
    or is the console slot".  The result [false] is [NotFound]. *)
Definition wins_swap (source_win target_win : Z) : prof bool := fun st =>
  if bool_decide (source_win = 1) || bool_decide (target_win = 1)
  then Some (false, st)
  else
    match windows st !! source_win, windows st !! target_win with
    | Some source, Some target =>
        Some (true,
              set_windows (<[source_win := target]>
                             (<[target_win := source]> (windows st))) st)
    | _, _ => Some (false, st)
    end.

(** [win_print] and its variants append to the buffer of the window;
    printing through a [NULL] window pointer is a crash. *)
Definition win_append (window : Z) (l : Line) : prof unit := fun st =>
  match windows st !! window with
  | Some w =>
      Some (tt, set_windows
                  (<[window := mkWin (kind w) (buffer w ++ [l])]> (windows st))
                  st)
  | None => None
  end.

Definition win_print (window : option Z) (show_char : ascii)
    (timestamp : option GDateTime) (flags : list print_flag)
    (theme : theme_item_t) (from : string) (message : string) : prof unit :=
  w ← deref window;
  win_append w (LPrint show_char timestamp flags theme from message []).

Definition win_vprint (window : option Z) (show_char : ascii)
    (timestamp : option GDateTime) (flags : list print_flag)
    (theme : theme_item_t) (from : string) (fmt : string)
    (args : list fmt_arg) : prof unit :=
  w ← deref window;
  win_append w (LPrint show_char timestamp flags theme from fmt args).

Definition win_println (window : option Z) (message : string) : prof unit :=
  win_print window "-" None [] THEME_DEFAULT "" message.

Definition win_print_incoming_message (window : Z)
    (timestamp : option GDateTime) (from message : string)
    (enc : prof_enc_t) : prof unit :=
  win_append window (LIncoming timestamp from message enc).

Definition win_show_contact (window : Z) (jid : string) : prof unit :=
  win_append window (LContact jid).

Definition win_show_status_string (window : Z) (from : string)
    (show status : option string) (pre default_show : string) : prof unit :=
  win_append window (LStatusString from show status pre default_show).

End Registry.
Export Registry.

(** ** The room table *)

(** Modelled from the spec: the accessors of muc.c, which is not under
    src.  Each reads or writes one field of the room's record; for a
    room that is not in the table the getters answer [NULL] / [FALSE]
    and the setters do nothing. *)
Module Muc.

Definition muc_room (room : string) (st : State) : option ChatRoom :=
  rooms st !! room.

Definition muc_active (room : string) (st : State) : bool :=
  bool_decide (is_Some (rooms st !! room)).

Definition muc_nick (room : string) (st : State) : option string :=
  room_nick <$> rooms st !! room.

Definition muc_role_str (room : string) (st : State) : option string :=
  rooms st !! room ≫= room_role.

Definition muc_affiliation_str (room : string) (st : State) : option string :=
  rooms st !! room ≫= room_affiliation.

Definition muc_subject (room : string) (st : State) : option string :=
  rooms st !! room ≫= room_subject.

Definition muc_pending_broadcasts (room : string) (st : State) : list string :=
  default [] (room_pending_broadcasts <$> rooms st !! room).

Definition muc_roster (room : string) (st : State) : list Occupant :=
  default [] (room_roster <$> rooms st !! room).

Definition muc_roster_complete (room : string) (st : State) : bool :=
  default false (roster_received <$> rooms st !! room).

Definition muc_nick_change_pending (room : string) (st : State) : bool :=
  default false (pending_nick_change <$> rooms st !! room).

Definition muc_autojoin (room : string) (st : State) : bool :=
  default false (room_autojoin <$> rooms st !! room).

Definition muc_requires_config (room : string) (st : State) : bool :=
  default false (room_requires_config <$> rooms st !! room).

Definition muc_update (room : string) (f : ChatRoom -> ChatRoom) : prof unit :=
  modify (fun st => set_rooms (alter f room (rooms st)) st).

Definition muc_set_role (room : string) (role : option string) : prof unit :=
  muc_update room (fun r =>
    mkChatRoom (room_nick r) role (room_affiliation r) (room_subject r)
      (room_pending_broadcasts r) (room_roster r) (roster_received r)
      (pending_nick_change r) (room_autojoin r) (room_requires_config r)).

Definition muc_set_affiliation (room : string) (aff : option string)
    : prof unit :=
  muc_update room (fun r =>
    mkChatRoom (room_nick r) (room_role r) aff (room_subject r)
      (room_pending_broadcasts r) (room_roster r) (roster_received r)
      (pending_nick_change r) (room_autojoin r) (room_requires_config r)).

Definition muc_set_subject (room : string) (subject : option string)
    : prof unit :=
  muc_update room (fun r =>
    mkChatRoom (room_nick r) (room_role r) (room_affiliation r) subject
      (room_pending_broadcasts r) (room_roster r) (roster_received r)
      (pending_nick_change r) (room_autojoin r) (room_requires_config r)).

Definition muc_pending_broadcasts_add (room : string) (message : string)
    : prof unit :=
  muc_update room (fun r =>
    mkChatRoom (room_nick r) (room_role r) (room_affiliation r)
      (room_subject r) (room_pending_broadcasts r ++ [message])
      (room_roster r) (roster_received r) (pending_nick_change r)
      (room_autojoin r) (room_requires_config r)).

Definition muc_roster_set_complete (room : string) : prof unit :=
  muc_update room (fun r =>
    mkChatRoom (room_nick r) (room_role r) (room_affiliation r)
      (room_subject r) (room_pending_broadcasts r) (room_roster r) true
      (pending_nick_change r) (room_autojoin r) (room_requires_config r)).

Definition muc_nick_change_complete (room : string) (nick : string)
    : prof unit :=
  muc_update room (fun r =>
    mkChatRoom nick (room_role r) (room_affiliation r) (room_subject r)
      (room_pending_broadcasts r) (room_roster r) (roster_received r) false
      (room_autojoin r) (room_requires_config r)).

Definition muc_set_requires_config (room : string) (val : bool) : prof unit :=
  muc_update room (fun r =>
    mkChatRoom (room_nick r) (room_role r) (room_affiliation r)
      (room_subject r) (room_pending_broadcasts r) (room_roster r)
      (roster_received r) (pending_nick_change r) (room_autojoin r) val).

(** The occupant of that nickname is replaced, or added at the end. *)
Fixpoint roster_put (o : Occupant) (l : list Occupant) : list Occupant :=
  match l with
  | [] => [o]
  | o' :: l' =>
      if bool_decide (occ_nick o' = occ_nick o) then o :: l'
      else o' :: roster_put o l'
  end.

Definition muc_roster_add (room nick : string)
    (jid role affiliation show status : option string) : prof unit :=
  muc_update room (fun r =>
    mkChatRoom (room_nick r) (room_role r) (room_affiliation r)
      (room_subject r) (room_pending_broadcasts r)
      (roster_put (mkOccupant nick jid role affiliation show status)
                  (room_roster r))
      (roster_received r) (pending_nick_change r) (room_autojoin r)
      (room_requires_config r)).

Definition muc_leave (room : string) : prof unit :=
  modify (fun st => set_rooms (delete room (rooms st)) st).

Definition muc_invites_remove (room : string) : prof unit :=
  modify (fun st => set_invites (invites st ∖ {[room]}) st).

End Muc.
Export Muc.

(** ** Preferences (config/preferences.c) *)

Definition _get_default_boolean (pref : preference_t) : bool :=
  match pref with
  | PREF_NOTIFY_MESSAGE
  | PREF_NOTIFY_ROOM_CURRENT
  | PREF_OCCUPANTS
  | PREF_MUC_PRIVILEGES
  | PREF_WINS_AUTO_TIDY => true
  | _ => false
  end.

Definition _get_default_string (pref : preference_t) : option string :=
  match pref with
  | PREF_NOTIFY_ROOM => Some "on"
  | _ => None
  end.

Definition prefs_get_boolean (pref : preference_t) (st : State) : bool :=
  match prefs_bool st pref with
  | None => _get_default_boolean pref
  | Some b => b
  end.

Definition prefs_get_string (pref : preference_t) (st : State)
    : option string :=
  match prefs_string st pref with
  | None => _get_default_string pref
  | Some s => Some s
  end.

(** ** libc and GLib string functions *)

Definition is_space (c : ascii) : bool :=
  let n := nat_of_ascii c in
  ((n =? 32) || ((9 <=? n) && (n <=? 13)))%nat.

Definition digit_of (c : ascii) : option Z :=
  let n := nat_of_ascii c in
  if ((48 <=? n) && (n <=? 57))%nat then Some (Z.of_nat n - 48) else None.

Fixpoint skip_spaces (s : string) : string :=
  match s with
  | String c s' => if is_space c then skip_spaces s' else s
  | EmptyString => s
  end.

Fixpoint atoi_digits (s : string) (acc : Z) : Z :=
  match s with
  | String c s' =>
      match digit_of c with
      | Some d => atoi_digits s' (10 * acc + d)
      | None => acc
      end
  | EmptyString => acc
  end.

(** The number that the text of [strtol] denotes: leading white space,
    an optional sign, then decimal digits; 0 when there is no digit. *)
Definition strtol_value (s : string) : Z :=
  match skip_spaces s with
  | String "-" s' => - atoi_digits s' 0
  | String "+" s' => atoi_digits s' 0
  | s' => atoi_digits s' 0
  end.

Definition LONG_MAX : Z := 9223372036854775807.
Definition LONG_MIN : Z := - 9223372036854775808.

(** [strtol(s, NULL, 10)]: the value, held to the range of [long]. *)
Definition strtol (s : string) : Z :=
  Z.max LONG_MIN (Z.min LONG_MAX (strtol_value s)).

(** [atoi(s)], which the C library computes as [(int) strtol(s, NULL, 10)]:
    the result is an [int], so a numeral beyond [INT_MAX] comes back
    truncated to its low 32 bits ([atoi("4294967298")] is 2). *)
Definition atoi (s : string) : Z := int_wrap (strtol s).

(** ** Reading a C string by index

    [line[i]], [&line[i]] and [line + i] read the bytes of the string
    and then its terminating NUL.  Beyond the terminator they read
    whatever follows the string in memory, which the program does not
    determine: [after] stands for those bytes (and the bytes beyond
    [after] read as NUL). *)
Definition NUL : ascii := "000"%char.

Definition c_bytes (s after : string) : string := s +:+ String NUL after.

(** [bytes[i]]. *)
Definition c_index (i : nat) (bytes : string) : ascii :=
  default NUL (String.get i bytes).

(** [bytes + i]. *)
Fixpoint c_offset (i : nat) (bytes : string) : string :=
  match i, bytes with
  | O, _ => bytes
  | S i', String _ rest => c_offset i' rest
  | S _, EmptyString => EmptyString
  end.

(** The C string that starts at [bytes]: the bytes before the first
    NUL. *)
Fixpoint c_str (bytes : string) : string :=
  match bytes with
  | String c rest =>
      if bool_decide (c = NUL) then EmptyString else String c (c_str rest)
  | EmptyString => EmptyString
  end.

(** [char buf[3]; memcpy(buf, &bytes[i], 2); buf[2] = '\0';] as a C
    string. *)
Definition c_copy2 (i : nat) (bytes : string) : string :=
  c_str (String (c_index i bytes) (String (c_index (S i) bytes) EmptyString)).

(** [g_date_time_new_local(year, month, day, hour, minute, seconds)]:
    [NULL] unless the arguments name a date and a time of day.  The
    history is the only caller and always passes 1 January 2000, so a
    [Timestamp] keeps the time of day alone. *)
Definition is_leap_year (year : Z) : bool :=
  (((year mod 4 =? 0) && negb (year mod 100 =? 0)) || (year mod 400 =? 0))%Z.

Definition days_in_month (year month : Z) : Z :=
  if (month =? 2)%Z then (if is_leap_year year then 29 else 28)
  else if ((month =? 4) || (month =? 6) || (month =? 9) || (month =? 11))%Z
       then 30
  else 31.

Definition g_date_time_new_local (year month day hour minute seconds : Z)
    : option GDateTime :=
  if ((1 <=? year) && (year <=? 9999) && (1 <=? month) && (month <=? 12)
      && (1 <=? day) && (day <=? days_in_month year month)
      && (0 <=? hour) && (hour <=? 23) && (0 <=? minute) && (minute <=? 59)
      && (0 <=? seconds) && (seconds <=? 59))%Z
  then Some (Timestamp hour minute seconds)
  else None.

(** [g_strrstr(haystack, needle) != NULL]. *)
Definition g_strrstr (haystack needle : string) : bool :=
  bool_decide (is_Some (String.index 0 needle haystack)).

(** [g_strcmp0(a, b) == 0], where either argument may be [NULL]. *)
Definition g_strcmp0_eq (a b : option string) : bool := bool_decide (a = b).

(** ** Collaborators outside the core *)

Record Jid := mkJid {
  jid_barejid : string;
  jid_localpart : option string
}.

(** The roster, the connection, the chat logs, the encryption engines
    and GLib's Unicode tables are consulted through these functions;
    the core only uses their answers. *)
Record Externals := mkExternals {
  HAVE_LIBOTR : bool;                       (* build configuration *)
  HAVE_LIBGPGME : bool;
  roster_get_msg_display_name : string -> option string -> string;
  roster_get_contact : string -> bool;       (* the contact is not NULL *)
  p_contact_presence : string -> string;
  p_contact_status : string -> option string;
  roster_barejid_from_name : string -> option string;
  get_nick_from_full_jid : string -> string;
  jabber_get_fulljid : string;
  jabber_get_account_pgp_keyid : option string;
  jid_create : string -> Jid;
  chat_log_get_previous : string -> string -> list string;
  memory_after : string -> string;   (* the bytes behind a log line *)
  g_utf8_strdown : string -> string;
  p_gpg_decrypt : string -> option string;
  p_gpg_valid_key : option string -> bool;
  p_gpg_available : string -> bool;
  otr_on_message_recv : string -> option string -> string
                        -> option string * bool;
  otr_key_loaded : bool;
  otr_is_secure : string -> bool;
  otr_is_trusted : string -> bool;
  otr_start_query : string;
  wins_tidy : State -> bool * State;
  wins_get_prune_wins : State -> list Z
}.

(** ** Typed access to the window a pointer is cast to

    [(ProfChatWin* )window] and the like: the casts of the source are
    guarded by the window's type tag, so reading the fields of the
    wrong kind of window ends the run. *)

Definition chatwin_of (window : Z) : prof ProfChatWin := fun st =>
  match windows st !! window with
  | Some (mkWin (KChat c) _) => Some (c, st)
  | _ => None
  end.

Definition mucwin_of (window : Z) : prof ProfMucWin := fun st =>
  match windows st !! window with
  | Some (mkWin (KMuc m) _) => Some (m, st)
  | _ => None
  end.

Definition confwin_of (window : Z) : prof ProfMucConfWin := fun st =>
  match windows st !! window with
  | Some (mkWin (KMucConf c) _) => Some (c, st)
  | _ => None
  end.

Definition privatewin_of (window : Z) : prof ProfPrivateWin := fun st =>
  match windows st !! window with
  | Some (mkWin (KPrivate p) _) => Some (p, st)
  | _ => None
  end.

Definition win_type_of (window : Z) : prof win_type_t := fun st =>
  match windows st !! window with
  | Some w => Some (win_type w, st)
  | None => None
  end.

Definition kind_of (window : Z) : prof WinKind := fun st =>
  match windows st !! window with
  | Some w => Some (kind w, st)
  | None => None
  end.

(** [strcmp(a, b) == 0]; [b] must not be [NULL]. *)
Definition strcmp_eq (a : string) (b : option string) : prof bool :=
  match b with
  | Some b' => ret (bool_decide (a = b'))
  | None => crash
  end.

(** Assignment to the fields of the window behind a pointer. *)
Definition set_kind (window : Z) (k : WinKind) : prof unit := fun st =>
  match windows st !! window with
  | Some w =>
      Some (tt, set_windows (<[window := mkWin k (buffer w)]> (windows st)) st)
  | None => None
  end.

(** [chatwin->unread++] *)
Definition chatwin_unread_incr (chatwin : Z) : prof unit :=
  c ← chatwin_of chatwin;
  set_kind chatwin
    (KChat (mkChatWin (barejid c) (int_incr (chat_unread c)) (enc_mode c)
                      (chat_otr_is_trusted c) (history_shown c))).

(** [privatewin->unread++] *)
Definition privatewin_unread_incr (privatewin : Z) : prof unit :=
  p ← privatewin_of privatewin;
  set_kind privatewin
    (KPrivate (mkPrivateWin (fulljid p) (int_incr (priv_unread p)))).

(** [mucwin->unread++] *)
Definition mucwin_unread_incr (mucwin : Z) : prof unit :=
  m ← mucwin_of mucwin;
  set_kind mucwin (KMuc (mkMucWin (roomjid m) (int_incr (muc_unread m)))).

(** [chatwin->enc_mode = mode] *)
Definition chatwin_set_enc_mode (chatwin : Z) (mode : prof_enc_t)
    : prof unit :=
  c ← chatwin_of chatwin;
  set_kind chatwin
    (KChat (mkChatWin (barejid c) (chat_unread c) mode
                      (chat_otr_is_trusted c) (history_shown c))).

(** [chatwin->otr_is_trusted = trusted] *)
Definition chatwin_set_otr_is_trusted (chatwin : Z) (trusted : bool)
    : prof unit :=
  c ← chatwin_of chatwin;
  set_kind chatwin
    (KChat (mkChatWin (barejid c) (chat_unread c) (enc_mode c)
                      trusted (history_shown c))).

(** [chatwin->history_shown = TRUE] *)
Definition chatwin_set_history_shown (chatwin : Z) : prof unit :=
  c ← chatwin_of chatwin;
  set_kind chatwin
    (KChat (mkChatWin (barejid c) (chat_unread c) (enc_mode c)
                      (chat_otr_is_trusted c) true)).

(** ** ui/core.c *)

Section Core.

Context (E : Externals).

Definition ui_current_print_line (msg : string) (args : list fmt_arg)
    : prof unit :=
  window ← gets wins_get_current;
  win_vprint window "-" None [] THEME_DEFAULT "" msg args.

Definition ui_current_print_formatted_line (show_char : ascii)
    (attrs : theme_item_t) (msg : string) (args : list fmt_arg) : prof unit :=
  current ← gets wins_get_current;
  win_vprint current show_char None [] attrs "" msg args.

Definition cons_show (fmt : string) (args : list fmt_arg) : prof unit :=
  emit (ConsShow fmt args).

(** One line of the chat log: a line whose third byte is a colon is an
    entry [hh:mm:ss - text], anything else a header.  The entry is read
    by index without a look at its length, so a line shorter than an
    entry is read beyond its end. *)
Definition history_line (line : string) : Line :=
  let bytes := c_bytes line (memory_after E line) in
  if bool_decide (c_index 2 bytes = ":"%char) then
    let ihh := atoi (c_copy2 0 bytes) in
    let imm := atoi (c_copy2 3 bytes) in
    let iss := atoi (c_copy2 6 bytes) in
    let timestamp := g_date_time_new_local 2000 1 1 ihh imm iss in
    LPrint "-" timestamp [NO_COLOUR_DATE] THEME_DEFAULT
           "" (c_str (c_offset 11 bytes)) []
  else
    LPrint "-" None [] THEME_DEFAULT "" line [].

Definition _win_show_history (chatwin : Z) (contact : string) : prof unit :=
  c ← chatwin_of chatwin;
  if negb (history_shown c) then
    let jid := jid_create E (jabber_get_fulljid E) in
    let history := chat_log_get_previous E (jid_barejid jid) contact in
    for_each history (fun line => win_append chatwin (history_line line));;
    chatwin_set_history_shown chatwin
  else ret tt.

Definition ui_incoming_msg (chatwin : Z) (resource : option string)
    (message : string) (timestamp : option GDateTime) (win_created : bool)
    (enc : prof_enc_t) : prof unit :=
  let window := chatwin in
  let num := wins_get_num window in
  c ← chatwin_of chatwin;
  let display_name := roster_get_msg_display_name E (barejid c) resource in
  is_current ← gets (wins_is_current window);
  (* currently viewing chat window with sender *)
  (if is_current then
     win_print_incoming_message window timestamp display_name message enc;;
     emit (TitleBarSetTyping false);;
     emit (StatusBarActive num)
   (* not currently viewing chat window with sender *)
   else
     emit (StatusBarNew num);;
     emit (ConsShowIncomingMessage display_name num);;
     flash ← gets (prefs_get_boolean PREF_FLASH);
     when flash (emit Flash);;
     chatwin_unread_incr chatwin;;
     chlog ← gets (prefs_get_boolean PREF_CHLOG);
     history ← gets (prefs_get_boolean PREF_HISTORY);
     when (chlog && history) (_win_show_history chatwin (barejid c));;
     (* show users status first, when receiving message via delayed delivery *)
     when (bool_decide (is_Some timestamp) && win_created)
       (when (roster_get_contact E (barejid c))
          (win_show_contact window (barejid c)));;
     win_print_incoming_message window timestamp display_name message enc);;
  beep ← gets (prefs_get_boolean PREF_BEEP);
  when beep (emit Beep);;
  notify ← gets (prefs_get_boolean PREF_NOTIFY_MESSAGE);
  when notify (emit (NotifyMessage window display_name message)).

Definition ui_incoming_private_msg (fulljid : string) (message : string)
    (timestamp : option GDateTime) : prof unit :=
  let display_from := get_nick_from_full_jid E fulljid in
  found ← gets (wins_get_private fulljid);
  privatewin ← match found with
               | None => wins_new_private fulljid
               | Some p => ret p
               end;
  let window := privatewin in
  let num := wins_get_num window in
  is_current ← gets (wins_is_current window);
  (* currently viewing chat window with sender *)
  (if is_current then
     win_print_incoming_message window timestamp display_from message
                                PROF_ENC_NONE;;
     emit (TitleBarSetTyping false);;
     emit (StatusBarActive num)
   (* not currently viewing chat window with sender *)
   else
     privatewin_unread_incr privatewin;;
     emit (StatusBarNew num);;
     emit (ConsShowIncomingMessage display_from num);;
     win_print_incoming_message window timestamp display_from message
                                PROF_ENC_NONE;;
     flash ← gets (prefs_get_boolean PREF_FLASH);
     when flash (emit Flash));;
  beep ← gets (prefs_get_boolean PREF_BEEP);
  when beep (emit Beep);;
  notify ← gets (prefs_get_boolean PREF_NOTIFY_MESSAGE);
  when notify (emit (NotifyMessage window display_from message)).

Definition ui_room_message (roomjid nick message : string) : prof unit :=
  mucwin ← gets (wins_get_muc roomjid);
  match mucwin with
  | None =>
      emit (LogError "Room message received from %s, but no window open for %s"
                     [ArgS (Some nick); ArgS (Some roomjid)])
  | Some mucwin =>
      let window := mucwin in
      let num := wins_get_num window in
      my_nick ← gets (muc_nick roomjid);
      (if negb (g_strcmp0_eq (Some nick) my_nick) then
         if match my_nick with
            | Some my_nick => g_strrstr message my_nick
            | None => false
            end
         then win_print (Some window) "-" None [NO_ME] THEME_ROOMMENTION
                        nick message
         else win_print (Some window) "-" None [NO_ME] THEME_TEXT_THEM
                        nick message
       else win_print (Some window) "-" None [] THEME_TEXT_ME nick message);;
      is_current ← gets (wins_is_current window);
      (* currently in groupchat window *)
      (if is_current then emit (StatusBarActive num)
       (* not currently on groupchat window *)
       else
         emit (StatusBarNew num);;
         emit (ConsShowIncomingMessage nick num);;
         flash ← gets (prefs_get_boolean PREF_FLASH);
         (if flash then
            same ← strcmp_eq nick my_nick;
            when (negb same) (emit Flash)
          else ret tt);;
         mucwin_unread_incr mucwin);;
      let ui_index := if bool_decide (num = 10) then 0 else num in
      (* don't notify self messages *)
      self ← strcmp_eq nick my_nick;
      if self then ret tt
      else
        beep ← gets (prefs_get_boolean PREF_BEEP);
        when beep (emit Beep);;
        room_setting ← gets (prefs_get_string PREF_NOTIFY_ROOM);
        let notify :=
          g_strcmp0_eq room_setting (Some "on")
          || (g_strcmp0_eq room_setting (Some "mention")
              && g_strrstr (g_utf8_strdown E message) (g_utf8_strdown E nick)) in
        if notify then
          is_current ← gets (wins_is_current window);
          notify_current ← gets (prefs_get_boolean PREF_NOTIFY_ROOM_CURRENT);
          if negb is_current || (is_current && notify_current) then
            let jidp := jid_create E roomjid in
            text ← gets (prefs_get_boolean PREF_NOTIFY_ROOM_TEXT);
            if text then
              emit (NotifyRoomMessage nick (jid_localpart jidp) ui_index
                                      (Some message))
            else
              emit (NotifyRoomMessage nick (jid_localpart jidp) ui_index None)
          else ret tt
        else ret tt
  end.

Definition ui_win_unread (index : Z) (st : State) : Z :=
  match wins_get_by_num index st with
  | Some window => default 0 (win_unread <$> windows st !! window)
  | None => 0
  end.

(** Modelled from the spec: command.c is not under src.  The command
    autocompleter holds the registered command names; registering the
    fields of a form adds ["/" ++ tag] for each field tag and
    deregistering removes them (section 4.1, [set_current]).  Each call
    is also recorded in the trace. *)
Definition form_field_commands (f : DataForm) : gset string :=
  list_to_set ((fun tag => "/" +:+ tag) <$> form_tags f).

Definition cmd_autocomplete_add_form_fields (f : option DataForm)
    : prof unit :=
  emit (AcAddFormFields f);;
  match f with
  | Some f' =>
      modify (fun st =>
        set_commands_ac (commands_ac st ∪ form_field_commands f') st)
  | None => ret tt
  end.

Definition cmd_autocomplete_remove_form_fields (f : option DataForm)
    : prof unit :=
  emit (AcRemoveFormFields f);;
  match f with
  | Some f' =>
      modify (fun st =>
        set_commands_ac (commands_ac st ∖ form_field_commands f') st)
  | None => ret tt
  end.

Definition ui_win_has_unsaved_form (num : Z) : prof bool :=
  window ← gets (wins_get_by_num num);
  window ← deref window;
  k ← kind_of window;
  match k with
  | KMucConf confwin =>
      f ← deref (form confwin);
      ret (modified f)
  | _ => ret false
  end.

Definition ui_switch_win (window : option Z) : prof unit :=
  window ← deref window;              (* assert(window != NULL) *)
  old_current ← gets wins_get_current;
  old_current ← deref old_current;
  old_kind ← kind_of old_current;
  match old_kind with
  | KMucConf confwin => cmd_autocomplete_remove_form_fields (form confwin)
  | _ => ret tt
  end;;
  k ← kind_of window;
  match k with
  | KMucConf confwin => cmd_autocomplete_add_form_fields (form confwin)
  | _ => ret tt
  end;;
  let i := wins_get_num window in
  wins_set_current_by_num i;;
  (if bool_decide (i = 1) then emit TitleBarConsole else emit TitleBarSwitch);;
  emit (StatusBarCurrent i);;
  emit (StatusBarActive i).

(** Modelled from the spec: event/ui_events.c is not under src.  The
    focus event switches the current window ([set_current]), and the
    new-chat-window event creates the window through the UI. *)
Definition ui_ev_focus_win (win : option Z) : prof unit := ui_switch_win win.

Definition ui_gone_secure (jid : string) (trusted : bool) : prof unit :=
  chatwin ← gets (wins_get_chat jid);
  window ← match chatwin with
           | Some chatwin => ret chatwin
           | None => wins_new_chat jid
           end;
  let chatwin := window in
  chatwin_set_enc_mode chatwin PROF_ENC_OTR;;
  chatwin_set_otr_is_trusted chatwin trusted;;
  (if trusted then
     win_print (Some window) "!" None [] THEME_OTR_STARTED_TRUSTED ""
               "OTR session started (trusted)."
   else
     win_print (Some window) "!" None [] THEME_OTR_STARTED_UNTRUSTED ""
               "OTR session started (untrusted).");;
  is_current ← gets (wins_is_current window);
  if is_current then emit TitleBarSwitch
  else
    let num := wins_get_num window in
    emit (StatusBarNew num);;
    let ui_index := if bool_decide (num = 10) then 0 else num in
    cons_show "%s started an OTR session (%d)."
              [ArgS (Some jid); ArgD ui_index];;
    emit ConsAlert.

Definition ui_gone_insecure (jid : string) : prof unit :=
  chatwin ← gets (wins_get_chat jid);
  match chatwin with
  | Some chatwin =>
      chatwin_set_enc_mode chatwin PROF_ENC_NONE;;
      chatwin_set_otr_is_trusted chatwin false;;
      let window := chatwin in
      win_print (Some window) "!" None [] THEME_OTR_ENDED ""
                "OTR session ended.";;
      is_current ← gets (wins_is_current window);
      when is_current (emit TitleBarSwitch)
  | None => ret tt
  end.

Definition ui_close_win (index : Z) : prof unit :=
  window ← gets (wins_get_by_num index);
  match window with
  | Some window =>
      k ← kind_of window;
      match k with
      | KMucConf confwin =>
          match form confwin with
          | Some _ => cmd_autocomplete_remove_form_fields (form confwin)
          | None => ret tt
          end
      | _ => ret tt
      end
  | None => ret tt
  end;;
  wins_close_by_num index;;
  emit TitleBarConsole;;
  emit (StatusBarCurrent 1);;
  emit (StatusBarActive 1).

Definition ui_tidy_wins : prof bool := fun st => Some (wins_tidy E st).

Definition ui_swap_wins (source_win target_win : Z) : prof bool :=
  wins_swap source_win target_win.

Definition ui_leave_room (roomjid : string) : prof unit :=
  window ← gets (wins_get_muc roomjid);
  match window with
  | Some window =>
      let num := wins_get_num window in
      ui_close_win num
  | None => ret tt
  end.

Definition ui_close_connected_win (index : Z) : prof unit :=
  window ← gets (wins_get_by_num index);
  match window with
  | Some window =>
      k ← kind_of window;
      match k with
      | KMuc mucwin =>
          emit (Net (PresenceLeaveChatRoom (roomjid mucwin)));;
          muc_leave (roomjid mucwin);;
          ui_leave_room (roomjid mucwin)
      | KChat chatwin =>
          when (HAVE_LIBOTR E
                && bool_decide (enc_mode chatwin = PROF_ENC_OTR))
               (emit (Net (OtrEndSession (barejid chatwin))));;
          emit (ChatStateGone (barejid chatwin));;
          emit (ChatSessionRemove (barejid chatwin))
      | _ => ret tt
      end
  | None => ret tt
  end.

Definition ui_new_chat_win (jid : string) : prof Z :=
  window ← wins_new_chat jid;
  let chatwin := window in
  chlog ← gets (prefs_get_boolean PREF_CHLOG);
  history ← gets (prefs_get_boolean PREF_HISTORY);
  when (chlog && history) (_win_show_history chatwin jid);;
  (* if the contact is offline, show a message *)
  when (roster_get_contact E jid
        && bool_decide (p_contact_presence E jid = "offline"))
       (win_show_status_string window jid
          (Some (p_contact_presence E jid)) (p_contact_status E jid)
          "--" "offline");;
  ret chatwin.

Definition ui_ev_new_chat_win (jid : string) : prof Z := ui_new_chat_win jid.

Definition occupantswin_occupants (room : string) : prof unit :=
  emit (OccupantsWin room).

Definition ui_room_join (roomjid : string) (focus : bool) : prof unit :=
  window ← gets (wins_get_muc roomjid);
  window ← match window with
           | Some window => ret window
           | None => wins_new_muc roomjid
           end;
  nick ← gets (muc_nick roomjid);
  win_vprint (Some window) "!" None [NO_EOL] THEME_ROOMINFO ""
             "-> You have joined the room as %s" [ArgS nick];;
  privileges ← gets (prefs_get_boolean PREF_MUC_PRIVILEGES);
  (if privileges then
     role ← gets (muc_role_str roomjid);
     affiliation ← gets (muc_affiliation_str roomjid);
     when (bool_decide (is_Some role))
          (win_vprint (Some window) "!" None [NO_DATE; NO_EOL] THEME_ROOMINFO
                      "" ", role: %s" [ArgS role]);;
     when (bool_decide (is_Some affiliation))
          (win_vprint (Some window) "!" None [NO_DATE; NO_EOL] THEME_ROOMINFO
                      "" ", affiliation: %s" [ArgS affiliation])
   else ret tt);;
  win_print (Some window) "!" None [NO_DATE] THEME_ROOMINFO "" "";;
  if focus then ui_ev_focus_win (Some window)
  else
    let num := wins_get_num window in
    emit (StatusBarActive num);;
    console ← gets wins_get_console;
    nick ← gets (muc_nick roomjid);
    win_vprint console "!" None [] THEME_TYPING ""
               "-> Autojoined %s as %s (%d)."
               [ArgS (Some roomjid); ArgS nick; ArgD num].

Definition ui_room_role_change (roomjid : string)
    (role actor reason : option string) : prof unit :=
  window ← gets (wins_get_muc roomjid);
  win_vprint window "!" None [NO_EOL] THEME_ROOMINFO ""
             "Your role has been changed to: %s" [ArgS role];;
  when (bool_decide (is_Some actor))
       (win_vprint window "!" None [NO_DATE; NO_EOL] THEME_ROOMINFO ""
                   ", by: %s" [ArgS actor]);;
  when (bool_decide (is_Some reason))
       (win_vprint window "!" None [NO_DATE; NO_EOL] THEME_ROOMINFO ""
                   ", reason: %s" [ArgS reason]);;
  win_print window "!" None [NO_DATE] THEME_ROOMINFO "" "".

Definition ui_room_affiliation_change (roomjid : string)
    (affiliation actor reason : option string) : prof unit :=
  window ← gets (wins_get_muc roomjid);
  win_vprint window "!" None [NO_EOL] THEME_ROOMINFO ""
             "Your affiliation has been changed to: %s" [ArgS affiliation];;
  when (bool_decide (is_Some actor))
       (win_vprint window "!" None [NO_DATE; NO_EOL] THEME_ROOMINFO ""
                   ", by: %s" [ArgS actor]);;
  when (bool_decide (is_Some reason))
       (win_vprint window "!" None [NO_DATE; NO_EOL] THEME_ROOMINFO ""
                   ", reason: %s" [ArgS reason]);;
  win_print window "!" None [NO_DATE] THEME_ROOMINFO "" "".

Definition ui_room_role_and_affiliation_change (roomjid : string)
    (role affiliation actor reason : option string) : prof unit :=
  window ← gets (wins_get_muc roomjid);
  win_vprint window "!" None [NO_EOL] THEME_ROOMINFO ""
    "Your role and affiliation have been changed, role: %s, affiliation: %s"
    [ArgS role; ArgS affiliation];;
  when (bool_decide (is_Some actor))
       (win_vprint window "!" None [NO_DATE; NO_EOL] THEME_ROOMINFO ""
                   ", by: %s" [ArgS actor]);;
  when (bool_decide (is_Some reason))
       (win_vprint window "!" None [NO_DATE; NO_EOL] THEME_ROOMINFO ""
                   ", reason: %s" [ArgS reason]);;
  win_print window "!" None [NO_DATE] THEME_ROOMINFO "" "".

(** The body of the [while (roster)] loop of [ui_room_roster]. *)
Fixpoint ui_room_roster_loop (window : Z) (roster : list Occupant)
    : prof unit :=
  match roster with
  | [] => ret tt
  | occupant :: next =>
      let presence_str := default "online" (occ_show occupant) in
      win_vprint (Some window) "!" None [NO_DATE; NO_EOL]
                 (THEME_PRESENCE presence_str) "" "%s"
                 [ArgS (Some (occ_nick occupant))];;
      match next with
      | _ :: _ =>
          win_print (Some window) "!" None [NO_DATE; NO_EOL] THEME_DEFAULT
                    "" ", "
      | [] => ret tt
      end;;
      ui_room_roster_loop window next
  end.

Definition ui_room_roster (roomjid : string) (roster : list Occupant)
    (presence : option string) : prof unit :=
  window ← gets (wins_get_muc roomjid);
  match window with
  | None =>
      emit (LogError "Received room roster but no window open for %s."
                     [ArgS (Some roomjid)])
  | Some window =>
      match roster with
      | [] =>
          match presence with
          | None =>
              win_print (Some window) "!" None [] THEME_ROOMINFO ""
                        "Room is empty."
          | Some _ =>
              win_vprint (Some window) "!" None [] THEME_ROOMINFO ""
                         "No occupants %s." [ArgS presence]
          end
      | _ :: _ =>
          let length := Z.of_nat (List.length roster) in
          match presence with
          | None =>
              win_vprint (Some window) "!" None [NO_EOL] THEME_ROOMINFO ""
                         "%d occupants: " [ArgD length]
          | Some _ =>
              win_vprint (Some window) "!" None [NO_EOL] THEME_ROOMINFO ""
                         "%d %s: " [ArgD length; ArgS presence]
          end;;
          ui_room_roster_loop window roster;;
          win_print (Some window) "!" None [NO_DATE] THEME_ONLINE "" ""
      end
  end.

Definition ui_room_nick_change (roomjid nick : string) : prof unit :=
  window ← gets (wins_get_muc roomjid);
  match window with
  | None =>
      emit (LogError "Received self nick change %s, but no window open for %s."
                     [ArgS (Some nick); ArgS (Some roomjid)])
  | Some window =>
      win_vprint (Some window) "!" None [] THEME_ME ""
                 "** You are now known as %s" [ArgS (Some nick)]
  end.

Definition ui_room_subject (roomjid : string) (nick subject : option string)
    : prof unit :=
  window ← gets (wins_get_muc roomjid);
  match window with
  | None =>
      emit (LogError "Received room subject, but no window open for %s."
                     [ArgS (Some roomjid)])
  | Some window =>
      let num := wins_get_num window in
      match subject, nick with
      | Some _, Some _ =>
          win_vprint (Some window) "!" None [NO_EOL] THEME_ROOMINFO ""
                     "*%s has set the room subject: " [ArgS nick];;
          win_vprint (Some window) "!" None [NO_DATE] THEME_DEFAULT ""
                     "%s" [ArgS subject]
      | Some _, None =>
          win_vprint (Some window) "!" None [NO_EOL] THEME_ROOMINFO ""
                     "Room subject: " [];;
          win_vprint (Some window) "!" None [NO_DATE] THEME_DEFAULT ""
                     "%s" [ArgS subject]
      | None, Some _ =>
          win_vprint (Some window) "!" None [] THEME_ROOMINFO ""
                     "*%s has cleared the room subject: " [ArgS nick]
      | None, None =>
          win_vprint (Some window) "!" None [] THEME_ROOMINFO ""
                     "Room subject cleared" []
      end;;
      is_current ← gets (wins_is_current window);
      (* currently in groupchat window *)
      if is_current then emit (StatusBarActive num)
      (* not currently on groupchat window *)
      else emit (StatusBarActive num)
  end.

Definition ui_room_broadcast (roomjid message : string) : prof unit :=
  window ← gets (wins_get_muc roomjid);
  match window with
  | None =>
      emit (LogError "Received room broadcast, but no window open for %s."
                     [ArgS (Some roomjid)])
  | Some window =>
      let num := wins_get_num window in
      win_vprint (Some window) "!" None [NO_EOL] THEME_ROOMINFO ""
                 "Room message: " [];;
      win_vprint (Some window) "!" None [NO_DATE] THEME_DEFAULT ""
                 "%s" [ArgS (Some message)];;
      is_current ← gets (wins_is_current window);
      (* currently in groupchat window *)
      if is_current then emit (StatusBarActive num)
      (* not currently on groupchat window *)
      else emit (StatusBarNew num)
  end.

Definition ui_room_requires_config (roomjid : string) : prof unit :=
  window ← gets (wins_get_muc roomjid);
  match window with
  | None =>
      emit (LogError
              "Received room config request, but no window open for %s."
              [ArgS (Some roomjid)])
  | Some window =>
      let num := wins_get_num window in
      win_print (Some window) "-" None [] THEME_DEFAULT "" "";;
      win_vprint (Some window) "!" None [] THEME_ROOMINFO ""
                 "Room locked, requires configuration." [];;
      win_vprint (Some window) "!" None [] THEME_ROOMINFO ""
                 "Use '/room accept' to accept the defaults" [];;
      win_vprint (Some window) "!" None [] THEME_ROOMINFO ""
                 "Use '/room destroy' to cancel and destroy the room" [];;
      win_vprint (Some window) "!" None [] THEME_ROOMINFO ""
                 "Use '/room config' to edit the room configuration" [];;
      win_print (Some window) "-" None [] THEME_DEFAULT "" "";;
      is_current ← gets (wins_is_current window);
      (* currently in groupchat window *)
      if is_current then emit (StatusBarActive num)
      (* not currently on groupchat window *)
      else emit (StatusBarNew num)
  end.

End Core.

(** ** event/server_events.c *)

Section ServerEvents.

Context (E : Externals).

(** The call sites of [ui_incoming_msg] in this file pass five
    arguments; [enc_arg] stands for the sixth, [enc_mode], which only
    selects the character shown in front of the rendered message. *)
Context (enc_arg : prof_enc_t).

Definition sv_ev_room_broadcast (room_jid message : string) : prof unit :=
  complete ← gets (muc_roster_complete room_jid);
  if complete then ui_room_broadcast room_jid message
  else muc_pending_broadcasts_add room_jid message.

Definition sv_ev_room_subject (room : string) (nick subject : option string)
    : prof unit :=
  muc_set_subject room subject;;
  complete ← gets (muc_roster_complete room);
  when complete (ui_room_subject room nick subject).

Definition sv_ev_room_message (room_jid nick message : string) : prof unit :=
  ui_room_message E room_jid nick message;;
  grlog ← gets (prefs_get_boolean PREF_GRLOG);
  when grlog
    (let jid := jid_create E (jabber_get_fulljid E) in
     emit (GroupchatLogChat (jid_barejid jid) room_jid nick message)).

Definition sv_ev_incoming_private_message (fulljid message : string)
    : prof unit :=
  ui_incoming_private_msg E fulljid message None.

Definition sv_ev_delayed_private_message (fulljid message : string)
    (timestamp : option GDateTime) : prof unit :=
  ui_incoming_private_msg E fulljid message timestamp.





Definition sv_ev_muc_self_online (room nick : string) (config_required : bool)
    (role affiliation actor reason jid show status : option string)
    : prof unit :=
  muc_roster_add room nick jid role affiliation show status;;
  old_role ← gets (muc_role_str room);
  old_affiliation ← gets (muc_affiliation_str room);
  muc_set_role room role;;
  muc_set_affiliation room affiliation;;
  nick_change_pending ← gets (muc_nick_change_pending room);
  (* handle self nick change *)
  (if nick_change_pending then
     muc_nick_change_complete room nick;;
     ui_room_nick_change room nick
   else
   roster_complete ← gets (muc_roster_complete room);
   (* handle roster complete *)
   if negb roster_complete then
     autojoin ← gets (muc_autojoin room);
     (if autojoin then ui_room_join room false
      else ui_room_join room true);;
     emit (Net (IqRoomInfoRequest room false));;
     muc_invites_remove room;;
     muc_roster_set_complete room;;
     (* show roster if occupants list disabled by default *)
     occupants_pref ← gets (prefs_get_boolean PREF_OCCUPANTS);
     (if negb occupants_pref then
        occupants ← gets (muc_roster room);
        ui_room_roster room occupants None
      else ret tt);;
     subject ← gets (muc_subject room);
     (match subject with
      | Some _ => ui_room_subject room None subject
      | None => ret tt
      end);;
     pending_broadcasts ← gets (muc_pending_broadcasts room);
     for_each pending_broadcasts (fun data => ui_room_broadcast room data);;
     (* room configuration required *)
     (if config_required then
        muc_set_requires_config room true;;
        ui_room_requires_config room
      else ret tt)
   (* check for change in role/affiliation *)
   else
     privileges ← gets (prefs_get_boolean PREF_MUC_PRIVILEGES);
     if privileges then
       (* both changed *)
       if negb (g_strcmp0_eq role old_role)
          && negb (g_strcmp0_eq affiliation old_affiliation) then
         ui_room_role_and_affiliation_change room role affiliation actor reason
       (* role changed *)
       else if negb (g_strcmp0_eq role old_role) then
         ui_room_role_change room role actor reason
       (* affiliation changed *)
       else if negb (g_strcmp0_eq affiliation old_affiliation) then
         ui_room_affiliation_change room affiliation actor reason
       else ret tt
     else ret tt);;
  occupantswin_occupants room.

End ServerEvents.

(** ** ui/core.c: closing windows *)

Section Closing.

Context (E : Externals).

Definition wins_get_nums (st : State) : list Z := elements (dom (windows st)).

(** The loop shared by [ui_close_all_wins] and [ui_close_read_wins];
    [closable num] is the condition of its [if]. *)
Fixpoint close_wins_loop (closable : Z -> prof bool)
    (status : jabber_conn_status_t) (curr : list Z) (count : Z) : prof Z :=
  match curr with
  | [] => ret count
  | num :: next =>
      ok ← closable num;
      if ok then
        when (bool_decide (status = JABBER_CONNECTED))
             (ui_close_connected_win E num);;
        ui_close_win num;;
        close_wins_loop closable status next (count + 1)
      else close_wins_loop closable status next count
  end.

Definition ui_close_all_wins : prof Z :=
  status ← gets conn_status;
  win_nums ← gets wins_get_nums;
  close_wins_loop
    (fun num =>
       if bool_decide (num ≠ 1) then
         unsaved ← ui_win_has_unsaved_form num;
         ret (negb unsaved)
       else ret false)
    status win_nums 0.

Definition ui_close_read_wins : prof Z :=
  status ← gets conn_status;
  win_nums ← gets wins_get_nums;
  close_wins_loop
    (fun num =>
       unread ← gets (ui_win_unread num);
       if bool_decide (num ≠ 1) && bool_decide (unread = 0) then
         unsaved ← ui_win_has_unsaved_form num;
         ret (negb unsaved)
       else ret false)
    status win_nums 0.

Definition ui_prune_wins : prof unit :=
  status ← gets conn_status;
  wins ← gets (wins_get_prune_wins E);
  let pruned := bool_decide (wins ≠ []) in
  for_each wins (fun window =>
    k ← kind_of window;
    match k with
    | KChat chatwin =>
        when (bool_decide (status = JABBER_CONNECTED))
             (emit (ChatSessionRemove (barejid chatwin)))
    | _ => ret tt
    end;;
    let num := wins_get_num window in
    ui_close_win num);;
  _ ← ui_tidy_wins E;
  if pruned then cons_show "Windows pruned." []
  else cons_show "No prune needed." [].

End Closing.

(** ** command/commands.c *)

Section Commands.

Context (E : Externals).

Definition cons_bad_cmd_usage (command : string) : prof unit :=
  emit (ConsBadCmdUsage command).

Definition closed_message (count : Z) : prof unit :=
  if bool_decide (count = 0) then cons_show "No windows to close." []
  else if bool_decide (count = 1) then cons_show "Closed 1 window." []
  else cons_show "Closed %d windows." [ArgD count].

(** The part of [cmd_close] that follows the choice of [index]. *)
Definition cmd_close_index (status : jabber_conn_status_t) (index : Z)
    : prof bool :=
  if bool_decide (index < 0) || bool_decide (index = 10) then
    cons_show "No such window exists." [];;
    ret true
  else if bool_decide (index = 1) then
    cons_show "Cannot close console window." [];;
    ret true
  else
    toclose ← gets (wins_get_by_num index);
    match toclose with
    | None =>
        cons_show "Window is not open." [];;
        ret true
    | Some _ =>
        (* check for unsaved form *)
        unsaved ← ui_win_has_unsaved_form index;
        if unsaved then
          ui_current_print_line
            "You have unsaved changes, use /form submit or /form cancel" [];;
          ret true
        else
          (* handle leaving rooms, or chat *)
          when (bool_decide (status = JABBER_CONNECTED))
               (ui_close_connected_win E index);;
          (* close the window *)
          ui_close_win index;;
          cons_show "Closed window %d" [ArgD index];;
          (* Tidy up the window list. *)
          tidy ← gets (prefs_get_boolean PREF_WINS_AUTO_TIDY);
          (if tidy then _ ← ui_tidy_wins E; ret tt else ret tt);;
          ret true
    end.

Definition cmd_close (window : Z) (command : string) (args : list string)
    : prof bool :=
  status ← gets conn_status;
  match args !! 0%nat with
  | None =>
      index ← gets wins_get_current_num;
      cmd_close_index status index
  | Some args0 =>
      if bool_decide (args0 = "all") then
        count ← ui_close_all_wins E;
        closed_message count;;
        ret true
      else if bool_decide (args0 = "read") then
        count ← ui_close_read_wins E;
        closed_message count;;
        ret true
      else cmd_close_index status (atoi args0)
  end.

Definition cmd_form (window : Z) (command : string) (args : list string)
    : prof bool :=
  status ← gets conn_status;
  if bool_decide (status ≠ JABBER_CONNECTED) then
    cons_show "You are not currently connected." [];;
    ret true
  else
    type ← win_type_of window;
    if bool_decide (type ≠ WIN_MUC_CONFIG) then
      cons_show "Command '/form' does not apply to this window." [];;
      ret true
    else
      let args0 := args !! 0%nat in
      if negb (g_strcmp0_eq args0 (Some "submit"))
         && negb (g_strcmp0_eq args0 (Some "cancel"))
         && negb (g_strcmp0_eq args0 (Some "show"))
         && negb (g_strcmp0_eq args0 (Some "help")) then
        cons_bad_cmd_usage command;;
        ret true
      else
        confwin ← confwin_of window;
        if g_strcmp0_eq args0 (Some "show") then
          emit (UiShowForm window);;
          ret true
        else if g_strcmp0_eq args0 (Some "help") then
          match args !! 1%nat with
          | Some tag => emit (UiShowFormFieldHelp window tag)
          | None =>
              emit (UiShowFormHelp window);;
              emit (UiShowLines window)
          end;;
          ui_current_print_line "" [];;
          ret true
        else
          when (g_strcmp0_eq args0 (Some "submit"))
               (emit (Net (IqSubmitRoomConfig (conf_roomjid confwin)
                                              (form confwin))));;
          when (g_strcmp0_eq args0 (Some "cancel"))
               (emit (Net (IqRoomConfigCancel (conf_roomjid confwin))));;
          (if g_strcmp0_eq args0 (Some "submit")
              || g_strcmp0_eq args0 (Some "cancel") then
             match form confwin with
             | Some _ => cmd_autocomplete_remove_form_fields (form confwin)
             | None => ret tt
             end;;
             wins_close_current;;
             (* [confwin->roomjid] is read after the close; the value is
                the one the window had *)
             new_current ← gets (wins_get_muc (conf_roomjid confwin));
             new_current ← match new_current with
                           | Some w => ret (Some w)
                           | None => gets wins_get_console
                           end;
             ui_ev_focus_win new_current
           else ret tt);;
          ret true.

Definition cmd_room (window : Z) (command : string) (args : list string)
    : prof bool :=
  status ← gets conn_status;
  if bool_decide (status ≠ JABBER_CONNECTED) then
    cons_show "You are not currently connected." [];;
    ret true
  else
    type ← win_type_of window;
    if bool_decide (type ≠ WIN_MUC) then
      cons_show "Command '/room' does not apply to this window." [];;
      ret true
    else
      let args0 := args !! 0%nat in
      if negb (g_strcmp0_eq args0 (Some "accept"))
         && negb (g_strcmp0_eq args0 (Some "destroy"))
         && negb (g_strcmp0_eq args0 (Some "config")) then
        cons_bad_cmd_usage command;;
        ret true
      else
        mucwin ← mucwin_of window;
        if g_strcmp0_eq args0 (Some "accept") then
          requires_config ← gets (muc_requires_config (roomjid mucwin));
          if negb requires_config then
            win_print (Some window) "!" None [] THEME_ROOMINFO ""
                      "Current room does not require configuration.";;
            ret true
          else
            emit (Net (IqConfirmInstantRoom (roomjid mucwin)));;
            muc_set_requires_config (roomjid mucwin) false;;
            win_print (Some window) "!" None [] THEME_ROOMINFO ""
                      "Room unlocked.";;
            ret true
        else if g_strcmp0_eq args0 (Some "destroy") then
          emit (Net (IqDestroyRoom (roomjid mucwin)));;
          ret true
        else if g_strcmp0_eq args0 (Some "config") then
          confwin ← gets (wins_get_muc_conf (roomjid mucwin));
          match confwin with
          | Some confwin => ui_ev_focus_win (Some confwin)
          | None => emit (Net (IqRequestRoomConfigForm (roomjid mucwin)))
          end;;
          ret true
        else ret true.

Definition cmd_wins (window : Z) (command : string) (args : list string)
    : prof bool :=
  match args !! 0%nat with
  | None => emit ConsShowWins
  | Some args0 =>
      if bool_decide (args0 = "tidy") then
        tidied ← ui_tidy_wins E;
        if tidied then cons_show "Windows tidied." []
        else cons_show "No tidy needed." []
      else if bool_decide (args0 = "prune") then ui_prune_wins E
      else if bool_decide (args0 = "swap") then
        match args !! 1%nat, args !! 2%nat with
        | Some args1, Some args2 =>
            let source_win := atoi args1 in
            let target_win := atoi args2 in
            if bool_decide (source_win = 1) || bool_decide (target_win = 1)
            then cons_show "Cannot move console window." []
            else if bool_decide (source_win = 10)
                    || bool_decide (target_win = 10) then
              cons_show "Window 10 does not exist" []
            else if bool_decide (source_win ≠ target_win) then
              swapped ← ui_swap_wins source_win target_win;
              if swapped then
                cons_show "Swapped windows %d <-> %d"
                          [ArgD source_win; ArgD target_win]
              else cons_show "Window %d does not exist" [ArgD source_win]
            else cons_show "Same source and target window supplied." []
        | _, _ => cons_bad_cmd_usage command
        end
      else cons_bad_cmd_usage command
  end;;
  ret true.

(** [message_send_chat_otr], whose result (the message id) is freed
    unused. *)
Definition message_send_chat_otr (jid message : string) : prof unit :=
  emit (Net (MessageSendChatOtr jid message)).

(** [cmd_otr] when [args[0]] is ["start"]: the sub-commands tested
    before it ([log], [libver], [policy], [gen], [myfp], [theirfp]) do
    not match, which leaves the connection check between them and then
    the [start] branch.  [args1] is [args[1]]. *)
Definition cmd_otr_start (window : Z) (command : string)
    (args1 : option string) : prof bool :=
  if HAVE_LIBOTR E then
    status ← gets conn_status;
    if bool_decide (status ≠ JABBER_CONNECTED) then
      cons_show
        "You must be connected with an account to load OTR information." [];;
      ret true
    else
      match args1 with
      (* recipient supplied *)
      | Some contact =>
          let jid := default contact (roster_barejid_from_name E contact) in
          chatwin ← gets (wins_get_chat jid);
          chatwin ← match chatwin with
                    | Some chatwin => ret chatwin
                    | None => ui_ev_new_chat_win E jid
                    end;
          ui_ev_focus_win (Some chatwin);;
          c ← chatwin_of chatwin;
          if bool_decide (enc_mode c = PROF_ENC_PGP) then
            ui_current_print_formatted_line "!" THEME_DEFAULT
              "You must disable PGP encryption before starting an OTR session."
              [];;
            ret true
          else if bool_decide (enc_mode c = PROF_ENC_OTR) then
            ui_current_print_formatted_line "!" THEME_DEFAULT
              "You are already in an OTR session." [];;
            ret true
          else if negb (otr_key_loaded E) then
            ui_current_print_formatted_line "!" THEME_DEFAULT
              "You have not generated or loaded a private key, use '/otr gen'"
              [];;
            ret true
          else if negb (otr_is_secure E jid) then
            let otr_query_message := otr_start_query E in
            message_send_chat_otr jid otr_query_message;;
            ret true
          else
            ui_gone_secure jid (otr_is_trusted E jid);;
            ret true
      (* no recipient, use current chat *)
      | None =>
          type ← win_type_of window;
          if bool_decide (type ≠ WIN_CHAT) then
            ui_current_print_line
              "You must be in a regular chat window to start an OTR session."
              [];;
            ret true
          else
            c ← chatwin_of window;
            if bool_decide (enc_mode c = PROF_ENC_PGP) then
              ui_current_print_formatted_line "!" THEME_DEFAULT
                "You must disable PGP encryption before starting an OTR session."
                [];;
              ret true
            else if bool_decide (enc_mode c = PROF_ENC_OTR) then
              ui_current_print_formatted_line "!" THEME_DEFAULT
                "You are already in an OTR session." [];;
              ret true
            else if negb (otr_key_loaded E) then
              ui_current_print_formatted_line "!" THEME_DEFAULT
                "You have not generated or loaded a private key, use '/otr gen'"
                [];;
              ret true
            else
              let otr_query_message := otr_start_query E in
              message_send_chat_otr (barejid c) otr_query_message;;
              ret true
      end
  else
    cons_show
      "This version of Profanity has not been built with OTR support enabled"
      [];;
    ret true.

(** [cmd_otr] when [args[0]] is ["end"]. *)
Definition cmd_otr_end (window : Z) (command : string) : prof bool :=
  if HAVE_LIBOTR E then
    status ← gets conn_status;
    if bool_decide (status ≠ JABBER_CONNECTED) then
      cons_show
        "You must be connected with an account to load OTR information." [];;
      ret true
    else
      type ← win_type_of window;
      if bool_decide (type ≠ WIN_CHAT) then
        ui_current_print_line
          "You must be in a regular chat window to use OTR." [];;
        ret true
      else
        c ← chatwin_of window;
        if bool_decide (enc_mode c ≠ PROF_ENC_OTR) then
          ui_current_print_formatted_line "!" THEME_DEFAULT
            "You are not currently in an OTR session." [];;
          ret true
        else
          ui_gone_insecure (barejid c);;
          emit (Net (OtrEndSession (barejid c)));;
          ret true
  else
    cons_show
      "This version of Profanity has not been built with OTR support enabled"
      [];;
    ret true.

(** [cmd_pgp] when [args[0]] is ["start"]; [args1] is [args[1]]. *)
Definition cmd_pgp_start (window : Z) (command : string)
    (args1 : option string) : prof bool :=
  if HAVE_LIBGPGME E then
    status ← gets conn_status;
    if bool_decide (status ≠ JABBER_CONNECTED) then
      cons_show "You must be connected to start PGP encrpytion." [];;
      ret true
    else
      type ← win_type_of window;
      if bool_decide (type ≠ WIN_CHAT) && bool_decide (args1 = None) then
        cons_show
          "You must be in a regular chat window to start PGP encrpytion." [];;
        ret true
      else
        chatwin ← match args1 with
                  | Some contact =>
                      let jid :=
                        default contact (roster_barejid_from_name E contact) in
                      chatwin ← gets (wins_get_chat jid);
                      chatwin ← match chatwin with
                                | Some chatwin => ret chatwin
                                | None => ui_ev_new_chat_win E jid
                                end;
                      ui_ev_focus_win (Some chatwin);;
                      ret chatwin
                  | None => ret window
                  end;
        c ← chatwin_of chatwin;
        if bool_decide (enc_mode c = PROF_ENC_OTR) then
          ui_current_print_formatted_line "!" THEME_DEFAULT
            "You must end the OTR session to start PGP encryption." [];;
          ret true
        else if bool_decide (enc_mode c = PROF_ENC_PGP) then
          ui_current_print_formatted_line "!" THEME_DEFAULT
            "You have already started PGP encryption." [];;
          ret true
        else if negb (p_gpg_valid_key E (jabber_get_account_pgp_keyid E)) then
          ui_current_print_formatted_line "!" THEME_DEFAULT
            "You must specify a valid PGP key ID for this account to start PGP encryption."
            [];;
          ret true
        else if negb (p_gpg_available E (barejid c)) then
          ui_current_print_formatted_line "!" THEME_DEFAULT
            "No PGP key found for %s." [ArgS (Some (barejid c))];;
          ret true
        else
          chatwin_set_enc_mode chatwin PROF_ENC_PGP;;
          ui_current_print_formatted_line "!" THEME_DEFAULT
            "PGP encyption enabled." [];;
          ret true
  else
    cons_show
      "This version of Profanity has not been built with PGP support enabled"
      [];;
    ret true.

(** [cmd_pgp] when [args[0]] is ["end"]. *)
Definition cmd_pgp_end (window : Z) (command : string) : prof bool :=
  if HAVE_LIBGPGME E then
    status ← gets conn_status;
    if bool_decide (status ≠ JABBER_CONNECTED) then
      cons_show "You are not currently connected." [];;
      ret true
    else
      type ← win_type_of window;
      if bool_decide (type ≠ WIN_CHAT) then
        cons_show
          "You must be in a regular chat window to end PGP encrpytion." [];;
        ret true
      else
        c ← chatwin_of window;
        if bool_decide (enc_mode c ≠ PROF_ENC_PGP) then
          ui_current_print_formatted_line "!" THEME_DEFAULT
            "PGP encryption is not currently enabled." [];;
          ret true
        else
          chatwin_set_enc_mode window PROF_ENC_NONE;;
          ui_current_print_formatted_line "!" THEME_DEFAULT
            "PGP encyption disabled." [];;
          ret true
  else
    cons_show
      "This version of Profanity has not been built with PGP support enabled"
      [];;
    ret true.

End Commands.

(** * Reasoning about runs *)

(** [wp m Q st]: the run of [m] from [st] ends without a crash, in a
    result and a state that satisfy [Q]. *)
Definition wp {A} (m : prof A) (Q : A -> State -> Prop) (st : State) : Prop :=
  match m st with
  | Some (a, st') => Q a st'
  | None => False
  end.

(** [only_emits m]: every run of [m] ends, and changes nothing but the
    trace, which it extends. *)
Definition only_emits {A} (m : prof A) : Prop :=
  forall st, exists a t, m st = Some (a, set_trace (trace st ++ t) st).

(** * Notions used to state the properties *)

(** An inbound message as the UI receives it: a one-to-one chat message
    for an open chat window, a private message from a room occupant, or
    a room message. *)
Inductive inbound :=
  | InChat (chatwin : Z) (resource : option string) (message : string)
           (timestamp : option GDateTime) (win_created : bool)
           (enc : prof_enc_t)
  | InPrivate (fulljid message : string) (timestamp : option GDateTime)
  | InRoom (roomjid nick message : string).

Definition deliver (E : Externals) (ev : inbound) : prof unit :=
  match ev with
  | InChat chatwin resource message timestamp win_created enc =>
      ui_incoming_msg E chatwin resource message timestamp win_created enc
  | InPrivate fulljid message timestamp =>
      ui_incoming_private_msg E fulljid message timestamp
  | InRoom roomjid nick message => ui_room_message E roomjid nick message
  end.

(** The window that the message is for, if it is open. *)
Definition target (ev : inbound) (st : State) : option Z :=
  match ev with
  | InChat chatwin _ _ _ _ _ =>
      match windows st !! chatwin with
      | Some (mkWin (KChat _) _) => Some chatwin
      | _ => None
      end
  | InPrivate fulljid _ _ => wins_get_private fulljid st
  | InRoom roomjid _ _ => wins_get_muc roomjid st
  end.

(** What the caller of the three functions provides: [ui_incoming_msg]
    receives a pointer to an open chat window, and a room message comes
    from a room that is in the room table and has its window. *)
Definition deliverable (ev : inbound) (st : State) : Prop :=
  match ev with
  | InChat _ _ _ _ _ _ => is_Some (target ev st)
  | InPrivate _ _ _ => True
  | InRoom roomjid _ _ =>
      is_Some (target ev st) /\ is_Some (muc_nick roomjid st)
  end.

(** The unread counters are [int]s below [INT_MAX] (an increment at
    [INT_MAX] is undefined in C). *)
Definition unread_in_range (st : State) : Prop :=
  map_Forall (fun _ w => - 2 ^ 31 <= win_unread w < INT_MAX) (windows st).

(** "Exactly one window is current": the current slot is occupied. *)
Definition current_open (st : State) : Prop :=
  is_Some (windows st !! current st).

(** The calls of [beep()] and of [notify_message()] in a trace. *)
Definition is_beep (e : Effect) : bool :=
  match e with Beep => true | _ => false end.

Definition is_notify_message (e : Effect) : bool :=
  match e with NotifyMessage _ _ _ => true | _ => false end.

(** The lines that [_win_show_history] renders for a contact: the
    previously logged lines, in the order of the log. *)
Definition history_lines (E : Externals) (contact : string) : list Line :=
  history_line E <$>
    chat_log_get_previous E (jid_barejid (jid_create E (jabber_get_fulljid E)))
                          contact.

(** ** What [ui_incoming_msg] does, as a function

    [ui_incoming_msg] on the open chat window [n], whose fields are [c]
    and whose buffer is [b]: the fields and the buffer of the window,
    and the calls made, at the end of the run. *)
Section IncomingMsg.

Context (E : Externals) (resource : option string) (message : string)
        (timestamp : option GDateTime) (win_created : bool)
        (enc : prof_enc_t).

Definition incoming_display_name (c : ProfChatWin) : string :=
  roster_get_msg_display_name E (barejid c) resource.

Definition incoming_msg_chatwin (is_current : bool) (st : State)
    (c : ProfChatWin) : ProfChatWin :=
  if is_current then c
  else
    mkChatWin (barejid c) (int_incr (chat_unread c)) (enc_mode c)
      (chat_otr_is_trusted c)
      (if prefs_get_boolean PREF_CHLOG st && prefs_get_boolean PREF_HISTORY st
       then true else history_shown c).

Definition incoming_msg_lines (is_current : bool) (st : State)
    (c : ProfChatWin) : list Line :=
  (if is_current then []
   else
     (if prefs_get_boolean PREF_CHLOG st && prefs_get_boolean PREF_HISTORY st
         && negb (history_shown c)
      then history_lines E (barejid c) else [])
     ++ (if bool_decide (is_Some timestamp) && win_created
            && roster_get_contact E (barejid c)
         then [LContact (barejid c)] else []))
  ++ [LIncoming timestamp (incoming_display_name c) message enc].

Definition incoming_msg_calls (is_current : bool) (st : State) (n : Z)
    (c : ProfChatWin) : list Effect :=
  (if is_current then [TitleBarSetTyping false; StatusBarActive n]
   else
     [StatusBarNew n; ConsShowIncomingMessage (incoming_display_name c) n]
     ++ (if prefs_get_boolean PREF_FLASH st then [Flash] else []))
  ++ (if prefs_get_boolean PREF_BEEP st then [Beep] else [])
  ++ (if prefs_get_boolean PREF_NOTIFY_MESSAGE st
      then [NotifyMessage n (incoming_display_name c) message] else []).

Definition incoming_msg_state (st : State) (n : Z) (c : ProfChatWin)
    (b : list Line) : State :=
  let is_current := wins_is_current n st in
  set_trace (trace st ++ incoming_msg_calls is_current st n c)
    (set_windows
       (<[n := mkWin (KChat (incoming_msg_chatwin is_current st c))
                     (b ++ incoming_msg_lines is_current st c)]>
          (windows st))
       st).

End IncomingMsg.

(** ** A sample session

    Concrete collaborators and a concrete state, on which the
    definitions can be evaluated: the console in slot 1, a chat with
    alice in slot 2, the room [r@conf] in slot 3 and its configuration
    form, with unsaved changes, in slot 5. *)
Definition E0 : Externals := {|
  HAVE_LIBOTR := true;
  HAVE_LIBGPGME := true;
  roster_get_msg_display_name := fun jid _ => jid;
  roster_get_contact := fun _ => true;
  p_contact_presence := fun _ => "online";
  p_contact_status := fun _ => None;
  roster_barejid_from_name := fun _ => None;
  get_nick_from_full_jid := fun jid => jid;
  jabber_get_fulljid := "me@host/profanity";
  jabber_get_account_pgp_keyid := None;
  jid_create := fun jid => mkJid jid None;
  chat_log_get_previous := fun _ _ => ["10:15:00 - me: see you"];
  memory_after := fun _ => "";
  g_utf8_strdown := fun s => s;
  p_gpg_decrypt := fun s => Some s;
  p_gpg_valid_key := fun _ => false;
  p_gpg_available := fun _ => false;
  otr_on_message_recv := fun _ _ message => (Some message, false);
  otr_key_loaded := false;
  otr_is_secure := fun _ => false;
  otr_is_trusted := fun _ => false;
  otr_start_query := "?OTR?";
  wins_tidy := fun st => (false, st);
  wins_get_prune_wins := fun _ => []
|}.

Definition room0 : ChatRoom := {|
  room_nick := "me";
  room_role := None;
  room_affiliation := None;
  room_subject := Some "release planning";
  room_pending_broadcasts := ["server restart at noon"];
  room_roster := [];
  roster_received := false;
  pending_nick_change := false;
  room_autojoin := false;
  room_requires_config := false
|}.

Definition form0 : DataForm := {| form_tags := ["field1"]; modified := true |}.

Definition windows0 : gmap Z ProfWin :=
  <[1 := mkWin KConsole []]>
  (<[2 := mkWin (KChat (mkChatWin "alice@host" 0 PROF_ENC_NONE false false)) []]>
  (<[3 := mkWin (KMuc (mkMucWin "r@conf" 0)) []]>
  (<[5 := mkWin (KMucConf (mkMucConfWin "r@conf" (Some form0))) []]> ∅))).

Definition st0 : State := {|
  windows := windows0;
  current := 1;
  prefs_bool := fun _ => None;
  prefs_string := fun _ => None;
  conn_status := JABBER_CONNECTED;
  rooms := {["r@conf" := room0]};
  invites := ∅;
  commands_ac := {["/field1"]};
  trace := []
|}.

(** One-to-one messages: chat and private, not room messages. *)
Definition one_to_one (ev : inbound) : Prop :=
  match ev with
  | InRoom _ _ _ => False
  | _ => True
  end.

(** ** What [sv_ev_incoming_message] renders and which mode it leaves *)




(** The encryption mode of a chat window, and of the window in slot
    [n] if that is a chat window. *)
Definition win_enc_mode (w : ProfWin) : option prof_enc_t :=
  match kind w with
  | KChat c => Some (enc_mode c)
  | _ => None
  end.

Definition chat_enc_mode (n : Z) (st : State) : option prof_enc_t :=
  windows st !! n ≫= win_enc_mode.

(** No window changes its encryption mode between [st] and [st']. *)
Definition same_enc_modes (st st' : State) : Prop :=
  forall m, chat_enc_mode m st' = chat_enc_mode m st.

(** The buffer of the window in slot [n]. *)
Definition win_buffer (n : Z) (st : State) : list Line :=
  default [] (buffer <$> windows st !! n).

(** ** What [ui_switch_win] does, as a function *)

Global Instance DataForm_eq_dec : EqDecision DataForm.
Proof. solve_decision. Defined.

(** The form of a room-configuration window. *)
Definition conf_form (w : ProfWin) : option (option DataForm) :=
  match kind w with
  | KMucConf confwin => Some (form confwin)
  | _ => None
  end.

Definition ac_remove (f : option (option DataForm)) (ac : gset string)
    : gset string :=
  match f with
  | Some (Some f') => ac ∖ form_field_commands f'
  | _ => ac
  end.

Definition ac_add (f : option (option DataForm)) (ac : gset string)
    : gset string :=
  match f with
  | Some (Some f') => ac ∪ form_field_commands f'
  | _ => ac
  end.

(** The state after [ui_switch_win] to the window [new] in slot [n],
    when the current window was [old]. *)
Definition switch_state (st : State) (n : Z) (old new : ProfWin) : State :=
  set_trace
    (trace st
     ++ match conf_form old with
        | Some f => [AcRemoveFormFields f]
        | None => []
        end
     ++ match conf_form new with
        | Some f => [AcAddFormFields f]
        | None => []
        end
     ++ [if bool_decide (n = 1) then TitleBarConsole else TitleBarSwitch;
         StatusBarCurrent n; StatusBarActive n])
    (set_current n
       (set_windows (<[n := win_clear_unread new]> (windows st))
          (set_commands_ac
             (ac_add (conf_form new)
                     (ac_remove (conf_form old) (commands_ac st)))
             st))).

(** A trace deregisters the fields of [f] twice with no registration of
    them in between; [seen] tells whether a deregistration is pending. *)
Fixpoint double_deregistration (f : option DataForm) (seen : bool)
    (t : list Effect) : bool :=
  match t with
  | [] => false
  | AcRemoveFormFields g :: t' =>
      if bool_decide (g = f) then seen || double_deregistration f true t'
      else double_deregistration f seen t'
  | AcAddFormFields g :: t' =>
      if bool_decide (g = f) then double_deregistration f false t'
      else double_deregistration f seen t'
  | _ :: t' => double_deregistration f seen t'
  end.

(** ** Closing a room-configuration window *)

(** The line printed by [cmd_close] on a window with unsaved changes. *)
Definition unsaved_changes_line : Line :=
  LPrint "-" None [] THEME_DEFAULT ""
         "You have unsaved changes, use /form submit or /form cancel" [].

(** The window in slot [n] is a room-configuration window for [room]
    whose form is [f]. *)
Definition is_conf_window (n : Z) (room : string) (f : option DataForm)
    (st : State) : Prop :=
  exists b, windows st !! n = Some (mkWin (KMucConf (mkMucConfWin room f)) b).

(** A window for the room [room] is open. *)
Definition room_window_open (room : string) (st : State) : Prop :=
  exists m w, windows st !! m = Some w /\ is_muc_for room w = true.

(** The sample session with the configuration form in the focus, and
    the same after the connection is lost. *)
Definition st0_form : State := set_current 5 st0.

Definition st0_form_offline : State :=
  mkState (windows st0) 5 (prefs_bool st0) (prefs_string st0)
          JABBER_DISCONNECTED (rooms st0) (invites st0) (commands_ac st0)
          (trace st0).

(** The invariants of the registry (section 3 of the specification):
    the console occupies slot 1, the current slot is occupied, and no
    window sits in a negative slot or in slot 10 (the tenth slot is
    numbered 0). *)
Definition console_open (st : State) : Prop :=
  exists b, windows st !! 1 = Some (mkWin KConsole b).

Definition slots_valid (st : State) : Prop :=
  map_Forall (fun n _ => 0 <= n /\ n <> 10) (windows st).

Definition registry_ok (st : State) : Prop :=
  console_open st /\ current_open st /\ slots_valid st.

(** ** Starting one encryption mode while the other is active *)

(** The two encryption engines: ModeA is OTR, ModeB is PGP. *)
Inductive engine := ModeA | ModeB.

Definition engine_mode (e : engine) : prof_enc_t :=
  match e with
  | ModeA => PROF_ENC_OTR
  | ModeB => PROF_ENC_PGP
  end.

Definition other_engine (e : engine) : engine :=
  match e with
  | ModeA => ModeB
  | ModeB => ModeA
  end.

(** The start action of an engine: [/otr start] or [/pgp start]. *)
Definition cmd_start (E : Externals) (e : engine) (window : Z)
    (command : string) (args1 : option string) : prof bool :=
  match e with
  | ModeA => cmd_otr_start E window command args1
  | ModeB => cmd_pgp_start E window command args1
  end.

(** The chat window that a start action is about: the window of the
    named contact, or without a name the window the command runs in. *)
Definition start_target (E : Externals) (window : Z) (args1 : option string)
    (st : State) : option Z :=
  match args1 with
  | Some contact =>
      wins_get_chat (default contact (roster_barejid_from_name E contact)) st
  | None => Some window
  end.

(** The text of the refusal. *)
Definition refusal (E : Externals) (e : engine) (st : State) : string :=
  match e with
  | ModeA =>
      if negb (HAVE_LIBOTR E) then
        "This version of Profanity has not been built with OTR support enabled"
      else if bool_decide (conn_status st ≠ JABBER_CONNECTED) then
        "You must be connected with an account to load OTR information."
      else "You must disable PGP encryption before starting an OTR session."
  | ModeB =>
      if negb (HAVE_LIBGPGME E) then
        "This version of Profanity has not been built with PGP support enabled"
      else if bool_decide (conn_status st ≠ JABBER_CONNECTED) then
        "You must be connected to start PGP encrpytion."
      else "You must end the OTR session to start PGP encryption."
  end.

(** The message [msg] is shown to the user between [st] and [st']: by
    [cons_show] as the last call, or as the last line of the window
    that is current in [st']. *)
Definition shown (msg : string) (st st' : State) : Prop :=
  (exists t, trace st' = (trace st ++ t ++ [ConsShow msg []])%list)
  \/ win_buffer (current st') st'
     = (win_buffer (current st') st
        ++ [LPrint "!" None [] THEME_DEFAULT "" msg []])%list.

(** The network actions in a trace. *)
Definition net_actions (t : list Effect) : list Effect := List.filter is_net t.

(** The sample session with the chat with alice in the focus and in
    mode ModeB (PGP). *)
Definition st0_pgp : State :=
  set_current 2
    (set_windows
       (<[2 := mkWin (KChat (mkChatWin "alice@host" 0 PROF_ENC_PGP false
                                       false)) []]> (windows st0))
       st0).

(** ** Swapping two slots *)

(** Both slots hold an open window and neither is the console slot. *)
Definition swap_possible (a b : Z) (st : State) : bool :=
  bool_decide (a ≠ 1) && bool_decide (b ≠ 1)
  && bool_decide (is_Some (windows st !! a))
  && bool_decide (is_Some (windows st !! b)).

(** The registry of [st'] is that of [st] with the windows of the slots
    [a] and [b] exchanged. *)
Definition exchanged (a b : Z) (st st' : State) : Prop :=
  windows st' !! a = windows st !! b
  /\ windows st' !! b = windows st !! a
  /\ forall m, m <> a -> m <> b -> windows st' !! m = windows st !! m.

(** The message of a successful [/wins swap]. *)
Definition swapped_message : string := "Swapped windows %d <-> %d".

(** ** Completing the join of a room *)

(** What [ui_room_subject] prints for the pending subject. *)
Definition subject_lines (subject : option string) : list Line :=
  match subject with
  | Some _ =>
      [LPrint "!" None [NO_EOL] THEME_ROOMINFO "" "Room subject: " [];
       LPrint "!" None [NO_DATE] THEME_DEFAULT "" "%s" [ArgS subject]]
  | None => []
  end.

(** What [ui_room_broadcast] prints for the queued broadcasts, in the
    order of the queue. *)
Definition broadcast_lines (messages : list string) : list Line :=
  flat_map
    (fun message =>
       [LPrint "!" None [NO_EOL] THEME_ROOMINFO "" "Room message: " [];
        LPrint "!" None [NO_DATE] THEME_DEFAULT "" "%s"
               [ArgS (Some message)]])
    messages.

(** The instructional block of [ui_room_requires_config]. *)
Definition requires_config_block : list Line :=
  [LPrint "-" None [] THEME_DEFAULT "" "" [];
   LPrint "!" None [] THEME_ROOMINFO ""
          "Room locked, requires configuration." [];
   LPrint "!" None [] THEME_ROOMINFO ""
          "Use '/room accept' to accept the defaults" [];
   LPrint "!" None [] THEME_ROOMINFO ""
          "Use '/room destroy' to cancel and destroy the room" [];
   LPrint "!" None [] THEME_ROOMINFO ""
          "Use '/room config' to edit the room configuration" [];
   LPrint "-" None [] THEME_DEFAULT "" "" []].

(** The lines that open a flushed subject, a flushed broadcast and the
    required-configuration prompt. *)
Definition is_flush_line (l : Line) : bool :=
  match l with
  | LPrint _ _ _ _ _ fmt _ =>
      String.eqb fmt "Room subject: "
      || String.eqb fmt "Room message: "
      || String.eqb fmt "Room locked, requires configuration."
  | _ => false
  end.

Definition no_flush (ls : list Line) : Prop :=
  Forall (fun l => is_flush_line l = false) ls.

(** The number of required-configuration prompts in a buffer. *)
Definition count_config_prompts (ls : list Line) : nat :=
  List.length
    (List.filter
       (fun l =>
          match l with
          | LPrint _ _ _ _ _ fmt _ =>
              String.eqb fmt "Room locked, requires configuration."
          | _ => false
          end)
       ls).

(** Between [st] and [st'] the lines [ls] were appended to the window
    [n] of [room]; the table of rooms, the preferences and the
    connection status are as they were. *)
Definition printed (room : string) (n : Z) (ls : list Line)
    (st st' : State) : Prop :=
  wins_get_muc room st' = Some n
  /\ win_buffer n st' = (win_buffer n st ++ ls)%list
  /\ rooms st' = rooms st
  /\ prefs_bool st' = prefs_bool st
  /\ conn_status st' = conn_status st.

(** The lines of [/room accept]. *)
Definition room_unlocked_line : Line :=
  LPrint "!" None [] THEME_ROOMINFO "" "Room unlocked." [].

Definition room_not_locked_line : Line :=
  LPrint "!" None [] THEME_ROOMINFO ""
         "Current room does not require configuration." [].
(** * config/preferences.c

    The preferences live in a GLib key file ([.profrc]): groups of
    [key=value] lines.  The key file is a finite map from (group, key)
    to the text of the value; GLib reads a boolean or an integer by
    parsing that text and writes it by printing it, which the functions
    of [GLib] stand for. *)

Module Preferences.

(** The preferences that [_get_group] and [_get_key] name. *)
Inductive preference_t :=
  | PREF_SPLASH | PREF_BEEP | PREF_THEME | PREF_VERCHECK
  | PREF_TITLEBAR_SHOW | PREF_TITLEBAR_GOODBYE | PREF_FLASH | PREF_INTYPE
  | PREF_HISTORY | PREF_CARBONS | PREF_RECEIPTS_SEND | PREF_RECEIPTS_REQUEST
  | PREF_OCCUPANTS | PREF_OCCUPANTS_JID | PREF_MUC_PRIVILEGES
  | PREF_STATUSES | PREF_STATUSES_CONSOLE | PREF_STATUSES_CHAT
  | PREF_STATUSES_MUC | PREF_STATES | PREF_OUTTYPE | PREF_NOTIFY_TYPING
  | PREF_NOTIFY_TYPING_CURRENT | PREF_NOTIFY_MESSAGE
  | PREF_NOTIFY_MESSAGE_CURRENT | PREF_NOTIFY_MESSAGE_TEXT
  | PREF_NOTIFY_ROOM | PREF_NOTIFY_ROOM_CURRENT | PREF_NOTIFY_ROOM_TEXT
  | PREF_NOTIFY_INVITE | PREF_NOTIFY_SUB | PREF_CHLOG | PREF_GRLOG
  | PREF_AUTOAWAY_CHECK | PREF_AUTOAWAY_MODE | PREF_AUTOAWAY_MESSAGE
  | PREF_CONNECT_ACCOUNT | PREF_DEFAULT_ACCOUNT | PREF_OTR_LOG
  | PREF_OTR_POLICY | PREF_LOG_ROTATE | PREF_LOG_SHARED | PREF_PRESENCE
  | PREF_WRAP | PREF_WINS_AUTO_TIDY | PREF_TIME | PREF_TIME_STATUSBAR
  | PREF_ROSTER | PREF_ROSTER_OFFLINE | PREF_ROSTER_RESOURCE
  | PREF_ROSTER_EMPTY | PREF_ROSTER_BY | PREF_RESOURCE_TITLE
  | PREF_RESOURCE_MESSAGE | PREF_INPBLOCK_DYNAMIC | PREF_ENC_WARN
  | PREF_PGP_LOG.

Global Instance preference_t_eq_dec : EqDecision preference_t.
Proof. solve_decision. Defined.

(** The groups: the sections of [.profrc]. *)
Definition PREF_GROUP_LOGGING : string := "logging".
Definition PREF_GROUP_CHATSTATES : string := "chatstates".
Definition PREF_GROUP_UI : string := "ui".
Definition PREF_GROUP_NOTIFICATIONS : string := "notifications".
Definition PREF_GROUP_PRESENCE : string := "presence".
Definition PREF_GROUP_CONNECTION : string := "connection".
Definition PREF_GROUP_ALIAS : string := "alias".
Definition PREF_GROUP_OTR : string := "otr".
Definition PREF_GROUP_PGP : string := "pgp".

Definition INPBLOCK_DEFAULT : Z := 1000.

(** [_get_group]: the group of a preference. *)
Definition _get_group (pref : preference_t) : string :=
  match pref with
  | PREF_SPLASH
  | PREF_BEEP
  | PREF_THEME
  | PREF_VERCHECK
  | PREF_TITLEBAR_SHOW
  | PREF_TITLEBAR_GOODBYE
  | PREF_FLASH
  | PREF_INTYPE
  | PREF_HISTORY
  | PREF_OCCUPANTS
  | PREF_OCCUPANTS_JID
  | PREF_STATUSES
  | PREF_STATUSES_CONSOLE
  | PREF_STATUSES_CHAT
  | PREF_STATUSES_MUC
  | PREF_MUC_PRIVILEGES
  | PREF_PRESENCE
  | PREF_WRAP
  | PREF_WINS_AUTO_TIDY
  | PREF_TIME
  | PREF_TIME_STATUSBAR
  | PREF_ROSTER
  | PREF_ROSTER_OFFLINE
  | PREF_ROSTER_RESOURCE
  | PREF_ROSTER_EMPTY
  | PREF_ROSTER_BY
  | PREF_RESOURCE_TITLE
  | PREF_RESOURCE_MESSAGE
  | PREF_ENC_WARN
  | PREF_INPBLOCK_DYNAMIC => PREF_GROUP_UI
  | PREF_STATES
  | PREF_OUTTYPE => PREF_GROUP_CHATSTATES
  | PREF_NOTIFY_TYPING
  | PREF_NOTIFY_TYPING_CURRENT
  | PREF_NOTIFY_MESSAGE
  | PREF_NOTIFY_MESSAGE_CURRENT
  | PREF_NOTIFY_MESSAGE_TEXT
  | PREF_NOTIFY_ROOM
  | PREF_NOTIFY_ROOM_CURRENT
  | PREF_NOTIFY_ROOM_TEXT
  | PREF_NOTIFY_INVITE
  | PREF_NOTIFY_SUB => PREF_GROUP_NOTIFICATIONS
  | PREF_CHLOG
  | PREF_GRLOG
  | PREF_LOG_ROTATE
  | PREF_LOG_SHARED => PREF_GROUP_LOGGING
  | PREF_AUTOAWAY_CHECK
  | PREF_AUTOAWAY_MODE
  | PREF_AUTOAWAY_MESSAGE => PREF_GROUP_PRESENCE
  | PREF_CONNECT_ACCOUNT
  | PREF_DEFAULT_ACCOUNT
  | PREF_CARBONS
  | PREF_RECEIPTS_SEND
  | PREF_RECEIPTS_REQUEST => PREF_GROUP_CONNECTION
  | PREF_OTR_LOG
  | PREF_OTR_POLICY => PREF_GROUP_OTR
  | PREF_PGP_LOG => PREF_GROUP_PGP
  end.

(** [_get_key]: the key of a preference in its group. *)
Definition _get_key (pref : preference_t) : string :=
  match pref with
  | PREF_SPLASH => "splash"
  | PREF_BEEP => "beep"
  | PREF_THEME => "theme"
  | PREF_VERCHECK => "vercheck"
  | PREF_TITLEBAR_SHOW => "titlebar.show"
  | PREF_TITLEBAR_GOODBYE => "titlebar.goodbye"
  | PREF_FLASH => "flash"
  | PREF_INTYPE => "intype"
  | PREF_HISTORY => "history"
  | PREF_CARBONS => "carbons"
  | PREF_RECEIPTS_SEND => "receipts.send"
  | PREF_RECEIPTS_REQUEST => "receipts.request"
  | PREF_OCCUPANTS => "occupants"
  | PREF_OCCUPANTS_JID => "occupants.jid"
  | PREF_MUC_PRIVILEGES => "privileges"
  | PREF_STATUSES => "statuses"
  | PREF_STATUSES_CONSOLE => "statuses.console"
  | PREF_STATUSES_CHAT => "statuses.chat"
  | PREF_STATUSES_MUC => "statuses.muc"
  | PREF_STATES => "enabled"
  | PREF_OUTTYPE => "outtype"
  | PREF_NOTIFY_TYPING => "typing"
  | PREF_NOTIFY_TYPING_CURRENT => "typing.current"
  | PREF_NOTIFY_MESSAGE => "message"
  | PREF_NOTIFY_MESSAGE_CURRENT => "message.current"
  | PREF_NOTIFY_MESSAGE_TEXT => "message.text"
  | PREF_NOTIFY_ROOM => "room"
  | PREF_NOTIFY_ROOM_CURRENT => "room.current"
  | PREF_NOTIFY_ROOM_TEXT => "room.text"
  | PREF_NOTIFY_INVITE => "invite"
  | PREF_NOTIFY_SUB => "sub"
  | PREF_CHLOG => "chlog"
  | PREF_GRLOG => "grlog"
  | PREF_AUTOAWAY_CHECK => "autoaway.check"
  | PREF_AUTOAWAY_MODE => "autoaway.mode"
  | PREF_AUTOAWAY_MESSAGE => "autoaway.message"
  | PREF_CONNECT_ACCOUNT => "account"
  | PREF_DEFAULT_ACCOUNT => "defaccount"
  | PREF_OTR_LOG => "log"
  | PREF_OTR_POLICY => "policy"
  | PREF_LOG_ROTATE => "rotate"
  | PREF_LOG_SHARED => "shared"
  | PREF_PRESENCE => "presence"
  | PREF_WRAP => "wrap"
  | PREF_WINS_AUTO_TIDY => "wins.autotidy"
  | PREF_TIME => "time"
  | PREF_TIME_STATUSBAR => "time.statusbar"
  | PREF_ROSTER => "roster"
  | PREF_ROSTER_OFFLINE => "roster.offline"
  | PREF_ROSTER_RESOURCE => "roster.resource"
  | PREF_ROSTER_EMPTY => "roster.empty"
  | PREF_ROSTER_BY => "roster.by"
  | PREF_RESOURCE_TITLE => "resource.title"
  | PREF_RESOURCE_MESSAGE => "resource.message"
  | PREF_INPBLOCK_DYNAMIC => "inpblock.dynamic"
  | PREF_ENC_WARN => "enc.warn"
  | PREF_PGP_LOG => "log"
  end.

(** [_get_default_boolean]: the value of a boolean preference that
    [.profrc] does not set. *)
Definition _get_default_boolean (pref : preference_t) : bool :=
  match pref with
  | PREF_ENC_WARN
  | PREF_AUTOAWAY_CHECK
  | PREF_LOG_ROTATE
  | PREF_LOG_SHARED
  | PREF_NOTIFY_MESSAGE
  | PREF_NOTIFY_MESSAGE_CURRENT
  | PREF_NOTIFY_ROOM_CURRENT
  | PREF_NOTIFY_TYPING
  | PREF_NOTIFY_TYPING_CURRENT
  | PREF_NOTIFY_SUB
  | PREF_NOTIFY_INVITE
  | PREF_SPLASH
  | PREF_OCCUPANTS
  | PREF_MUC_PRIVILEGES
  | PREF_PRESENCE
  | PREF_WRAP
  | PREF_WINS_AUTO_TIDY
  | PREF_INPBLOCK_DYNAMIC
  | PREF_RESOURCE_TITLE
  | PREF_RESOURCE_MESSAGE
  | PREF_ROSTER
  | PREF_ROSTER_OFFLINE
  | PREF_ROSTER_RESOURCE
  | PREF_ROSTER_EMPTY => true
  | _ => false
  end.

(** [_get_default_string]: the value of a string preference that
    [.profrc] does not set; [None] is [NULL]. *)
Definition _get_default_string (pref : preference_t) : option string :=
  match pref with
  | PREF_AUTOAWAY_MODE => Some "off"
  | PREF_NOTIFY_ROOM => Some "on"
  | PREF_OTR_LOG => Some "redact"
  | PREF_OTR_POLICY => Some "manual"
  | PREF_STATUSES_CONSOLE
  | PREF_STATUSES_CHAT
  | PREF_STATUSES_MUC => Some "all"
  | PREF_ROSTER_BY => Some "presence"
  | PREF_TIME => Some "%H:%M:%S"
  | PREF_TIME_STATUSBAR => Some "%H:%M"
  | PREF_PGP_LOG => Some "redact"
  | _ => None
  end.

(** ** The key file

    What the functions below rely on in GLib: how a value is read as a
    boolean or an integer ([None] is the error of
    [g_key_file_get_boolean] / [g_key_file_get_integer]), how it is
    written, which texts pass [g_utf8_validate]
    ([g_key_file_get_string] answers [NULL] for the others), and which
    texts may stand as the locale tag of a key name [key[tag]]: those
    made of characters that are alphanumeric by GLib's Unicode tables
    or one of [-], [_], [.] and [@]. *)
Record GLib := mkGLib {
  parse_boolean : string -> option bool;
  parse_integer : string -> option Z;
  show_boolean : bool -> string;
  show_integer : Z -> string;
  g_utf8_validate : string -> bool;
  locale_chars : string -> bool
}.

Abbreviation GKeyFile := (gmap (string * string) string).


(** The globals of preferences.c: the key file [prefs] and
    [log_maxsize], and the text last written to [.profrc]. *)
Record PrefsState := mkPrefs {
  prefs : GKeyFile;
  log_maxsize : Z;
  profrc : GKeyFile
}.

Section KeyFile.

Context (G : GLib).

Definition g_key_file_has_key (kf : GKeyFile) (group key : string) : bool :=
  bool_decide (is_Some (kf !! (group, key))).



Definition g_key_file_get_string (kf : GKeyFile) (group key : string)
    : option string :=
  match kf !! (group, key) with
  | Some v => if g_utf8_validate G v then Some v else None
  | None => None
  end.

(** The value and whether [err] was left [NULL]. *)
Definition g_key_file_get_boolean (kf : GKeyFile) (group key : string)
    : option bool :=
  kf !! (group, key) ≫= parse_boolean G.

Definition g_key_file_get_integer (kf : GKeyFile) (group key : string)
    : option Z :=
  kf !! (group, key) ≫= parse_integer G.

(** A group name: not empty, without brackets and control
    characters. *)
Definition g_ascii_iscntrl (c : ascii) : bool :=
  let n := nat_of_ascii c in (n <? 32)%nat || (n =? 127)%nat.

Definition g_key_file_is_group_name (name : string) : bool :=
  negb (bool_decide (name = ""))
  && forallb (fun c => negb (bool_decide (c = "["%char))
                       && negb (bool_decide (c = "]"%char))
                       && negb (g_ascii_iscntrl c))
             (list_ascii_of_string name).

(** The bytes of a key name before its first [=], [[] or []], and
    what follows them. *)
Fixpoint key_span (name : string) : string * string :=
  match name with
  | String c rest =>
      if bool_decide (c = "="%char) || bool_decide (c = "["%char)
         || bool_decide (c = "]"%char)
      then (EmptyString, name)
      else let '(key, tail) := key_span rest in (String c key, tail)
  | EmptyString => (EmptyString, EmptyString)
  end.

(** A key name: a key that is not empty, holds no [=] and neither
    starts nor ends with a space, followed by nothing or by one locale
    tag in brackets. *)
Definition g_key_file_is_key_name (name : string) : bool :=
  let '(key, tail) := key_span name in
  negb (bool_decide (key = ""))
  && negb (bool_decide (String.get 0 key = Some " "%char))
  && negb (bool_decide (String.get (String.length key - 1) key
                        = Some " "%char))
  && match tail with
     | EmptyString => true
     | String c tag =>
         bool_decide (c = "["%char)
         && bool_decide (String.get (String.length tag - 1) tag
                         = Some "]"%char)
         && let locale := substring 0 (String.length tag - 1) tag in
            (bool_decide (locale = "") || locale_chars G locale)
     end.

(** [g_key_file_set_value]: a group name or a key name that GLib does
    not accept fails its precondition check, and the call returns with
    the key file as it was. *)
Definition g_key_file_set_value (kf : GKeyFile) (group key value : string)
    : GKeyFile :=
  if g_key_file_is_group_name group && g_key_file_is_key_name key
  then <[(group, key) := value]> kf
  else kf.

Definition g_key_file_set_string (kf : GKeyFile) (group key value : string)
    : GKeyFile :=
  g_key_file_set_value kf group key value.

Definition g_key_file_set_boolean (kf : GKeyFile) (group key : string)
    (value : bool) : GKeyFile :=
  g_key_file_set_value kf group key (show_boolean G value).

Definition g_key_file_set_integer (kf : GKeyFile) (group key : string)
    (value : Z) : GKeyFile :=
  g_key_file_set_value kf group key (show_integer G value).

Definition g_key_file_remove_key (kf : GKeyFile) (group key : string)
    : GKeyFile :=
  delete (group, key) kf.

(** ** The functions of preferences.c *)

Definition _save_prefs (st : PrefsState) : PrefsState :=
  mkPrefs (prefs st) (log_maxsize st) (prefs st).

Definition set_prefs (kf : GKeyFile) (st : PrefsState) : PrefsState :=
  mkPrefs kf (log_maxsize st) (profrc st).

Definition prefs_get_boolean (pref : preference_t) (st : PrefsState) : bool :=
  let group := _get_group pref in
  let key := _get_key pref in
  let def := _get_default_boolean pref in
  if negb (g_key_file_has_key (prefs st) group key) then def
  else default false (g_key_file_get_boolean (prefs st) group key).

Definition prefs_set_boolean (pref : preference_t) (value : bool)
    (st : PrefsState) : PrefsState :=
  let group := _get_group pref in
  let key := _get_key pref in
  _save_prefs (set_prefs (g_key_file_set_boolean (prefs st) group key value)
                         st).

Definition prefs_get_string (pref : preference_t) (st : PrefsState)
    : option string :=
  let group := _get_group pref in
  let key := _get_key pref in
  let def := _get_default_string pref in
  let result := g_key_file_get_string (prefs st) group key in
  match result with
  | None =>
      match def with
      | Some def => Some def
      | None => None
      end
  | Some result => Some result
  end.

Definition prefs_set_string (pref : preference_t) (value : option string)
    (st : PrefsState) : PrefsState :=
  let group := _get_group pref in
  let key := _get_key pref in
  _save_prefs
    (set_prefs
       (match value with
        | None => g_key_file_remove_key (prefs st) group key
        | Some value => g_key_file_set_string (prefs st) group key value
        end)
       st).

(** A getter of an integer with [NULL] for [err]: the error value is 0. *)
Definition get_integer (st : PrefsState) (group key : string) : Z :=
  default 0 (g_key_file_get_integer (prefs st) group key).

Definition set_integer (group key : string) (value : Z) (st : PrefsState)
    : PrefsState :=
  _save_prefs
    (set_prefs (g_key_file_set_integer (prefs st) group key value) st).

Definition prefs_get_gone (st : PrefsState) : Z :=
  get_integer st PREF_GROUP_CHATSTATES "gone".

Definition prefs_set_gone (value : Z) : PrefsState -> PrefsState :=
  set_integer PREF_GROUP_CHATSTATES "gone" value.

Definition prefs_get_notify_remind (st : PrefsState) : Z :=
  get_integer st PREF_GROUP_NOTIFICATIONS "remind".

Definition prefs_set_notify_remind (value : Z) : PrefsState -> PrefsState :=
  set_integer PREF_GROUP_NOTIFICATIONS "remind" value.

(** [PREFS_MIN_LOG_SIZE] and [PREFS_MAX_LOG_SIZE] are macros of
    preferences.h. *)
Definition prefs_get_max_log_size (PREFS_MIN_LOG_SIZE PREFS_MAX_LOG_SIZE : Z)
    (st : PrefsState) : Z :=
  if bool_decide (log_maxsize st < PREFS_MIN_LOG_SIZE) then PREFS_MAX_LOG_SIZE
  else log_maxsize st.

Definition prefs_set_max_log_size (value : Z) (st : PrefsState)
    : PrefsState :=
  _save_prefs
    (mkPrefs
       (g_key_file_set_integer (prefs st) PREF_GROUP_LOGGING "maxsize" value)
       value (profrc st)).

Definition prefs_get_inpblock (st : PrefsState) : Z :=
  let val := get_integer st PREF_GROUP_UI "inpblock" in
  if bool_decide (val = 0) then INPBLOCK_DEFAULT else val.

Definition prefs_set_inpblock (value : Z) : PrefsState -> PrefsState :=
  set_integer PREF_GROUP_UI "inpblock" value.

Definition prefs_get_priority (st : PrefsState) : Z :=
  get_integer st PREF_GROUP_PRESENCE "priority".

Definition prefs_get_reconnect (st : PrefsState) : Z :=
  if negb (g_key_file_has_key (prefs st) PREF_GROUP_CONNECTION "reconnect")
  then 30
  else get_integer st PREF_GROUP_CONNECTION "reconnect".

Definition prefs_set_reconnect (value : Z) : PrefsState -> PrefsState :=
  set_integer PREF_GROUP_CONNECTION "reconnect" value.

Definition prefs_get_autoping (st : PrefsState) : Z :=
  if negb (g_key_file_has_key (prefs st) PREF_GROUP_CONNECTION "autoping")
  then 60
  else get_integer st PREF_GROUP_CONNECTION "autoping".

Definition prefs_set_autoping (value : Z) : PrefsState -> PrefsState :=
  set_integer PREF_GROUP_CONNECTION "autoping" value.

Definition prefs_get_autoaway_time (st : PrefsState) : Z :=
  let result := get_integer st PREF_GROUP_PRESENCE "autoaway.time" in
  if bool_decide (result = 0) then 15 else result.

Definition prefs_set_autoaway_time (value : Z) : PrefsState -> PrefsState :=
  set_integer PREF_GROUP_PRESENCE "autoaway.time" value.

Definition prefs_set_occupants_size (value : Z) : PrefsState -> PrefsState :=
  set_integer PREF_GROUP_UI "occupants.size" value.

Definition prefs_get_occupants_size (st : PrefsState) : Z :=
  let result := get_integer st PREF_GROUP_UI "occupants.size" in
  if bool_decide (result > 99) || bool_decide (result < 1) then 15
  else result.

Definition prefs_set_roster_size (value : Z) : PrefsState -> PrefsState :=
  set_integer PREF_GROUP_UI "roster.size" value.

Definition prefs_get_roster_size (st : PrefsState) : Z :=
  let result := get_integer st PREF_GROUP_UI "roster.size" in
  if bool_decide (result > 99) || bool_decide (result < 1) then 25
  else result.

(** [resultstr[0]]: the first character, or the terminating NUL of the
    empty string. *)
Definition first_char (s : string) : ascii :=
  match s with
  | String c _ => c
  | EmptyString => "000"%char
  end.

(** [str[0] = ch; str[1] = 0]: the C string that [ch] starts; it is
    empty when [ch] is NUL. *)
Definition char_string (ch : ascii) : string :=
  if bool_decide (ch = "000"%char) then "" else String ch "".

Definition prefs_get_otr_char (st : PrefsState) : ascii :=
  let resultstr := g_key_file_get_string (prefs st) PREF_GROUP_OTR "otr.char" in
  match resultstr with
  | None => "~"%char
  | Some resultstr => first_char resultstr
  end.

Definition prefs_set_otr_char (ch : ascii) (st : PrefsState) : PrefsState :=
  let str := char_string ch in
  _save_prefs
    (set_prefs (g_key_file_set_string (prefs st) PREF_GROUP_OTR "otr.char" str)
               st).

Definition prefs_get_pgp_char (st : PrefsState) : ascii :=
  let resultstr := g_key_file_get_string (prefs st) PREF_GROUP_PGP "pgp.char" in
  match resultstr with
  | None => "~"%char
  | Some resultstr => first_char resultstr
  end.

Definition prefs_set_pgp_char (ch : ascii) (st : PrefsState) : PrefsState :=
  let str := char_string ch in
  _save_prefs
    (set_prefs (g_key_file_set_string (prefs st) PREF_GROUP_PGP "pgp.char" str)
               st).

Definition prefs_add_alias (name value : string) (st : PrefsState)
    : bool * PrefsState :=
  if g_key_file_has_key (prefs st) PREF_GROUP_ALIAS name then (false, st)
  else
    (true,
     _save_prefs
       (set_prefs (g_key_file_set_string (prefs st) PREF_GROUP_ALIAS name value)
                  st)).

Definition prefs_get_alias (name : string) (st : PrefsState)
    : option string :=
  g_key_file_get_string (prefs st) PREF_GROUP_ALIAS name.

Definition prefs_remove_alias (name : string) (st : PrefsState)
    : bool * PrefsState :=
  if negb (g_key_file_has_key (prefs st) PREF_GROUP_ALIAS name) then (false, st)
  else
    (true,
     _save_prefs
       (set_prefs (g_key_file_remove_key (prefs st) PREF_GROUP_ALIAS name) st)).






(** The migration of a pre-0.4.7 time setting, which [prefs_load] does
    for the keys ["time"] and ["time.statusbar"]. *)
Definition migrate_time (key : string) (kf : GKeyFile) : GKeyFile :=
  if g_key_file_has_key kf PREF_GROUP_UI key then
    let time := g_key_file_get_string kf PREF_GROUP_UI key in
    if bool_decide (time = Some "minutes") then
      g_key_file_set_string kf PREF_GROUP_UI key "%H:%M"
    else if bool_decide (time = Some "seconds") then
      g_key_file_set_string kf PREF_GROUP_UI key "%H:%M:%S"
    else if bool_decide (time = Some "off") then
      g_key_file_set_string kf PREF_GROUP_UI key ""
    else kf
  else kf.

(** [prefs_load]; [file] is what [g_key_file_load_from_file] reads from
    [.profrc], the empty key file when there is none. *)
Definition prefs_load (file : GKeyFile) : PrefsState :=
  let prefs := file in
  let log_maxsize :=
    match g_key_file_get_integer prefs PREF_GROUP_LOGGING "maxsize" with
    | Some v => v
    | None => 0
    end in
  (* move pre 0.4.7 otr.warn to enc.warn *)
  let prefs :=
    match g_key_file_get_boolean prefs PREF_GROUP_UI "otr.warn" with
    | Some otr_warn =>
        g_key_file_remove_key
          (g_key_file_set_boolean prefs PREF_GROUP_UI (_get_key PREF_ENC_WARN)
                                  otr_warn)
          PREF_GROUP_UI "otr.warn"
    | None => prefs
    end in
  (* migrate pre 0.4.7 time settings format *)
  let prefs := migrate_time "time" prefs in
  let prefs := migrate_time "time.statusbar" prefs in
  _save_prefs (mkPrefs prefs log_maxsize file).

End KeyFile.

(** ** A sample of GLib and of [.profrc] *)

(** Booleans as GLib writes them, integers in decimal, and 7-bit text
    as the valid UTF-8. *)
Definition glib0 : GLib := {|
  parse_boolean := fun s =>
    if bool_decide (s = "true") || bool_decide (s = "1") then Some true
    else if bool_decide (s = "false") || bool_decide (s = "0") then Some false
    else None;
  parse_integer := fun s =>
    Z.of_int <$> DecimalString.NilEmpty.int_of_string s;
  show_boolean := fun b => if b then "true" else "false";
  show_integer := fun z => DecimalString.NilZero.string_of_int (Z.to_int z);
  g_utf8_validate := fun s =>
    forallb (fun c => Nat.ltb (nat_of_ascii c) 128) (list_ascii_of_string s);
  locale_chars := fun s =>
    forallb (fun c => let n := nat_of_ascii c in
               ((48 <=? n) && (n <=? 57) || (65 <=? n) && (n <=? 90)
                || (97 <=? n) && (n <=? 122) || (n =? 45) || (n =? 95)
                || (n =? 46) || (n =? 64))%nat)
            (list_ascii_of_string s)
|}.

Definition profrc0 : GKeyFile :=
  <[("ui", "otr.warn") := "false"]>
  (<[("ui", "time") := "minutes"]>
  (<[("ui", "beep") := "true"]>
  (<[("logging", "maxsize") := "2048"]>
  (<[("alias", "q") := "/quit"]>
  (<[("alias", "j") := "/join"]> ∅))))).

Definition prefs0 : PrefsState := mkPrefs profrc0 2048 profrc0.

End Preferences.

(** * Further properties of the core: definitions *)

(** ** Closing many windows *)

(** What [ui_win_has_unsaved_form] answers for a window. *)
Definition unsaved_form_win (w : ProfWin) : bool :=
  match kind w with
  | KMucConf confwin =>
      match form confwin with
      | Some f => modified f
      | None => false
      end
  | _ => false
  end.

(** Every room has one window at most: a room window is the one that
    [wins_get_muc] finds for its room. *)
Definition room_window_found (st : State) (n : Z) (w : ProfWin) : bool :=
  match kind w with
  | KMuc mucwin => bool_decide (wins_get_muc (roomjid mucwin) st = Some n)
  | _ => true
  end.

Definition rooms_unique (st : State) : Prop :=
  map_Forall (fun n w => room_window_found st n w = true) (windows st).

(** Every room-configuration window has its form ([confwin->form] is
    not [NULL]). *)
Definition forms_present (st : State) : Prop :=
  map_Forall (fun _ w => conf_form w <> Some None) (windows st).

(** The condition of the [if] in the loop of [ui_close_all_wins] and of
    [ui_close_read_wins], for the window [w] in slot [num]. *)
Definition closable_all (num : Z) (w : ProfWin) : bool :=
  bool_decide (num ≠ 1) && negb (unsaved_form_win w).

Definition closable_read (num : Z) (w : ProfWin) : bool :=
  bool_decide (num ≠ 1) && bool_decide (win_unread w = 0)
  && negb (unsaved_form_win w).

(** The windows that a loop with the condition [c] leaves open. *)
Definition after_close (c : Z -> ProfWin -> bool) (ws : gmap Z ProfWin)
    (n : Z) : option ProfWin :=
  match ws !! n with
  | Some w => if c n w then None else Some w
  | None => None
  end.

(** ** Leaving a room (ui/core.c and event/server_events.c) *)

Definition ui_room_destroy (roomjid : string) : prof unit :=
  window ← gets (wins_get_muc roomjid);
  match window with
  | None =>
      emit (LogError
              "Received room destroy result, but no window open for %s."
              [ArgS (Some roomjid)])
  | Some window =>
      let num := wins_get_num window in
      ui_close_win num;;
      cons_show "Room destroyed: %s" [ArgS (Some roomjid)]
  end.

Definition ui_room_destroyed (roomjid : string)
    (reason new_jid password : option string) : prof unit :=
  window ← gets (wins_get_muc roomjid);
  match window with
  | None =>
      emit (LogError "Received room destroy, but no window open for %s."
                     [ArgS (Some roomjid)])
  | Some window =>
      let num := wins_get_num window in
      ui_close_win num;;
      console ← gets wins_get_console;
      match reason with
      | Some _ =>
          win_vprint console "!" None [] THEME_TYPING ""
                     "<- Room destroyed: %s, reason: %s"
                     [ArgS (Some roomjid); ArgS reason]
      | None =>
          win_vprint console "!" None [] THEME_TYPING ""
                     "<- Room destroyed: %s" [ArgS (Some roomjid)]
      end;;
      match new_jid with
      | Some _ =>
          match password with
          | Some _ =>
              win_vprint console "!" None [] THEME_TYPING ""
                         "Replacement room: %s, password: %s"
                         [ArgS new_jid; ArgS password]
          | None =>
              win_vprint console "!" None [] THEME_TYPING ""
                         "Replacement room: %s" [ArgS new_jid]
          end
      | None => ret tt
      end
  end.

Definition ui_room_kicked (roomjid : string) (actor reason : option string)
    : prof unit :=
  window ← gets (wins_get_muc roomjid);
  match window with
  | None =>
      emit (LogError "Received kick, but no window open for %s."
                     [ArgS (Some roomjid)])
  | Some window =>
      let num := wins_get_num window in
      ui_close_win num;;
      let message := "Kicked from " +:+ roomjid in
      let message := match actor with
                     | Some actor => message +:+ " by " +:+ actor
                     | None => message
                     end in
      let message := match reason with
                     | Some reason => message +:+ ", reason: " +:+ reason
                     | None => message
                     end in
      console ← gets wins_get_console;
      win_vprint console "!" None [] THEME_TYPING "" "<- %s"
                 [ArgS (Some message)]
  end.

Definition ui_room_banned (roomjid : string) (actor reason : option string)
    : prof unit :=
  window ← gets (wins_get_muc roomjid);
  match window with
  | None =>
      emit (LogError "Received ban, but no window open for %s."
                     [ArgS (Some roomjid)])
  | Some window =>
      let num := wins_get_num window in
      ui_close_win num;;
      let message := "Banned from " +:+ roomjid in
      let message := match actor with
                     | Some actor => message +:+ " by " +:+ actor
                     | None => message
                     end in
      let message := match reason with
                     | Some reason => message +:+ ", reason: " +:+ reason
                     | None => message
                     end in
      console ← gets wins_get_console;
      win_vprint console "!" None [] THEME_TYPING "" "<- %s"
                 [ArgS (Some message)]
  end.

Definition sv_ev_leave_room (room : string) : prof unit :=
  muc_leave room;;
  ui_leave_room room.

Definition sv_ev_room_destroy (room : string) : prof unit :=
  muc_leave room;;
  ui_room_destroy room.

Definition sv_ev_room_destroyed (room : string)
    (new_jid password reason : option string) : prof unit :=
  muc_leave room;;
  ui_room_destroyed room reason new_jid password.

Definition sv_ev_room_kicked (room : string) (actor reason : option string)
    : prof unit :=
  muc_leave room;;
  ui_room_kicked room actor reason.

Definition sv_ev_room_banned (room : string) (actor reason : option string)
    : prof unit :=
  muc_leave room;;
  ui_room_banned room actor reason.

(** The ways in which the server ends our stay in a room. *)
Inductive departure :=
  | Leave
  | DestroyResult
  | Destroyed (new_jid password reason : option string)
  | Kicked (actor reason : option string)
  | Banned (actor reason : option string).

Definition depart (room : string) (d : departure) : prof unit :=
  match d with
  | Leave => sv_ev_leave_room room
  | DestroyResult => sv_ev_room_destroy room
  | Destroyed new_jid password reason =>
      sv_ev_room_destroyed room new_jid password reason
  | Kicked actor reason => sv_ev_room_kicked room actor reason
  | Banned actor reason => sv_ev_room_banned room actor reason
  end.

(** ** Broadcasts and subjects of a room *)

(** The room [r] with [messages] added at the end of its queue of
    broadcasts. *)
Definition with_broadcasts (messages : list string) (r : ChatRoom) : ChatRoom :=
  mkChatRoom (room_nick r) (room_role r) (room_affiliation r)
    (room_subject r) (room_pending_broadcasts r ++ messages)
    (room_roster r) (roster_received r) (pending_nick_change r)
    (room_autojoin r) (room_requires_config r).

(** What [ui_room_subject] prints for a subject set by [nick]. *)
Definition subject_change_lines (nick subject : option string) : list Line :=
  match subject, nick with
  | Some _, Some _ =>
      [LPrint "!" None [NO_EOL] THEME_ROOMINFO ""
              "*%s has set the room subject: " [ArgS nick];
       LPrint "!" None [NO_DATE] THEME_DEFAULT "" "%s" [ArgS subject]]
  | Some _, None =>
      [LPrint "!" None [NO_EOL] THEME_ROOMINFO "" "Room subject: " [];
       LPrint "!" None [NO_DATE] THEME_DEFAULT "" "%s" [ArgS subject]]
  | None, Some _ =>
      [LPrint "!" None [] THEME_ROOMINFO ""
              "*%s has cleared the room subject: " [ArgS nick]]
  | None, None =>
      [LPrint "!" None [] THEME_ROOMINFO "" "Room subject cleared" []]
  end.

(** ** Starting and ending an encryption session *)

(** The end action of an engine: [/otr end] or [/pgp end]. *)
Definition cmd_end (E : Externals) (e : engine) (window : Z)
    (command : string) : prof bool :=
  match e with
  | ModeA => cmd_otr_end E window command
  | ModeB => cmd_pgp_end E window command
  end.

(** The program is built with the engine and connected. *)
Definition available (E : Externals) (e : engine) (st : State) : bool :=
  match e with
  | ModeA => HAVE_LIBOTR E
  | ModeB => HAVE_LIBGPGME E
  end && bool_decide (conn_status st = JABBER_CONNECTED).

(** The keys that the start action of an engine asks for. *)
Definition keys_ready (E : Externals) (e : engine) (jid : string) : bool :=
  match e with
  | ModeA => otr_key_loaded E
  | ModeB =>
      p_gpg_valid_key E (jabber_get_account_pgp_keyid E)
      && p_gpg_available E jid
  end.

(** What the start action of an engine sends. *)
Definition start_actions (E : Externals) (e : engine) (jid : string)
    : list Effect :=
  match e with
  | ModeA => [Net (MessageSendChatOtr jid (otr_start_query E))]
  | ModeB => []
  end.

(** What the end action of an engine sends. *)
Definition end_actions (e : engine) (jid : string) : list Effect :=
  match e with
  | ModeA => [Net (OtrEndSession jid)]
  | ModeB => []
  end.

(** The sample collaborators with the keys of both engines in place. *)
Definition E0_keys : Externals := {|
  HAVE_LIBOTR := true;
  HAVE_LIBGPGME := true;
  roster_get_msg_display_name := roster_get_msg_display_name E0;
  roster_get_contact := roster_get_contact E0;
  p_contact_presence := p_contact_presence E0;
  p_contact_status := p_contact_status E0;
  roster_barejid_from_name := roster_barejid_from_name E0;
  get_nick_from_full_jid := get_nick_from_full_jid E0;
  jabber_get_fulljid := jabber_get_fulljid E0;
  jabber_get_account_pgp_keyid := Some "0xA1B2C3D4";
  jid_create := jid_create E0;
  chat_log_get_previous := chat_log_get_previous E0;
  memory_after := memory_after E0;
  g_utf8_strdown := g_utf8_strdown E0;
  p_gpg_decrypt := p_gpg_decrypt E0;
  p_gpg_valid_key := fun _ => true;
  p_gpg_available := fun _ => true;
  otr_on_message_recv := otr_on_message_recv E0;
  otr_key_loaded := true;
  otr_is_secure := otr_is_secure E0;
  otr_is_trusted := otr_is_trusted E0;
  otr_start_query := otr_start_query E0;
  wins_tidy := wins_tidy E0;
  wins_get_prune_wins := wins_get_prune_wins E0
|}.

(** ** The start of an OTR session, as reported by the engine *)

(** What [ui_gone_secure] tells the user outside the chat window. *)
Definition gone_secure_calls (jid : string) (n : Z) (is_current : bool)
    : list Effect :=
  if is_current then [TitleBarSwitch]
  else [StatusBarNew n;
        ConsShow "%s started an OTR session (%d)."
                 [ArgS (Some jid); ArgD (if bool_decide (n = 10) then 0 else n)];
        ConsAlert].

(** ** [/close] with a slot number *)

(** The slot that [/close] is about: the number given, or without an
    argument the current window. *)
Definition close_index (args : list string) (st : State) : Z :=
  match args !! 0%nat with
  | Some args0 => atoi args0
  | None => current st
  end.

(** The answer of [/close] for a slot that it cannot close. *)
Definition close_refusal (index : Z) : string :=
  if bool_decide (index < 0) || bool_decide (index = 10)
  then "No such window exists."
  else if bool_decide (index = 1) then "Cannot close console window."
  else "Window is not open.".

(** The calls by which a window takes leave of its conversation: what
    is sent, and the calls of [chat_state_gone] and
    [chat_session_remove] into the chat states, which decide there
    what is sent for them. *)
Definition is_leave_call (e : Effect) : bool :=
  match e with
  | Net _ | ChatStateGone _ | ChatSessionRemove _ => true
  | _ => false
  end.

Definition leave_calls (t : list Effect) : list Effect :=
  List.filter is_leave_call t.

(** The leave calls of [ui_close_connected_win] for the window [w],
    and the rooms it leaves in the table. *)
Definition close_calls (E : Externals) (w : ProfWin) : list Effect :=
  match kind w with
  | KMuc mucwin => [Net (PresenceLeaveChatRoom (roomjid mucwin))]
  | KChat chatwin =>
      (if HAVE_LIBOTR E && bool_decide (enc_mode chatwin = PROF_ENC_OTR)
       then [Net (OtrEndSession (barejid chatwin))]
       else [])
      ++ [ChatStateGone (barejid chatwin);
          ChatSessionRemove (barejid chatwin)]
  | _ => []
  end.

Definition close_rooms (w : ProfWin) (rs : gmap string ChatRoom)
    : gmap string ChatRoom :=
  match kind w with
  | KMuc mucwin => delete (roomjid mucwin) rs
  | _ => rs
  end.

(** ** What [/form] and [/room] send *)

(** The request that [/form] sends for the form [f] of [room]. *)
Definition form_actions (room : string) (f : option DataForm)
    (args0 : option string) : list Effect :=
  if g_strcmp0_eq args0 (Some "submit") then
    [Net (IqSubmitRoomConfig room f)]
  else if g_strcmp0_eq args0 (Some "cancel") then
    [Net (IqRoomConfigCancel room)]
  else [].

(** The request that [/room] sends for [room]. *)
Definition room_actions (room : string) (args0 : option string) (st : State)
    : list Effect :=
  if g_strcmp0_eq args0 (Some "accept") then
    if muc_requires_config room st then [Net (IqConfirmInstantRoom room)]
    else []
  else if g_strcmp0_eq args0 (Some "destroy") then
    [Net (IqDestroyRoom room)]
  else if g_strcmp0_eq args0 (Some "config") then
    match wins_get_muc_conf room st with
    | Some _ => []
    | None => [Net (IqRequestRoomConfigForm room)]
    end
  else [].

(** ** Our role and affiliation in a joined room *)

(** The end of an announcement: who changed it and why, when known. *)
Definition by_and_reason (actor reason : option string) : list Line :=
  (if bool_decide (is_Some actor)
   then [LPrint "!" None [NO_DATE; NO_EOL] THEME_ROOMINFO "" ", by: %s"
                [ArgS actor]]
   else [])
  ++ (if bool_decide (is_Some reason)
      then [LPrint "!" None [NO_DATE; NO_EOL] THEME_ROOMINFO ""
                   ", reason: %s" [ArgS reason]]
      else [])
  ++ [LPrint "!" None [NO_DATE] THEME_ROOMINFO "" "" []].

(** What a self-presence prints in a joined room when our role was
    [old_role] and our affiliation [old_affiliation]. *)
Definition privilege_lines (role affiliation actor reason old_role
    old_affiliation : option string) : list Line :=
  if negb (g_strcmp0_eq role old_role)
     && negb (g_strcmp0_eq affiliation old_affiliation) then
    LPrint "!" None [NO_EOL] THEME_ROOMINFO ""
      "Your role and affiliation have been changed, role: %s, affiliation: %s"
      [ArgS role; ArgS affiliation]
    :: by_and_reason actor reason
  else if negb (g_strcmp0_eq role old_role) then
    LPrint "!" None [NO_EOL] THEME_ROOMINFO ""
           "Your role has been changed to: %s" [ArgS role]
    :: by_and_reason actor reason
  else if negb (g_strcmp0_eq affiliation old_affiliation) then
    LPrint "!" None [NO_EOL] THEME_ROOMINFO ""
           "Your affiliation has been changed to: %s" [ArgS affiliation]
    :: by_and_reason actor reason
  else [].

(** The sample session after the join of the room. *)
Definition st0_joined : State :=
  set_rooms
    (<["r@conf" :=
         mkChatRoom (room_nick room0) (room_role room0)
           (room_affiliation room0) (room_subject room0)
           (room_pending_broadcasts room0) (room_roster room0) true
           (pending_nick_change room0) (room_autojoin room0)
           (room_requires_config room0)]> (rooms st0))
    st0.

(** ** Further sample states *)

(** The sample session with the automatic tidying of the window list
    switched off. *)
Definition st0_no_tidy : State :=
  mkState (windows st0) (current st0)
    (fun pref => match pref with
                 | PREF_WINS_AUTO_TIDY => Some false
                 | _ => None
                 end)
    (prefs_string st0) (conn_status st0) (rooms st0) (invites st0)
    (commands_ac st0) (trace st0).

(** The sample session while a change of our nickname in the room is
    pending. *)
Definition st0_renaming : State :=
  set_rooms
    (<["r@conf" :=
         mkChatRoom (room_nick room0) (room_role room0)
           (room_affiliation room0) (room_subject room0)
           (room_pending_broadcasts room0) (room_roster room0)
           (roster_received room0) true (room_autojoin room0)
           (room_requires_config room0)]> (rooms st0))
    st0.

(** ** The calls of [beep()] and [notify_message()] *)

(** The calls of the two functions in a trace, in the order in which
    they were made. *)
Definition is_alert_call (e : Effect) : bool :=
  is_beep e || is_notify_message e.

Definition alert_calls (t : list Effect) : list Effect :=
  List.filter is_alert_call t.

(** The name under which the sender of a message is shown, and the
    text of the message. *)
Definition sender_name (E : Externals) (ev : inbound) (st : State) : string :=
  match ev with
  | InChat chatwin resource _ _ _ _ =>
      match windows st !! chatwin with
      | Some (mkWin (KChat c) _) =>
          roster_get_msg_display_name E (barejid c) resource
      | _ => ""
      end
  | InPrivate fulljid _ _ => get_nick_from_full_jid E fulljid
  | InRoom _ nick _ => nick
  end.

Definition message_of (ev : inbound) : string :=
  match ev with
  | InChat _ _ message _ _ _ => message
  | InPrivate _ message _ => message
  | InRoom _ _ message => message
  end.

(** The calls that the preferences ask for on a message to the window
    in slot [n]: [beep()] under [PREF_BEEP], and then
    [notify_message()] with that window, the name of the sender and
    the text under [PREF_NOTIFY_MESSAGE]. *)
Definition alerts (E : Externals) (ev : inbound) (n : Z) (st : State)
    : list Effect :=
  (if prefs_get_boolean PREF_BEEP st then [Beep] else [])
  ++ (if prefs_get_boolean PREF_NOTIFY_MESSAGE st
      then [NotifyMessage n (sender_name E ev st) (message_of ev)] else []).

(** The sample session with both switched on, and the same with the
    chat window in the focus. *)
Definition st0_alerts : State :=
  mkState (windows st0) (current st0)
    (fun pref => match pref with
                 | PREF_BEEP | PREF_NOTIFY_MESSAGE => Some true
                 | _ => None
                 end)
    (prefs_string st0) (conn_status st0) (rooms st0) (invites st0)
    (commands_ac st0) (trace st0).

Definition st0_alerts_focused : State := set_current 2 st0_alerts.

(** ** Carbon copies and delayed messages *)



(** ** Entries of the chat log *)

(** The decimal digit [n], for [0 <= n <= 9], and a number below 100
    written with two digits, as the entries of the chat log have their
    hours, minutes and seconds. *)
Definition digit_char (n : Z) : ascii := ascii_of_nat (48 + Z.to_nat n).

Definition two_digits (n : Z) : string :=
  String (digit_char (n / 10)) (String (digit_char (n mod 10)) "").

(** A text without a NUL byte, as a C string holds it. *)
Fixpoint is_c_string (s : string) : bool :=
  match s with
  | String c rest => negb (bool_decide (c = NUL)) && is_c_string rest
  | EmptyString => true
  end.

(** What a chat log holds: headers, and entries with the time of day
    and the text of a message. *)
Inductive LogRecord :=
  | LogHeader (text : string)
  | LogEntry (hh mm ss : Z) (text : string).

(** The line of the log for a record: a header as it is, an entry as
    [hh:mm:ss - text]. *)
Definition log_text (r : LogRecord) : string :=
  match r with
  | LogHeader text => text
  | LogEntry hh mm ss text =>
      two_digits hh +:+ ":" +:+ two_digits mm +:+ ":" +:+ two_digits ss
      +:+ " - " +:+ text
  end.




(** * Facts about C integers *)

Lemma int_incr_small z : - 2 ^ 31 <= z < INT_MAX -> int_incr z = z + 1.
Proof.
  unfold int_incr, int_wrap, INT_MAX. intros H.
  rewrite Z.mod_small; lia.
Qed.

(** * Facts about the registry *)

Lemma find_ext_in {A} (f g : A -> bool) (l : list A) :
  (forall x, x ∈ l -> f x = g x) -> List.find f l = List.find g l.
Proof.
  induction l as [|x l IH]; intros H; [done|]. cbn.
  rewrite (H x) by left. destruct (g x); [done|].
  apply IH. intros y Hy. apply H. by right.
Qed.

Lemma find_None_iff {A} (f : A -> bool) (l : list A) :
  List.find f l = None <-> forall x, x ∈ l -> f x = false.
Proof.
  induction l as [|x l IH]; cbn.
  - split; [|done]. intros _ y Hy. inversion Hy.
  - destruct (f x) eqn:Hx.
    + split; [done|]. intros H. specialize (H x). rewrite Hx in H. discriminate H. left.
    + rewrite IH. split.
      * intros H y Hy. inversion Hy; subst; auto.
      * intros H y Hy. apply H. by right.
Qed.

Lemma find_Some_elem {A} (f : A -> bool) (l : list A) x :
  List.find f l = Some x -> x ∈ l /\ f x = true.
Proof.
  induction l as [|y l IH]; cbn; [done|].
  destruct (f y) eqn:Hy.
  - intros [= ->]. split; [left|done].
  - intros H. destruct (IH H). split; [by right|done].
Qed.

Lemma wins_find_Some P ws n :
  wins_find P ws = Some n -> exists w, ws !! n = Some w /\ P w = true.
Proof.
  unfold wins_find. intros H. apply find_Some_elem in H as [_ H].
  destruct (ws !! n) as [w|]; [|done]. eauto.
Qed.

Lemma wins_find_None P ws :
  wins_find P ws = None <-> forall n w, ws !! n = Some w -> P w = false.
Proof.
  unfold wins_find. rewrite find_None_iff. split.
  - intros H n w Hw. specialize (H n). rewrite Hw in H. apply H.
    apply elem_of_elements, elem_of_dom. eauto.
  - intros H n _. destruct (ws !! n) as [w|] eqn:Hw; [eauto|done].
Qed.

Lemma wins_find_insert_same P (ws : gmap Z ProfWin) n w w' :
  ws !! n = Some w -> P w' = P w ->
  wins_find P (<[n := w']> ws) = wins_find P ws.
Proof.
  intros Hw HP. unfold wins_find.
  rewrite dom_insert_lookup_L by eauto.
  apply find_ext_in. intros k _.
  destruct (decide (k = n)) as [->|Hne].
  - by rewrite lookup_insert_eq, Hw.
  - by rewrite lookup_insert_ne.
Qed.

Lemma wins_find_insert_fresh P (ws : gmap Z ProfWin) n w :
  wins_find P ws = None -> P w = true ->
  wins_find P (<[n := w]> ws) = Some n.
Proof.
  intros Hnone HP.
  destruct (wins_find P (<[n := w]> ws)) as [k|] eqn:Hk.
  - apply wins_find_Some in Hk as (w' & Hw' & HP').
    destruct (decide (k = n)) as [->|Hne]; [done|].
    rewrite lookup_insert_ne in Hw' by done.
    rewrite wins_find_None in Hnone. rewrite (Hnone _ _ Hw') in HP'. done.
  - rewrite wins_find_None in Hk. specialize (Hk n w).
    rewrite lookup_insert_eq in Hk. rewrite Hk in HP; done.
Qed.

Lemma win_num_of_pos_inj p q :
  (2 <= p)%nat -> (2 <= q)%nat -> win_num_of_pos p = win_num_of_pos q -> p = q.
Proof.
  unfold win_num_of_pos. intros Hp Hq.
  destruct (Nat.eqb_spec p 10), (Nat.eqb_spec q 10); lia.
Qed.

Lemma win_num_of_pos_not_console p : (2 <= p)%nat -> win_num_of_pos p ≠ 1.
Proof. unfold win_num_of_pos. destruct (Nat.eqb_spec p 10); lia. Qed.

Lemma get_next_available_win_num_spec (used : gset Z) :
  (get_next_available_win_num used ∉ used) /\
  (get_next_available_win_num used ≠ 1).
Proof.
  unfold get_next_available_win_num.
  set (cands := win_num_of_pos <$> seq 2 (S (size used))).
  destruct (List.find _ cands) as [k|] eqn:Hk.
  - apply find_Some_elem in Hk as [Hin Hk]. cbn.
    apply bool_decide_eq_true in Hk. split; [done|].
    apply list_elem_of_fmap in Hin as (p & -> & Hp).
    apply elem_of_seq in Hp. apply win_num_of_pos_not_console. lia.
  - exfalso. rewrite find_None_iff in Hk.
    assert (Hnd : NoDup cands).
    { apply NoDup_fmap_2_strong; [|apply NoDup_seq].
      intros p q Hp Hq. apply elem_of_seq in Hp, Hq.
      apply win_num_of_pos_inj; lia. }
    assert (Hsub : cands ⊆ elements used).
    { intros k Hin. apply elem_of_elements.
      specialize (Hk k Hin). apply bool_decide_eq_false in Hk.
      by apply dec_stable. }
    assert (Hlen : (length cands <= length (elements used))%nat)
      by (apply submseteq_length, NoDup_submseteq; auto).
    unfold cands in Hlen. rewrite length_fmap, length_seq in Hlen.
    change (length (elements used)) with (size used) in Hlen. lia.
Qed.

Lemma wins_is_current_open n w st :
  windows st !! n = Some w ->
  wins_is_current n st = bool_decide (current st = n).
Proof.
  intros Hw. unfold wins_is_current, wins_get_current, wins_get_by_num.
  destruct (windows st !! current st) eqn:Hc.
  - apply bool_decide_ext. split; congruence.
  - rewrite bool_decide_eq_false_2 by done.
    symmetry. apply bool_decide_eq_false. intros H. rewrite H in Hc.
    congruence.
Qed.

Lemma wins_is_current_closed n st :
  windows st !! n = None -> wins_is_current n st = false.
Proof.
  intros Hw. unfold wins_is_current, wins_get_current, wins_get_by_num.
  apply bool_decide_eq_false.
  destruct (windows st !! current st) eqn:Hc; [|done].
  intros [= H]. rewrite H in Hc. congruence.
Qed.

(** * The rules of [wp] *)

Lemma wp_run {A} (m : prof A) Q st :
  wp m Q st <-> exists a st', m st = Some (a, st') /\ Q a st'.
Proof.
  unfold wp. destruct (m st) as [[a st']|]; split.
  - eauto.
  - intros (? & ? & [= -> ->] & ?). done.
  - done.
  - intros (? & ? & [=] & ?).
Qed.

Lemma wp_exec {A} (m : prof A) (Q : State -> Prop) st :
  wp m (fun _ st' => Q st') st -> exists st', exec m st = Some st' /\ Q st'.
Proof.
  rewrite wp_run. intros (a & st' & Hm & HQ). exists st'.
  unfold exec. by rewrite Hm.
Qed.

Lemma wp_mono {A} (m : prof A) (Q Q' : A -> State -> Prop) st :
  wp m Q st -> (forall a st', Q a st' -> Q' a st') -> wp m Q' st.
Proof. unfold wp. destruct (m st) as [[a st']|]; auto. Qed.

Lemma wp_bind {A B} (m : prof A) (k : A -> prof B) Q st :
  wp m (fun a st' => wp (k a) Q st') st -> wp (bind m k) Q st.
Proof. unfold wp, bind. destruct (m st) as [[a st']|]; done. Qed.

Lemma wp_ret {A} (a : A) (Q : A -> State -> Prop) st :
  Q a st -> wp (ret a) Q st.
Proof. done. Qed.

Lemma wp_gets {A} (f : State -> A) (Q : A -> State -> Prop) st :
  Q (f st) st -> wp (gets f) Q st.
Proof. done. Qed.

Lemma wp_get (Q : State -> State -> Prop) st : Q st st -> wp get Q st.
Proof. done. Qed.

Lemma wp_modify f (Q : unit -> State -> Prop) st :
  Q tt (f st) -> wp (modify f) Q st.
Proof. done. Qed.

Lemma wp_emit e (Q : unit -> State -> Prop) st :
  Q tt (set_trace (trace st ++ [e]) st) -> wp (emit e) Q st.
Proof. done. Qed.

Lemma wp_deref {A} (a : A) (Q : A -> State -> Prop) st :
  Q a st -> wp (deref (Some a)) Q st.
Proof. done. Qed.

Lemma wp_win_append n l w (Q : unit -> State -> Prop) st :
  windows st !! n = Some w ->
  Q tt (set_windows
          (<[n := mkWin (kind w) (buffer w ++ [l])]> (windows st)) st) ->
  wp (win_append n l) Q st.
Proof. intros Hw HQ. unfold wp, win_append. by rewrite Hw. Qed.

Lemma wp_kind_of n w (Q : WinKind -> State -> Prop) st :
  windows st !! n = Some w -> Q (kind w) st -> wp (kind_of n) Q st.
Proof. intros Hw HQ. unfold wp, kind_of. by rewrite Hw. Qed.

Lemma wp_win_type_of n w (Q : win_type_t -> State -> Prop) st :
  windows st !! n = Some w -> Q (win_type w) st -> wp (win_type_of n) Q st.
Proof. intros Hw HQ. unfold wp, win_type_of. by rewrite Hw. Qed.

Lemma wp_chatwin_of n c b (Q : ProfChatWin -> State -> Prop) st :
  windows st !! n = Some (mkWin (KChat c) b) ->
  Q c st -> wp (chatwin_of n) Q st.
Proof. intros Hw HQ. unfold wp, chatwin_of. by rewrite Hw. Qed.

Lemma wp_mucwin_of n m b (Q : ProfMucWin -> State -> Prop) st :
  windows st !! n = Some (mkWin (KMuc m) b) ->
  Q m st -> wp (mucwin_of n) Q st.
Proof. intros Hw HQ. unfold wp, mucwin_of. by rewrite Hw. Qed.

Lemma wp_confwin_of n c b (Q : ProfMucConfWin -> State -> Prop) st :
  windows st !! n = Some (mkWin (KMucConf c) b) ->
  Q c st -> wp (confwin_of n) Q st.
Proof. intros Hw HQ. unfold wp, confwin_of. by rewrite Hw. Qed.

Lemma wp_privatewin_of n p b (Q : ProfPrivateWin -> State -> Prop) st :
  windows st !! n = Some (mkWin (KPrivate p) b) ->
  Q p st -> wp (privatewin_of n) Q st.
Proof. intros Hw HQ. unfold wp, privatewin_of. by rewrite Hw. Qed.

Lemma wp_set_kind n k w (Q : unit -> State -> Prop) st :
  windows st !! n = Some w ->
  Q tt (set_windows (<[n := mkWin k (buffer w)]> (windows st)) st) ->
  wp (set_kind n k) Q st.
Proof. intros Hw HQ. unfold wp, set_kind. by rewrite Hw. Qed.

Lemma wp_wins_new w (Q : Z -> State -> Prop) st :
  (let n := get_next_available_win_num (dom (windows st)) in
   Q n (set_windows (<[n := w]> (windows st)) st)) ->
  wp (wins_new w) Q st.
Proof. done. Qed.

Lemma wp_wins_set_current_by_num i w (Q : unit -> State -> Prop) st :
  windows st !! i = Some w ->
  Q tt (set_current i
          (set_windows (<[i := win_clear_unread w]> (windows st)) st)) ->
  wp (wins_set_current_by_num i) Q st.
Proof. intros Hw HQ. unfold wp, wins_set_current_by_num. by rewrite Hw. Qed.

(** Observations do not depend on the fields they do not read. *)
Ltac head_of f :=
  lazymatch f with
  | ?g _ => head_of g
  | _ => f
  end.

Ltac reads_windows h :=
  lazymatch h with
  | wins_get_chat => idtac | wins_get_muc => idtac
  | wins_get_private => idtac | wins_get_muc_conf => idtac
  | wins_is_current => idtac | wins_get_by_num => idtac
  | ui_win_unread => idtac | wins_get_current => idtac
  | wins_get_console => idtac | wins_get_current_num => idtac
  | wins_get_nums => idtac
  end.

Ltac reads_rooms h :=
  lazymatch h with
  | muc_room => idtac | muc_active => idtac | muc_nick => idtac
  | muc_role_str => idtac | muc_affiliation_str => idtac
  | muc_subject => idtac | muc_pending_broadcasts => idtac
  | muc_roster => idtac | muc_roster_complete => idtac
  | muc_nick_change_pending => idtac | muc_autojoin => idtac
  | muc_requires_config => idtac
  end.

Ltac reads_prefs h :=
  lazymatch h with
  | prefs_get_boolean => idtac | prefs_get_string => idtac
  end.

Ltac prof_obs :=
  repeat match goal with
  | |- context [?f (set_trace ?x ?s)] =>
      let h := head_of f in
      first [reads_windows h | reads_rooms h | reads_prefs h];
      change (f (set_trace x s)) with (f s)
  | |- context [?f (set_commands_ac ?x ?s)] =>
      let h := head_of f in
      first [reads_windows h | reads_rooms h | reads_prefs h];
      change (f (set_commands_ac x s)) with (f s)
  | |- context [?f (set_invites ?x ?s)] =>
      let h := head_of f in
      first [reads_windows h | reads_rooms h | reads_prefs h];
      change (f (set_invites x s)) with (f s)
  | |- context [?f (set_rooms ?x ?s)] =>
      let h := head_of f in
      first [reads_windows h | reads_prefs h];
      change (f (set_rooms x s)) with (f s)
  | |- context [?f (set_windows ?x ?s)] =>
      let h := head_of f in
      first [reads_rooms h | reads_prefs h];
      change (f (set_windows x s)) with (f s)
  | |- context [?f (set_current ?x ?s)] =>
      let h := head_of f in
      first [reads_rooms h | reads_prefs h];
      change (f (set_current x s)) with (f s)
  end.

Lemma wp_when_emit (b : bool) e (Q : unit -> State -> Prop) st :
  Q tt (set_trace (trace st ++ (if b then [e] else [])) st) ->
  wp (when b (emit e)) Q st.
Proof.
  destruct b; cbn [when]; [done|]. rewrite app_nil_r. by destruct st.
Qed.

(** Projections of the state and of its updates. *)
Ltac prof_cbn :=
  cbn [windows current prefs_bool prefs_string conn_status rooms invites
       commands_ac trace set_windows set_current set_rooms set_invites
       set_commands_ac set_trace fst snd kind buffer
       barejid chat_unread enc_mode chat_otr_is_trusted history_shown
       roomjid muc_unread conf_roomjid form fulljid priv_unread];
  unfold wins_get_num;
  prof_obs.

Ltac solve_lookup :=
  prof_cbn;
  first [ eassumption
        | apply lookup_insert_eq
        | rewrite lookup_insert_eq; reflexivity
        | rewrite lookup_insert_ne by done; eassumption ].

(** One step of symbolic execution. *)
Ltac wp_step :=
  prof_cbn;
  lazymatch goal with
  | |- wp (bind _ _) _ _ => apply wp_bind
  | |- wp (ret _) _ _ => apply wp_ret
  | |- wp (gets (wins_is_current _)) _ _ =>
      apply wp_gets;
      try (erewrite wins_is_current_open by
             first [ eassumption | apply lookup_insert_eq
                   | cbn [windows set_windows set_trace set_current set_rooms
                          set_invites set_commands_ac];
                     first [ eassumption | apply lookup_insert_eq ] ])
  | |- wp (gets _) _ _ => apply wp_gets
  | |- wp (strcmp_eq _ (Some _)) _ _ => unfold strcmp_eq at 1
  | |- wp get _ _ => apply wp_get
  | |- wp (modify _) _ _ => apply wp_modify
  | |- wp (emit _) _ _ => apply wp_emit
  | |- wp (cons_show _ _) _ _ => apply wp_emit
  | |- wp (cons_bad_cmd_usage _) _ _ => apply wp_emit
  | |- wp (occupantswin_occupants _) _ _ => apply wp_emit
  | |- wp (message_send_chat_otr _ _) _ _ => apply wp_emit
  | |- wp (deref (Some _)) _ _ => apply wp_deref
  | |- wp (when _ (emit _)) _ _ => apply wp_when_emit
  | |- wp (when true _) _ _ => unfold when at 1
  | |- wp (when false _) _ _ => unfold when at 1
  | |- wp (win_append _ _) _ _ => eapply wp_win_append; [solve_lookup|]
  | |- wp (win_print _ _ _ _ _ _ _) _ _ => unfold win_print at 1
  | |- wp (win_vprint _ _ _ _ _ _ _ _) _ _ => unfold win_vprint at 1
  | |- wp (win_println _ _) _ _ => unfold win_println at 1
  | |- wp (win_print_incoming_message _ _ _ _ _) _ _ =>
      unfold win_print_incoming_message at 1
  | |- wp (win_show_contact _ _) _ _ => unfold win_show_contact at 1
  | |- wp (win_show_status_string _ _ _ _ _ _) _ _ =>
      unfold win_show_status_string at 1
  | |- wp (kind_of _) _ _ => eapply wp_kind_of; [solve_lookup|]
  | |- wp (win_type_of _) _ _ => eapply wp_win_type_of; [solve_lookup|]
  | |- wp (chatwin_of _) _ _ => eapply wp_chatwin_of; [solve_lookup|]
  | |- wp (mucwin_of _) _ _ => eapply wp_mucwin_of; [solve_lookup|]
  | |- wp (confwin_of _) _ _ => eapply wp_confwin_of; [solve_lookup|]
  | |- wp (privatewin_of _) _ _ => eapply wp_privatewin_of; [solve_lookup|]
  | |- wp (set_kind _ _) _ _ => eapply wp_set_kind; [solve_lookup|]
  | |- wp (chatwin_unread_incr _) _ _ => unfold chatwin_unread_incr at 1
  | |- wp (privatewin_unread_incr _) _ _ => unfold privatewin_unread_incr at 1
  | |- wp (mucwin_unread_incr _) _ _ => unfold mucwin_unread_incr at 1
  | |- wp (chatwin_set_enc_mode _ _) _ _ => unfold chatwin_set_enc_mode at 1
  | |- wp (chatwin_set_otr_is_trusted _ _) _ _ =>
      unfold chatwin_set_otr_is_trusted at 1
  | |- wp (chatwin_set_history_shown _) _ _ =>
      unfold chatwin_set_history_shown at 1
  | |- wp (muc_update _ _) _ _ => apply wp_modify
  | |- wp (muc_invites_remove _) _ _ => apply wp_modify
  | |- wp (muc_leave _) _ _ => apply wp_modify
  | |- wp (wins_new _) _ _ => apply wp_wins_new; intros ?
  | |- wp (wins_set_current_by_num _) _ _ =>
      eapply wp_wins_set_current_by_num; [solve_lookup|]
  end.

Ltac wp_steps := repeat wp_step; prof_cbn.

(** ** Programs that only make calls *)

Lemma set_trace_id st : set_trace (trace st ++ []) st = st.
Proof. rewrite app_nil_r. by destruct st. Qed.

Lemma set_trace_set_trace t1 t2 st :
  set_trace (trace (set_trace (trace st ++ t1) st) ++ t2)
            (set_trace (trace st ++ t1) st)
  = set_trace (trace st ++ (t1 ++ t2)) st.
Proof. cbn. by rewrite app_assoc. Qed.

Lemma oe_ret {A} (a : A) : only_emits (ret a).
Proof. intros st. exists a, []. by rewrite set_trace_id. Qed.

Lemma oe_gets {A} (f : State -> A) : only_emits (gets f).
Proof. intros st. exists (f st), []. by rewrite set_trace_id. Qed.

Lemma oe_emit e : only_emits (emit e).
Proof. intros st. by exists tt, [e]. Qed.

Lemma oe_bind {A B} (m : prof A) (k : A -> prof B) :
  only_emits m -> (forall a, only_emits (k a)) -> only_emits (bind m k).
Proof.
  intros Hm Hk st. destruct (Hm st) as (a & t1 & Hr).
  destruct (Hk a (set_trace (trace st ++ t1) st)) as (b & t2 & Hr').
  exists b, (t1 ++ t2)%list. unfold bind. rewrite Hr, Hr'.
  by rewrite set_trace_set_trace.
Qed.

Lemma oe_if {A} (b : bool) (m1 m2 : prof A) :
  only_emits m1 -> only_emits m2 -> only_emits (if b then m1 else m2).
Proof. by destruct b. Qed.

Lemma oe_when (b : bool) (m : prof unit) :
  only_emits m -> only_emits (when b m).
Proof. destruct b; [done|]. intros _. apply oe_ret. Qed.

Lemma oe_strcmp_eq a b : only_emits (strcmp_eq a (Some b)).
Proof. apply oe_ret. Qed.

Lemma wp_only_emits {A} (m : prof A) (Q : A -> State -> Prop) st :
  only_emits m ->
  (forall a t, Q a (set_trace (trace st ++ t) st)) ->
  wp m Q st.
Proof.
  intros Hm HQ. destruct (Hm st) as (a & t & Hr). unfold wp. rewrite Hr.
  apply HQ.
Qed.

Ltac solve_only_emits :=
  repeat first
    [ apply oe_ret | apply oe_gets | apply oe_emit | apply oe_strcmp_eq
    | apply oe_when | apply oe_if
    | apply oe_bind; [|intros ?] ].

(** Case analysis on the condition at the head of the program. *)
Ltac wp_case :=
  prof_cbn;
  lazymatch goal with
  | |- wp (when ?b _) _ _ => destruct b eqn:?
  | |- wp (if ?b then _ else _) _ _ => destruct b eqn:?
  | |- wp (match ?o with Some _ => _ | None => _ end) _ _ => destruct o eqn:?
  end.

Ltac wp_auto := repeat (wp_step || wp_case); prof_cbn.

Lemma ui_win_unread_open n w st :
  windows st !! n = Some w -> ui_win_unread n st = win_unread w.
Proof.
  intros Hw. unfold ui_win_unread, wins_get_by_num.
  rewrite Hw. cbn. by rewrite Hw.
Qed.

Lemma ui_win_unread_closed n st :
  windows st !! n = None -> ui_win_unread n st = 0.
Proof. intros Hw. unfold ui_win_unread, wins_get_by_num. by rewrite Hw. Qed.

Lemma wins_find_insert_found P (ws : gmap Z ProfWin) n w' :
  wins_find P ws = Some n -> P w' = true ->
  wins_find P (<[n := w']> ws) = Some n.
Proof.
  intros Hf HP. destruct (wins_find_Some _ _ _ Hf) as (w & Hw & HPw).
  rewrite (wins_find_insert_same P ws n w w'); congruence.
Qed.

(** A loop of prints into one window appends its lines in order. *)
Lemma wp_for_each_append {A} n (f : A -> Line) (xs : list A) w
    (Q : unit -> State -> Prop) st :
  windows st !! n = Some w ->
  Q tt (set_windows
          (<[n := mkWin (kind w) (buffer w ++ (f <$> xs))]> (windows st)) st) ->
  wp (for_each xs (fun x => win_append n (f x))) Q st.
Proof.
  revert w st. induction xs as [|x xs IH]; intros w st Hw HQ; cbn [for_each].
  - apply wp_ret. cbn in HQ. rewrite app_nil_r in HQ. destruct w. cbn in HQ.
    rewrite insert_id in HQ; [|done]. by destruct st.
  - wp_steps. eapply IH; [solve_lookup|]. prof_cbn.
    rewrite insert_insert_eq, <- app_assoc. exact HQ.
Qed.

(** Two states with the same fields are equal. *)
Lemma state_eq (s1 s2 : State) :
  windows s1 = windows s2 -> current s1 = current s2 ->
  prefs_bool s1 = prefs_bool s2 -> prefs_string s1 = prefs_string s2 ->
  conn_status s1 = conn_status s2 -> rooms s1 = rooms s2 ->
  invites s1 = invites s2 -> commands_ac s1 = commands_ac s2 ->
  trace s1 = trace s2 -> s1 = s2.
Proof. destruct s1, s2. cbn. by intros -> -> -> -> -> -> -> -> ->. Qed.

Ltac state_eq :=
  apply state_eq; prof_cbn;
  rewrite ?insert_insert_eq; cbn [app]; rewrite <- ?app_assoc; cbn [app];
  rewrite ?app_nil_r; try reflexivity.

Section CoreFacts.

Context (E : Externals).

Lemma wp__win_show_history n c b contact (Q : unit -> State -> Prop) st :
  windows st !! n = Some (mkWin (KChat c) b) ->
  Q tt (set_windows
          (<[n := mkWin (KChat (mkChatWin (barejid c) (chat_unread c)
                                  (enc_mode c) (chat_otr_is_trusted c) true))
                        (b ++ if history_shown c then []
                              else history_lines E contact)]>
             (windows st)) st) ->
  wp (_win_show_history E n contact) Q st.
Proof.
  intros Hw HQ. unfold _win_show_history. wp_steps.
  destruct (history_shown c) eqn:Hs; cbn [negb].
  - wp_steps. rewrite app_nil_r in HQ. rewrite insert_id in HQ.
    + by destruct st.
    + rewrite Hw. destruct c; cbn in *. by subst.
  - wp_steps. eapply wp_for_each_append; [solve_lookup|]. wp_steps.
    rewrite insert_insert_eq. exact HQ.
Qed.

Lemma ui_incoming_msg_run st n c b resource message ts wc enc :
  windows st !! n = Some (mkWin (KChat c) b) ->
  ui_incoming_msg E n resource message ts wc enc st =
  Some (tt, incoming_msg_state E resource message ts wc enc st n c b).
Proof.
  intros Hw.
  assert (wp (ui_incoming_msg E n resource message ts wc enc)
            (fun _ st' =>
               st' = incoming_msg_state E resource message ts wc enc st n c b)
            st) as H.
  2:{ apply wp_run in H as ([] & st' & -> & ->). done. }
  unfold ui_incoming_msg, incoming_msg_state, incoming_msg_chatwin,
    incoming_msg_lines, incoming_msg_calls, incoming_display_name.
  rewrite (wins_is_current_open _ _ _ Hw). wp_steps.
  destruct (bool_decide (current st = n)) eqn:Hcur.
  - wp_auto; state_eq.
  - wp_steps.
    destruct (prefs_get_boolean PREF_CHLOG st) eqn:Hchlog;
      destruct (prefs_get_boolean PREF_HISTORY st) eqn:Hhist;
      cbn [andb]; wp_steps.
    all: try (eapply wp__win_show_history; [solve_lookup|]).
    all: wp_auto; state_eq.
    all: destruct (history_shown c); reflexivity.
Qed.

End CoreFacts.


(** Run the first command of the program up to the assertion [R]. *)
Ltac wp_cut R :=
  lazymatch goal with
  | |- wp (bind _ _) _ _ => apply wp_bind
  | _ => idtac
  end;
  eapply (wp_mono _ R).

(** ** Switching the current window *)

Lemma ui_switch_win_run st n old new :
  windows st !! current st = Some old ->
  windows st !! n = Some new ->
  ui_switch_win (Some n) st = Some (tt, switch_state st n old new).
Proof.
  intros Hold Hnew.
  assert (wp (ui_switch_win (Some n))
            (fun _ st' => st' = switch_state st n old new) st) as H.
  2:{ apply wp_run in H as ([] & st' & -> & ->). done. }
  unfold ui_switch_win, switch_state, conf_form, wins_get_current,
    wins_get_by_num, cmd_autocomplete_remove_form_fields,
    cmd_autocomplete_add_form_fields.
  wp_steps. rewrite Hold. wp_steps.
  destruct old as [[| | |[rjo [fo|]]| |] bo], new as [[| | |[rjn [fn|]]| |] bn];
    cbn [kind form].
  all: wp_auto.
  all: state_eq.
Qed.

Lemma wp_ui_switch_win n old new (Q : unit -> State -> Prop) st :
  windows st !! current st = Some old ->
  windows st !! n = Some new ->
  Q tt (switch_state st n old new) ->
  wp (ui_switch_win (Some n)) Q st.
Proof.
  intros Hold Hnew HQ. unfold wp. by rewrite (ui_switch_win_run st n old new).
Qed.

(** * Entries of the chat log *)

Lemma digit_char_spec n :
  0 <= n <= 9 ->
  is_space (digit_char n) = false
  /\ digit_of (digit_char n) = Some n
  /\ digit_char n <> "-"%char /\ digit_char n <> "+"%char
  /\ digit_char n <> NUL.
Proof.
  intros Hn. unfold digit_char.
  assert (Hk : (Z.to_nat n < 10)%nat) by lia.
  rewrite <- (Z2Nat.id n) at 3 by lia.
  revert Hk. generalize (Z.to_nat n). clear n Hn. intros k Hk.
  do 10 (destruct k as [|k]; [by vm_compute|]). lia.
Qed.

Lemma int_wrap_small z : - 2 ^ 31 <= z < 2 ^ 31 -> int_wrap z = z.
Proof. intros Hz. unfold int_wrap. rewrite Z.mod_small; lia. Qed.

Lemma atoi_range s : - 2 ^ 31 <= atoi s < 2 ^ 31.
Proof.
  unfold atoi, int_wrap.
  pose proof (Z.mod_pos_bound (strtol s + 2 ^ 31) (2 ^ 32)). lia.
Qed.

Example atoi_truncates :
  atoi "7" = 7 /\ atoi " -17x" = -17 /\ atoi "4294967298" = 2
  /\ atoi "99999999999999999999" = -1.
Proof. by vm_compute. Qed.

Lemma two_digits_c_str n : 0 <= n < 100 -> c_str (two_digits n) = two_digits n.
Proof.
  intros Hn.
  assert (H1 : 0 <= n / 10 <= 9).
  { split; [apply Z.div_pos; lia|]. apply Z.lt_succ_r, Z.div_lt_upper_bound; lia. }
  assert (H2 : 0 <= n mod 10 <= 9) by (pose proof (Z.mod_pos_bound n 10); lia).
  destruct (digit_char_spec _ H1) as (_ & _ & _ & _ & Hz1).
  destruct (digit_char_spec _ H2) as (_ & _ & _ & _ & Hz2).
  unfold two_digits. cbn [c_str]. by rewrite !bool_decide_eq_false_2.
Qed.

Lemma atoi_two_digits n : 0 <= n < 100 -> atoi (two_digits n) = n.
Proof.
  intros Hn.
  assert (H1 : 0 <= n / 10 <= 9).
  { split; [apply Z.div_pos; lia|]. apply Z.lt_succ_r, Z.div_lt_upper_bound; lia. }
  assert (H2 : 0 <= n mod 10 <= 9) by (pose proof (Z.mod_pos_bound n 10); lia).
  destruct (digit_char_spec _ H1) as (Hs1 & Hd1 & Hm1 & Hp1 & _).
  destruct (digit_char_spec _ H2) as (Hs2 & Hd2 & Hm2 & Hp2 & _).
  assert (Hat : atoi_digits
                  (String (digit_char (n / 10))
                     (String (digit_char (n mod 10)) "")) 0 = n).
  { cbn [atoi_digits]. rewrite Hd1, Hd2.
    pose proof (Z.div_mod n 10). lia. }
  assert (Hv : strtol_value (two_digits n) = n).
  { unfold strtol_value, two_digits. cbn [skip_spaces]. rewrite Hs1.
    destruct (digit_char (n / 10)) as [[] [] [] [] [] [] [] []] eqn:Hc;
      try exact Hat; exfalso; by (apply Hm1 || apply Hp1). }
  unfold atoi, strtol. rewrite Hv. unfold LONG_MIN, LONG_MAX.
  rewrite Z.min_r, Z.max_r by lia. apply int_wrap_small. lia.
Qed.

Lemma c_bytes_cons c s after :
  c_bytes (String c s) after = String c (c_bytes s after).
Proof. reflexivity. Qed.

Lemma c_bytes_nil after : c_bytes "" after = String NUL after.
Proof. reflexivity. Qed.

Lemma c_str_terminated text after :
  is_c_string text = true -> c_str (c_bytes text after) = text.
Proof.
  unfold c_bytes. induction text as [|c text IH]; intros Hc.
  - done.
  - cbn [is_c_string] in Hc. apply andb_true_iff in Hc as [Hc Ht].
    change (String c text +:+ String NUL after)
      with (String c (text +:+ String NUL after)).
    cbn [c_str]. apply negb_true_iff in Hc. rewrite Hc.
    by rewrite IH.
Qed.

Lemma history_line_entry (E : Externals) hh mm ss text :
  0 <= hh < 100 -> 0 <= mm < 100 -> 0 <= ss < 100 ->
  is_c_string text = true ->
  history_line E (log_text (LogEntry hh mm ss text))
  = LPrint "-" (g_date_time_new_local 2000 1 1 hh mm ss) [NO_COLOUR_DATE]
           THEME_DEFAULT "" text [].
Proof.
  intros Hh Hm Hs Ht. unfold history_line, log_text.
  set (after := memory_after E _). clearbody after.
  change (c_bytes (two_digits hh +:+ ":" +:+ two_digits mm +:+ ":"
                   +:+ two_digits ss +:+ " - " +:+ text) after)
    with (String (digit_char (hh / 10)) (String (digit_char (hh mod 10))
           (String ":" (String (digit_char (mm / 10))
             (String (digit_char (mm mod 10))
               (String ":" (String (digit_char (ss / 10))
                 (String (digit_char (ss mod 10))
                   (String " " (String "-" (String " "
                      (c_bytes text after)))))))))))).
  cbv zeta. unfold c_index, c_copy2. cbn [String.get default c_offset].
  rewrite bool_decide_eq_true_2 by done.
  unfold c_index. cbn [String.get default]. unfold id.
  change (String (digit_char (hh / 10)) (String (digit_char (hh mod 10)) ""))
    with (two_digits hh).
  change (String (digit_char (mm / 10)) (String (digit_char (mm mod 10)) ""))
    with (two_digits mm).
  change (String (digit_char (ss / 10)) (String (digit_char (ss mod 10)) ""))
    with (two_digits ss).
  rewrite !two_digits_c_str, !atoi_two_digits by done.
  by rewrite c_str_terminated.
Qed.

Lemma history_line_header (E : Externals) header :
  (2 <= String.length header)%nat -> String.get 2 header <> Some ":"%char ->
  history_line E header = LPrint "-" None [] THEME_DEFAULT "" header [].
Proof.
  intros Hlen Hget. unfold history_line. cbv zeta.
  rewrite bool_decide_eq_false_2; [done|].
  unfold c_index.
  destruct header as [|c1 [|c2 [|c3 rest]]]; cbn in Hlen; try lia.
  - by rewrite !c_bytes_cons, c_bytes_nil.
  - rewrite !c_bytes_cons. cbn in *. intros ->. done.
Qed.


(** * Inbound messages and the unread counter *)

Lemma is_private_for_inv jid w :
  is_private_for jid w = true ->
  exists pw b, w = mkWin (KPrivate pw) b /\ fulljid pw = jid.
Proof.
  destruct w as [[| | | |pw|] b]; cbn; try done.
  intros H%bool_decide_eq_true. eauto.
Qed.

Lemma is_muc_for_inv jid w :
  is_muc_for jid w = true ->
  exists mw b, w = mkWin (KMuc mw) b /\ roomjid mw = jid.
Proof.
  destruct w as [[| |mw| | |] b]; cbn; try done.
  intros H%bool_decide_eq_true. eauto.
Qed.

Lemma is_chat_for_inv jid w :
  is_chat_for jid w = true ->
  exists c b, w = mkWin (KChat c) b /\ barejid c = jid.
Proof.
  destruct w as [[|c| | | |] b]; cbn; try done.
  intros H%bool_decide_eq_true. eauto.
Qed.

Section Unread.

Context (E : Externals).

Lemma unread_chat st n c b resource message ts wc enc :
  windows st !! n = Some (mkWin (KChat c) b) ->
  - 2 ^ 31 <= chat_unread c < INT_MAX ->
  exists st',
    exec (ui_incoming_msg E n resource message ts wc enc) st = Some st' /\
    (exists c' b', windows st' !! n = Some (mkWin (KChat c') b')) /\
    ui_win_unread n st' =
      if wins_is_current n st then ui_win_unread n st
      else ui_win_unread n st + 1.
Proof.
  intros Hw Hr. eexists. unfold exec.
  rewrite (ui_incoming_msg_run E st n c b) by done.
  split; [reflexivity|]. cbn [snd]. unfold incoming_msg_state. split.
  - do 2 eexists. solve_lookup.
  - erewrite ui_win_unread_open by solve_lookup.
    rewrite (ui_win_unread_open _ _ _ Hw). cbn [win_unread kind].
    unfold incoming_msg_chatwin.
    destruct (wins_is_current n st); [done|].
    cbn [chat_unread]. by rewrite int_incr_small.
Qed.

Lemma unread_private st fulljid message ts :
  current_open st -> unread_in_range st ->
  wp (ui_incoming_private_msg E fulljid message ts)
     (fun _ st' => exists n,
        wins_get_private fulljid st' = Some n /\
        (forall m, wins_get_private fulljid st = Some m -> m = n) /\
        ui_win_unread n st' =
          if wins_is_current n st then ui_win_unread n st
          else ui_win_unread n st + 1) st.
Proof.
  intros Hcur Hrange. unfold ui_incoming_private_msg. wp_steps.
  destruct (wins_get_private fulljid st) as [p|] eqn:Hfind.
  - destruct (wins_find_Some _ _ _ Hfind) as (w & Hw & HP).
    destruct (is_private_for_inv _ _ HP) as (pw & b & -> & Hjid).
    apply (map_Forall_lookup_1 _ _ _ _ Hrange) in Hw as Hr.
    cbn [win_unread kind] in Hr.
    wp_steps.
    destruct (bool_decide (current st = p)) eqn:Hc.
    all: wp_auto; exists p.
    all: (split; [|split; [intros k Hk; congruence|]]).
    all: try (rewrite (ui_win_unread_open _ _ _ Hw),
                (wins_is_current_open _ _ _ Hw);
              erewrite ui_win_unread_open by solve_lookup;
              cbn [win_unread kind priv_unread]; rewrite ?Hc;
              by rewrite ?int_incr_small).
    all: unfold wins_get_private in *; prof_cbn.
    all: rewrite ?insert_insert_eq; apply wins_find_insert_found; [done|].
    all: cbn; by apply bool_decide_eq_true.
  - unfold wins_new_private. wp_steps.
    destruct (get_next_available_win_num_spec (dom (windows st)))
      as [Hfresh Hn1].
    rewrite not_elem_of_dom in Hfresh.
    assert (Hne : current st <> n).
    { intros Heq. destruct Hcur as [w Hw]. rewrite Heq in Hw. subst n.
      congruence. }
    wp_steps.
    rewrite bool_decide_eq_false_2 by done.
    wp_auto; exists n; subst n.
    all: (split; [|split; [intros k Hk; congruence|]]).
    all: try (rewrite (ui_win_unread_closed _ _ Hfresh),
                (wins_is_current_closed _ _ Hfresh);
              erewrite ui_win_unread_open by solve_lookup; reflexivity).
    all: unfold wins_get_private in *; prof_cbn.
    all: rewrite ?insert_insert_eq; apply wins_find_insert_fresh; [done|].
    all: cbn; by apply bool_decide_eq_true.
Qed.

Lemma unread_room st room nick message n :
  unread_in_range st ->
  wins_get_muc room st = Some n -> is_Some (muc_nick room st) ->
  wp (ui_room_message E room nick message)
     (fun _ st' =>
        wins_get_muc room st' = Some n /\
        ui_win_unread n st' =
          if wins_is_current n st then ui_win_unread n st
          else ui_win_unread n st + 1) st.
Proof.
  intros Hrange Hfind [my_nick Hnick]. unfold ui_room_message. wp_steps.
  rewrite Hfind.
  destruct (wins_find_Some _ _ _ Hfind) as (w & Hw & HP).
  destruct (is_muc_for_inv _ _ HP) as ([rj u] & b & -> & Hjid).
  apply (map_Forall_lookup_1 _ _ _ _ Hrange) in Hw as Hr.
  rewrite (ui_win_unread_open _ _ _ Hw).
  cbn [win_unread kind muc_unread roomjid] in *.
  wp_steps. rewrite Hnick. rewrite (wins_is_current_open _ _ _ Hw).
  assert (Hdone : forall (b' : list Line) (st' : State) u',
            windows st'
            = <[n := mkWin (KMuc (mkMucWin rj u')) b']> (windows st) ->
            u' = (if bool_decide (current st = n) then u else u + 1) ->
            wins_get_muc room st' = Some n /\
              ui_win_unread n st' =
                if bool_decide (current st = n) then u else u + 1).
  { intros b' st' u' Hws Hu. split.
    - unfold wins_get_muc in *. rewrite Hws.
      apply wins_find_insert_found; [done|].
      cbn. by apply bool_decide_eq_true.
    - by erewrite ui_win_unread_open by (rewrite Hws; apply lookup_insert_eq). }
  destruct (negb (g_strcmp0_eq (Some nick) (Some my_nick)));
    [destruct (g_strrstr message my_nick)|].
  all: wp_steps.
  all: destruct (bool_decide (current st = n)) eqn:Hc.
  all: wp_steps.
  all: try (destruct (prefs_get_boolean PREF_FLASH st); wp_steps).
  all: apply wp_only_emits; [solve_only_emits|].
  all: intros _ t; prof_cbn.
  all: rewrite ?insert_insert_eq.
  all: eapply Hdone; [reflexivity|].
  all: first [reflexivity | by rewrite int_incr_small].
Qed.

End Unread.

(** C1.  For every inbound one-to-one chat, private or room message
    ([ui_incoming_msg], [ui_incoming_private_msg], [ui_room_message]):
    the run ends, the message has a target window [n] afterwards (the
    one it had before, if it had one), and the unread counter of [n] is
    unchanged when [n] was the current window (so a counter at zero
    stays at zero) and larger by exactly one when it was not. *)
Theorem C1_unread_counter (E : Externals) (ev : inbound) (st : State) :
  current_open st -> unread_in_range st -> deliverable ev st ->
  exists st' n,
    exec (deliver E ev) st = Some st' /\
    target ev st' = Some n /\
    (forall m, target ev st = Some m -> m = n) /\
    ui_win_unread n st' =
      if wins_is_current n st then ui_win_unread n st
      else ui_win_unread n st + 1.
Proof.
  intros Hcur Hrange Hdel.
  destruct ev as [n resource message ts wc enc|fulljid message ts
                 |roomjid nick message];
    cbn [deliver target deliverable] in *.
  - destruct Hdel as [m Hm]. cbn [target] in Hm.
    destruct (windows st !! n) as [[[|c| | | |] b]|] eqn:Hw; try done.
    apply (map_Forall_lookup_1 _ _ _ _ Hrange) in Hw as Hr.
    destruct (unread_chat E st n c b resource message ts wc enc Hw Hr)
      as (st' & Hrun & (c' & b' & Hw') & Hu).
    exists st', n. rewrite Hw'. split; [done|]. split; [done|].
    split; [intros k Hk; congruence|done].
  - destruct (wp_exec _ _ _ (unread_private E st fulljid message ts Hcur Hrange))
      as (st' & Hrun & n & Hn & Hsame & Hu).
    exists st', n. eauto.
  - destruct Hdel as [[n Hn] Hnick].
    destruct (wp_exec _ _ _
                (unread_room E st roomjid nick message n Hrange Hn Hnick))
      as (st' & Hrun & Hn' & Hu).
    exists st', n. split; [done|]. split; [done|].
    split; [intros m Hm; congruence|done].
Qed.

Lemma C1_unread_counter_witness :
  exists st' n,
    exec (deliver E0 (InChat 2 None "hi" None false PROF_ENC_NONE)) st0
    = Some st' /\
    target (InChat 2 None "hi" None false PROF_ENC_NONE) st' = Some n /\
    (forall m,
       target (InChat 2 None "hi" None false PROF_ENC_NONE) st0 = Some m ->
       m = n) /\
    ui_win_unread n st' =
      if wins_is_current n st0 then ui_win_unread n st0
      else ui_win_unread n st0 + 1.
Proof.
  apply (C1_unread_counter E0 (InChat 2 None "hi" None false PROF_ENC_NONE)
           st0).
  - vm_compute. eauto.
  - apply (bool_decide_unpack _). vm_compute. exact I.
  - vm_compute. eauto.
Defined.

(** * The inbound-message handler *)

Lemma wins_find_unique P (ws : gmap Z ProfWin) n w :
  ws !! n = Some w -> P w = true ->
  (forall m w', ws !! m = Some w' -> P w' = true -> m = n) ->
  wins_find P ws = Some n.
Proof.
  intros Hw HP Huniq.
  destruct (wins_find P ws) as [k|] eqn:Hk.
  - apply wins_find_Some in Hk as (w' & Hw' & HP'). f_equal. eauto.
  - rewrite wins_find_None in Hk. rewrite (Hk _ _ Hw) in HP. done.
Qed.

Section IncomingMessage.

Context (E : Externals) (enc_arg : prof_enc_t).





End IncomingMessage.



(** * Encryption mode and inbound messages *)

Lemma same_enc_modes_insert st st' n w' :
  windows st' = <[n := w']> (windows st) ->
  win_enc_mode w' = windows st !! n ≫= win_enc_mode ->
  same_enc_modes st st'.
Proof.
  intros Hws Hm m. unfold chat_enc_mode. rewrite Hws.
  destruct (decide (m = n)) as [->|Hne].
  - by rewrite lookup_insert_eq.
  - by rewrite lookup_insert_ne.
Qed.

Lemma same_enc_modes_windows st st' :
  windows st' = windows st -> same_enc_modes st st'.
Proof. intros Hws m. unfold chat_enc_mode. by rewrite Hws. Qed.

Section Modes.
Context (E : Externals).




End Modes.




(** * Switching the current window twice *)

Lemma win_clear_unread_idemp w :
  win_clear_unread (win_clear_unread w) = win_clear_unread w.
Proof. by destruct w as [[| | | | |] b]. Qed.

Lemma conf_form_clear_unread w :
  conf_form (win_clear_unread w) = conf_form w.
Proof. by destruct w as [[| | | | |] b]. Qed.

Lemma ac_add_remove_add f g (ac : gset string) :
  ac_add f (ac_remove f (ac_add f (ac_remove g ac)))
  = ac_add f (ac_remove g ac).
Proof.
  destruct f as [[f|]|]; cbn; [|done..].
  apply set_eq. intros x.
  rewrite !elem_of_union, elem_of_difference, elem_of_union.
  destruct (decide (x ∈ form_field_commands f)); tauto.
Qed.

(** C9.  Switching to the open window [n] twice in a row: both runs
    end, and the second leaves the registry (the windows and the current
    slot) and the registered autocomplete fields exactly as the first
    left them; in the calls made by the two runs together no form's
    fields are deregistered twice without a registration of them in
    between. *)
Theorem C9_switch_idempotent (st : State) (n : Z) :
  current_open st -> is_Some (windows st !! n) ->
  exists st1 st2 t,
    exec (ui_switch_win (Some n)) st = Some st1 /\
    exec (ui_switch_win (Some n)) st1 = Some st2 /\
    windows st2 = windows st1 /\
    current st2 = current st1 /\
    commands_ac st2 = commands_ac st1 /\
    trace st2 = (trace st ++ t)%list /\
    forall f, double_deregistration f false t = false.
Proof.
  intros [old Hold] [new Hnew].
  pose proof (ui_switch_win_run st n old new Hold Hnew) as Hrun1.
  set (st1 := switch_state st n old new) in *.
  assert (Hw1 : windows st1 !! n = Some (win_clear_unread new))
    by apply lookup_insert_eq.
  pose proof (ui_switch_win_run st1 n _ _ Hw1 Hw1) as Hrun2.
  set (st2 := switch_state st1 n (win_clear_unread new)
                (win_clear_unread new)) in *.
  exists st1, st2. eexists.
  unfold exec. rewrite Hrun1, Hrun2. split; [done|]. split; [done|].
  subst st1 st2. unfold switch_state. prof_cbn.
  rewrite !conf_form_clear_unread, win_clear_unread_idemp, insert_insert_eq.
  split; [done|]. split; [done|]. split; [apply ac_add_remove_add|].
  rewrite <- !app_assoc. split; [reflexivity|].
  intros f.
  destruct (conf_form old) as [fo|], (conf_form new) as [fn|]; cbn.
  all: repeat case_bool_decide; cbn; try done.
Qed.

Lemma C9_switch_idempotent_witness :
  exists st1 st2 t,
    exec (ui_switch_win (Some 5)) st0 = Some st1 /\
    exec (ui_switch_win (Some 5)) st1 = Some st2 /\
    windows st2 = windows st1 /\
    current st2 = current st1 /\
    commands_ac st2 = commands_ac st1 /\
    trace st2 = (trace st0 ++ t)%list /\
    forall f, double_deregistration f false t = false.
Proof.
  apply (C9_switch_idempotent st0 5).
  - vm_compute. eauto.
  - vm_compute. eauto.
Defined.

(** * Closing a room-configuration window with unsaved changes *)

Section UnsavedForm.
Context (E : Externals).

Lemma close_unsaved_form st window command arg rj f b cur :
  arg <> "all" -> arg <> "read" ->
  0 <= atoi arg -> atoi arg <> 1 -> atoi arg <> 10 ->
  windows st !! atoi arg
    = Some (mkWin (KMucConf (mkMucConfWin rj (Some f))) b) ->
  modified f = true ->
  windows st !! current st = Some cur ->
  cmd_close E window command [arg] st =
  Some (true,
        set_windows
          (<[current st :=
               mkWin (kind cur) (buffer cur ++ [unsaved_changes_line])]>
             (windows st)) st).
Proof.
  intros Hall Hread H0 H1 H10 Hw Hmod Hcur.
  assert (wp (cmd_close E window command [arg])
            (fun r st' => r = true /\ st' = set_windows
          (<[current st := mkWin (kind cur) (buffer cur ++ [unsaved_changes_line])]>
             (windows st)) st) st) as H.
  2:{ apply wp_run in H as (r & st' & -> & -> & ->). done. }
  unfold cmd_close. wp_steps. cbn [lookup list_lookup].
  rewrite !bool_decide_eq_false_2 by done.
  unfold cmd_close_index.
  rewrite (bool_decide_eq_false_2 (atoi arg < 0)) by lia.
  rewrite !bool_decide_eq_false_2 by done. cbn [orb].
  wp_steps. unfold wins_get_by_num. rewrite Hw.
  unfold ui_win_has_unsaved_form. wp_steps. unfold wins_get_by_num. rewrite Hw.
  wp_steps. rewrite Hmod. unfold ui_current_print_line. wp_steps.
  unfold wins_get_current, wins_get_by_num. rewrite Hcur. wp_steps.
  split; [done|]. state_eq.
Qed.

Lemma wp_wins_close_current (Q : unit -> State -> Prop) st :
  current st <> 1 ->
  Q tt (set_windows (delete (current st) (windows st)) (set_current 1 st)) ->
  wp wins_close_current Q st.
Proof.
  intros Hne HQ. unfold wp, wins_close_current, wins_close_by_num.
  rewrite bool_decide_eq_false_2 by done.
  by rewrite bool_decide_eq_true_2 by done.
Qed.

Lemma form_cancel_run st command n rj f b console :
  conn_status st = JABBER_CONNECTED ->
  current st = n -> n <> 1 ->
  windows st !! n = Some (mkWin (KMucConf (mkMucConfWin rj f)) b) ->
  windows st !! 1 = Some console ->
  exists st',
    exec (cmd_form n command ["cancel"]) st = Some st' /\
    windows st' !! n = None /\
    ((exists w, windows st !! current st' = Some w /\ is_muc_for rj w = true)
     \/ (~ room_window_open rj st /\ current st' = 1)).
Proof.
  intros Hconn Hcur Hn1 Hw Hcons.
  apply wp_exec. unfold cmd_form. wp_steps. rewrite Hconn.
  rewrite bool_decide_eq_false_2 by (intros H; by apply H).
  wp_steps. cbn [win_type kind].
  rewrite bool_decide_eq_false_2 by (intros H; by apply H).
  cbn [lookup list_lookup].
  unfold g_strcmp0_eq.
  rewrite (bool_decide_eq_true_2 (Some "cancel" = Some "cancel")) by done.
  rewrite !bool_decide_eq_false_2 by done. cbn [negb andb orb].
  wp_steps.
  unfold cmd_autocomplete_remove_form_fields.
  wp_cut (fun (_ : unit) st' =>
            windows st' = windows st /\ current st' = current st).
  { destruct f; wp_steps; done. }
  intros _ st1 [Hws1 Hcur1]. 
  wp_step. apply wp_wins_close_current; [congruence|].
  rewrite Hws1, Hcur1, Hcur.
  wp_steps. unfold ui_ev_focus_win.
  destruct (wins_get_muc rj _) as [m|] eqn:Hfind.
  - apply wins_find_Some in Hfind as (w & Hm & HP).
    cbn [windows set_windows set_current] in Hm.
    assert (Hmn : m <> n) by (intros ->; by rewrite lookup_delete_eq in Hm).
    rewrite lookup_delete_ne in Hm by done.
    wp_steps.
    eapply (wp_ui_switch_win m console w).
    { prof_cbn. by rewrite lookup_delete_ne. }
    { prof_cbn. by rewrite lookup_delete_ne. }
    wp_steps. unfold switch_state. prof_cbn. split.
    + rewrite lookup_insert_ne by done. apply lookup_delete_eq.
    + left. eauto.
  - unfold wins_get_muc in Hfind. rewrite wins_find_None in Hfind.
    cbn [windows set_windows set_current] in Hfind.
    wp_steps. unfold wins_get_console, wins_get_by_num. prof_cbn.
    rewrite lookup_delete_ne by done. rewrite Hcons.
    eapply (wp_ui_switch_win 1 console console).
    { prof_cbn. by rewrite lookup_delete_ne. }
    { prof_cbn. by rewrite lookup_delete_ne. }
    wp_steps. unfold switch_state. prof_cbn. split.
    + rewrite lookup_insert_ne by done. apply lookup_delete_eq.
    + right. split; [|done]. intros (m & w & Hm & HP).
      destruct (decide (m = n)) as [->|Hmn].
      * rewrite Hw in Hm. injection Hm as <-. done.
      * rewrite (Hfind m w) in HP; [done|]. by rewrite lookup_delete_ne.
Qed.

End UnsavedForm.

(** C6 as stated does not hold.  [/form cancel] does not always
    succeed: without a connection it only reports "You are not
    currently connected." and the window with its unsaved form stays
    open. *)
Lemma C6_counterexample :
  ~ (forall (st : State) (n : Z) (room : string) (f : DataForm)
            (command : string),
       is_conf_window n room (Some f) st -> modified f = true ->
       current st = n ->
       exists st',
         exec (cmd_form n command ["cancel"]) st = Some st' /\
         windows st' !! n = None).
Proof.
  intros H.
  destruct (H st0_form_offline 5 "r@conf" form0 "/form") as (st' & Hrun & Hn).
  - eexists. vm_compute. reflexivity.
  - reflexivity.
  - reflexivity.
  - vm_compute in Hrun. injection Hrun as <-. vm_compute in Hn. discriminate.
Qed.

(** C6, amended.  For every open room-configuration window [n] whose
    form has unsaved changes: [/close] with the slot of that window is
    rejected, that is, the line "You have unsaved changes, ..." is
    printed in the current window, no call is made, and the window stays
    open with its form; and [/form cancel] in that window, while the
    connection is established, closes it and moves the focus to a
    window of the room when one is open and to the console (slot 1)
    when none is; without an established connection [/form cancel]
    only shows "You are not currently connected.": the window stays
    open with its form, and the registry and the focus are as they
    were. *)
Theorem C6_unsaved_form (E : Externals) (st : State) (window : Z)
    (command arg : string) (n : Z) (room : string) (f : DataForm) :
  registry_ok st ->
  is_conf_window n room (Some f) st -> modified f = true ->
  atoi arg = n -> arg <> "all" -> arg <> "read" ->
  (exists st',
     exec (cmd_close E window command [arg]) st = Some st' /\
     is_conf_window n room (Some f) st' /\
     win_buffer (current st) st'
       = (win_buffer (current st) st ++ [unsaved_changes_line])%list /\
     current st' = current st /\
     trace st' = trace st) /\
  (conn_status st = JABBER_CONNECTED -> current st = n ->
   exists st',
     exec (cmd_form n command ["cancel"]) st = Some st' /\
     windows st' !! n = None /\
     ((exists w, windows st !! current st' = Some w
                 /\ is_muc_for room w = true)
      \/ (~ room_window_open room st /\ current st' = 1))) /\
  (conn_status st <> JABBER_CONNECTED ->
   exists st',
     exec (cmd_form n command ["cancel"]) st = Some st' /\
     is_conf_window n room (Some f) st' /\
     windows st' = windows st /\
     current st' = current st /\
     trace st'
       = (trace st ++ [ConsShow "You are not currently connected." []])%list).
Proof.
  intros ([bc Hcons] & [cur Hcur] & Hslots) [b Hw] Hmod Hatoi Hall Hread.
  assert (Hn1 : n <> 1) by (intros ->; congruence).
  destruct (map_Forall_lookup_1 _ _ _ _ Hslots Hw) as [H0 H10].
  split.
  - subst n. eexists. unfold exec.
    rewrite (close_unsaved_form E st window command arg room f b cur)
      by done.
    split; [reflexivity|]. cbn [snd fmap option_fmap option_map].
    unfold is_conf_window, win_buffer. prof_cbn.
    rewrite lookup_insert_eq, Hcur. split; [|done].
    destruct (decide (current st = atoi arg)) as [Heq|Hne].
    + rewrite Heq, lookup_insert_eq. rewrite Heq, Hw in Hcur.
      injection Hcur as <-. eauto.
    + rewrite lookup_insert_ne by done. eauto.
  - split.
    + intros Hconn Hc.
      by apply (form_cancel_run st command n room (Some f) b
                  (mkWin KConsole bc)).
    + intros Hconn. apply wp_exec. unfold cmd_form. wp_steps.
      rewrite bool_decide_eq_true_2 by done. wp_steps.
      split; [|done]. unfold is_conf_window. prof_cbn. eauto.
Qed.

Lemma C6_unsaved_form_witness :
  (exists st',
     exec (cmd_close E0 5 "/close" ["5"]) st0_form = Some st' /\
     is_conf_window 5 "r@conf" (Some form0) st' /\
     win_buffer (current st0_form) st'
       = (win_buffer (current st0_form) st0_form
          ++ [unsaved_changes_line])%list /\
     current st' = current st0_form /\
     trace st' = trace st0_form) /\
  (exists st',
     exec (cmd_form 5 "/form" ["cancel"]) st0_form = Some st' /\
     windows st' !! 5 = None /\
     ((exists w, windows st0_form !! current st' = Some w
                 /\ is_muc_for "r@conf" w = true)
      \/ (~ room_window_open "r@conf" st0_form /\ current st' = 1))) /\
  (exists st',
     exec (cmd_form 5 "/form" ["cancel"]) st0_form_offline = Some st' /\
     is_conf_window 5 "r@conf" (Some form0) st' /\
     windows st' = windows st0_form_offline /\
     current st' = current st0_form_offline /\
     trace st'
       = (trace st0_form_offline
          ++ [ConsShow "You are not currently connected." []])%list).
Proof.
  destruct (C6_unsaved_form E0 st0_form 5 "/close" "5" 5 "r@conf" form0)
    as (Hclose & Hcancel & _).
  - split; [eexists; vm_compute; reflexivity|].
    split; [eexists; vm_compute; reflexivity|].
    apply (bool_decide_unpack _). vm_compute. exact I.
  - eexists. vm_compute. reflexivity.
  - reflexivity.
  - vm_compute. reflexivity.
  - discriminate.
  - discriminate.
  - split; [exact Hclose|]. split; [apply Hcancel; reflexivity|].
    destruct (C6_unsaved_form E0 st0_form_offline 5 "/close" "5" 5 "r@conf"
                form0) as (_ & _ & Hoffline).
    + split; [eexists; vm_compute; reflexivity|].
      split; [eexists; vm_compute; reflexivity|].
      apply (bool_decide_unpack _). vm_compute. exact I.
    + eexists. vm_compute. reflexivity.
    + reflexivity.
    + vm_compute. reflexivity.
    + discriminate.
    + discriminate.
    + apply Hoffline. discriminate.
Defined.

Lemma net_actions_app t1 t2 :
  net_actions (t1 ++ t2) = (net_actions t1 ++ net_actions t2)%list.
Proof. apply List.filter_app. Qed.

Lemma win_enc_mode_clear_unread w :
  win_enc_mode (win_clear_unread w) = win_enc_mode w.
Proof. by destruct w as [[| | | | |] b]. Qed.


Lemma net_actions_switch cur new n (t : list Effect) :
  net_actions
    (t ++ match conf_form cur with
          | Some f => [AcRemoveFormFields f]
          | None => []
          end ++
          match conf_form new with
          | Some f => [AcAddFormFields f]
          | None => []
          end ++
          [if bool_decide (n = 1) then TitleBarConsole else TitleBarSwitch;
           StatusBarCurrent n; StatusBarActive n])%list
  = net_actions t.
Proof.
  rewrite !net_actions_app.
  destruct (conf_form cur), (conf_form new), (bool_decide (n = 1)); cbn;
    by rewrite app_nil_r.
Qed.

(** * Starting one encryption mode while the other is active *)

Section CrossMode.
Context (E : Externals).

Local Ltac refused_on_console :=
  wp_steps; split; [by apply same_enc_modes_windows|];
  split; [by rewrite net_actions_app, app_nil_r|]; left; by exists [].

Local Ltac refused_in_window Hw :=
  split;
  [eapply same_enc_modes_insert;
   [prof_cbn; rewrite ?insert_insert_eq; reflexivity|by rewrite Hw]|];
  split; [prof_cbn; rewrite ?app_nil_r; try apply net_actions_switch; done|];
  right; unfold win_buffer; prof_cbn;
  rewrite ?lookup_insert_eq, ?Hw; done.

(** C3.  When a one-to-one conversation is in one encryption mode,
    the start action of the other mode ([/otr start] on a window in PGP
    mode, [/pgp start] on a window in OTR mode) is refused: the command
    returns without a crash, every window keeps its encryption mode,
    no network action is performed, and a message that tells the user
    why is shown. *)
Theorem C3_start_refused (e : engine) (st : State) (window : Z)
    (command : string) (args1 : option string) (n : Z) :
  current_open st ->
  is_Some (windows st !! window) ->
  start_target E window args1 st = Some n ->
  chat_enc_mode n st = Some (engine_mode (other_engine e)) ->
  exists st',
    exec (cmd_start E e window command args1) st = Some st' /\
    same_enc_modes st st' /\
    net_actions (trace st') = net_actions (trace st) /\
    shown (refusal E e st) st st'.
Proof.
  intros [cur Hcur] [win Hwin] Htarget Hmode.
  unfold chat_enc_mode in Hmode.
  destruct (windows st !! n) as [[[|[bj u mode tr hs]| | | |] b]|] eqn:Hw;
    try done.
  cbn in Hmode. injection Hmode as ->.
  apply wp_exec.
  destruct e; cbn [cmd_start refusal other_engine engine_mode] in *.
  - unfold cmd_otr_start. destruct (HAVE_LIBOTR E); cbn [negb].
    2: refused_on_console.
    wp_steps.
    destruct (bool_decide (conn_status st ≠ JABBER_CONNECTED)).
    { refused_on_console. }
    destruct args1 as [contact|]; cbn [start_target] in Htarget.
    + wp_steps. rewrite Htarget. wp_steps. unfold ui_ev_focus_win.
      eapply wp_ui_switch_win; [exact Hcur|exact Hw|].
      unfold switch_state. wp_steps. cbn [win_clear_unread kind].
      wp_steps. cbn [enc_mode].
      rewrite bool_decide_eq_true_2 by done.
      unfold ui_current_print_formatted_line. wp_steps.
      unfold wins_get_current, wins_get_by_num. prof_cbn.
      rewrite lookup_insert_eq. wp_steps.
      refused_in_window Hw.
    + injection Htarget as ->. wp_steps. rewrite ?Hw. wp_steps.
      rewrite bool_decide_eq_false_2 by (intros H; by apply H).
      wp_steps. rewrite ?Hw. wp_steps. cbn [enc_mode].
      rewrite bool_decide_eq_true_2 by done.
      unfold ui_current_print_formatted_line. wp_steps.
      unfold wins_get_current, wins_get_by_num. prof_cbn.
      rewrite Hcur. wp_steps.
      refused_in_window Hcur.
  - unfold cmd_pgp_start. destruct (HAVE_LIBGPGME E); cbn [negb].
    2: refused_on_console.
    wp_steps.
    destruct (bool_decide (conn_status st ≠ JABBER_CONNECTED)).
    { refused_on_console. }
    destruct args1 as [contact|]; cbn [start_target] in Htarget.
    + wp_steps. rewrite ?Hwin. wp_steps.
      rewrite (bool_decide_eq_false_2 (Some contact = None)) by done.
      rewrite andb_false_r. wp_steps.
      rewrite Htarget. wp_steps. unfold ui_ev_focus_win.
      eapply wp_ui_switch_win; [exact Hcur|exact Hw|].
      unfold switch_state. wp_steps. cbn [win_clear_unread kind].
      wp_steps. cbn [enc_mode].
      rewrite bool_decide_eq_true_2 by done.
      unfold ui_current_print_formatted_line. wp_steps.
      unfold wins_get_current, wins_get_by_num. prof_cbn.
      rewrite lookup_insert_eq. wp_steps.
      refused_in_window Hw.
    + injection Htarget as ->. wp_steps. rewrite ?Hw. wp_steps.
      rewrite bool_decide_eq_false_2 by (intros H; by apply H).
      cbn [andb].
      wp_steps. rewrite ?Hw. wp_steps. cbn [enc_mode].
      rewrite bool_decide_eq_true_2 by done.
      unfold ui_current_print_formatted_line. wp_steps.
      unfold wins_get_current, wins_get_by_num. prof_cbn.
      rewrite Hcur. wp_steps.
      refused_in_window Hcur.
Qed.
End CrossMode.

Lemma C3_start_refused_witness :
  exists st',
    exec (cmd_start E0 ModeA 2 "/otr" None) st0_pgp = Some st' /\
    same_enc_modes st0_pgp st' /\
    net_actions (trace st') = net_actions (trace st0_pgp) /\
    shown (refusal E0 ModeA st0_pgp) st0_pgp st'.
Proof.
  apply (C3_start_refused E0 ModeA st0_pgp 2 "/otr" None 2).
  - vm_compute. eauto.
  - vm_compute. eauto.
  - reflexivity.
  - reflexivity.
Defined.

(** * Swapping two slots *)

Lemma wins_swap_run a b st :
  exists st',
    wins_swap a b st = Some (swap_possible a b st, st') /\
    current st' = current st /\ trace st' = trace st /\
    if swap_possible a b st then exchanged a b st st' else st' = st.
Proof.
  unfold wins_swap, swap_possible.
  destruct (decide (a = 1)) as [->|Ha].
  { eexists. rewrite (bool_decide_eq_true_2 (1 = 1)) by done.
    rewrite (bool_decide_eq_false_2 (1 ≠ 1)) by (intros H; by apply H).
    cbn. eauto. }
  destruct (decide (b = 1)) as [->|Hb].
  { eexists. rewrite (bool_decide_eq_true_2 (1 = 1)) by done.
    rewrite orb_true_r. rewrite (bool_decide_eq_false_2 (1 ≠ 1)) by (intros H; by apply H).
    rewrite andb_false_r. cbn. eauto. }
  rewrite (bool_decide_eq_false_2 (a = 1)), (bool_decide_eq_false_2 (b = 1))
    by done.
  rewrite (bool_decide_eq_true_2 (a ≠ 1)), (bool_decide_eq_true_2 (b ≠ 1))
    by done.
  cbn [orb andb].
  destruct (windows st !! a) as [wa|] eqn:Hwa.
  2:{ eexists. rewrite (bool_decide_eq_false_2 (is_Some None)) by (by intros [? ?]).
      cbn. eauto. }
  destruct (windows st !! b) as [wb|] eqn:Hwb.
  2:{ eexists. rewrite (bool_decide_eq_false_2 (is_Some None)) by (by intros [? ?]).
      rewrite andb_false_r. eauto. }
  rewrite !bool_decide_eq_true_2 by eauto. cbn [andb].
  eexists. split; [reflexivity|]. split; [done|]. split; [done|].
  unfold exchanged. cbn.
  split; [by rewrite lookup_insert_eq|].
  split.
  - destruct (decide (a = b)) as [->|Hab].
    + rewrite lookup_insert_eq. congruence.
    + rewrite lookup_insert_ne by done. by rewrite lookup_insert_eq.
  - intros m Hma Hmb. by rewrite !lookup_insert_ne.
Qed.

Lemma wp_ui_swap_wins a b (Q : bool -> State -> Prop) st :
  (forall st',
     current st' = current st -> trace st' = trace st ->
     (if swap_possible a b st then exchanged a b st st' else st' = st) ->
     Q (swap_possible a b st) st') ->
  wp (ui_swap_wins a b) Q st.
Proof.
  intros HQ. destruct (wins_swap_run a b st) as (st' & Hrun & Hc & Ht & Hx).
  unfold wp, ui_swap_wins. rewrite Hrun. by apply HQ.
Qed.

(** The scenario of the specification: [swap(3, 7)] when slot 7 is
    empty leaves the registry as it is and reports [NotFound]. *)
Example swap_3_7 : ui_swap_wins 3 7 st0 = Some (false, st0).
Proof. reflexivity. Qed.

(** C7.  For every pair of slots [a] and [b], [swap(a, b)] succeeds
    exactly when both slots hold an open window and neither is the
    console slot 1, and then it exchanges the two windows and leaves
    every other slot as it was; otherwise it reports [NotFound] (the
    result [false]) and the state is unchanged.  The command
    [/wins swap a b] reads its two numerals with [atoi] into [int]s, so
    a numeral beyond the range of [int] names the slot it is truncated
    to; it refuses a swap that names the console slot with "Cannot move
    console window."; when it does not swap, the registry is unchanged
    and a message other than the one of success is shown. *)
Theorem C7_swap (E : Externals) (st : State) (a b window : Z)
    (command sa sb : string) :
  (exists st',
     ui_swap_wins a b st = Some (swap_possible a b st, st') /\
     current st' = current st /\ trace st' = trace st /\
     if swap_possible a b st then exchanged a b st st' else st' = st) /\
  (exists st',
     exec (cmd_wins E window command ["swap"; sa; sb]) st = Some st' /\
     current st' = current st /\
     if bool_decide (atoi sa = 1 \/ atoi sb = 1) then
       windows st' = windows st /\
       trace st' = (trace st ++ [ConsShow "Cannot move console window." []])%list
     else if swap_possible (atoi sa) (atoi sb) st
             && bool_decide (atoi sa <> 10 /\ atoi sb <> 10
                             /\ atoi sa <> atoi sb) then
       exchanged (atoi sa) (atoi sb) st st' /\
       trace st' = (trace st ++ [ConsShow swapped_message
                                   [ArgD (atoi sa); ArgD (atoi sb)]])%list
     else
       windows st' = windows st /\
       exists msg args,
         trace st' = (trace st ++ [ConsShow msg args])%list /\
         msg <> swapped_message).
Proof.
  split; [apply wins_swap_run|].
  apply wp_exec. unfold cmd_wins.
  cbn [lookup list_lookup].
  rewrite (bool_decide_eq_false_2 ("swap" = "tidy")) by done.
  rewrite (bool_decide_eq_false_2 ("swap" = "prune")) by done.
  rewrite (bool_decide_eq_true_2 ("swap" = "swap")) by done.
  cbv zeta.
  destruct (decide (atoi sa = 1)) as [Ha|Ha].
  { rewrite (bool_decide_eq_true_2 (atoi sa = 1)) by done. cbn [orb].
    rewrite (bool_decide_eq_true_2 (_ \/ _)) by tauto.
    wp_steps. done. }
  destruct (decide (atoi sb = 1)) as [Hb|Hb].
  { rewrite (bool_decide_eq_true_2 (atoi sb = 1)) by done. rewrite orb_true_r.
    rewrite (bool_decide_eq_true_2 (_ \/ _)) by tauto.
    wp_steps. done. }
  rewrite (bool_decide_eq_false_2 (atoi sa = 1)) by done.
  rewrite (bool_decide_eq_false_2 (atoi sb = 1)) by done.
  rewrite (bool_decide_eq_false_2 (_ \/ _)) by tauto.
  cbn [orb].
  destruct (decide (atoi sa = 10)) as [Ha10|Ha10].
  { rewrite (bool_decide_eq_true_2 (atoi sa = 10)) by done. cbn [orb].
    rewrite (bool_decide_eq_false_2 (_ /\ _)) by tauto.
    rewrite andb_false_r. wp_steps. split; [done|]. split; [done|].
    eexists _, _. split; [reflexivity|done]. }
  destruct (decide (atoi sb = 10)) as [Hb10|Hb10].
  { rewrite (bool_decide_eq_true_2 (atoi sb = 10)) by done.
    rewrite orb_true_r.
    rewrite (bool_decide_eq_false_2 (_ /\ _)) by tauto.
    rewrite andb_false_r. wp_steps. split; [done|]. split; [done|].
    eexists _, _. split; [reflexivity|done]. }
  rewrite (bool_decide_eq_false_2 (atoi sa = 10)) by done.
  rewrite (bool_decide_eq_false_2 (atoi sb = 10)) by done.
  cbn [orb].
  destruct (decide (atoi sa = atoi sb)) as [Hab|Hab].
  { rewrite (bool_decide_eq_false_2 (atoi sa ≠ atoi sb)) by tauto.
    rewrite (bool_decide_eq_false_2 (_ /\ _)) by tauto.
    rewrite andb_false_r. wp_steps. split; [done|]. split; [done|].
    eexists _, _. split; [reflexivity|done]. }
  rewrite (bool_decide_eq_true_2 (atoi sa ≠ atoi sb)) by done.
  rewrite (bool_decide_eq_true_2 (_ /\ _)) by tauto.
  rewrite andb_true_r.
  wp_steps. apply wp_ui_swap_wins.
  intros st' Hc Ht Hx.
  destruct (swap_possible (atoi sa) (atoi sb) st).
  - wp_steps. rewrite Ht. done.
  - subst st'. wp_steps. split; [done|]. split; [done|].
    eexists _, _. split; [reflexivity|done].
Qed.

(** * Completing the join of a room *)

Lemma wins_get_muc_open room n st :
  wins_get_muc room st = Some n ->
  exists w, windows st !! n = Some w /\ is_muc_for room w = true.
Proof. apply wins_find_Some. Qed.

(** The state after prints into the window [n] of [room]. *)
Lemma printed_intro room n w ls st st' :
  wins_get_muc room st = Some n ->
  windows st !! n = Some w ->
  windows st' = <[n := mkWin (kind w) (buffer w ++ ls)]> (windows st) ->
  rooms st' = rooms st ->
  prefs_bool st' = prefs_bool st ->
  conn_status st' = conn_status st ->
  printed room n ls st st'.
Proof.
  intros Hfind Hw Hws Hr Hp Hcs. unfold printed, wins_get_muc, win_buffer in *.
  rewrite Hws. split.
  { rewrite (wins_find_insert_same _ _ n w); done. }
  rewrite lookup_insert_eq, Hw. done.
Qed.

Lemma printed_trans room n l1 l2 st st1 st2 :
  printed room n l1 st st1 -> printed room n l2 st1 st2 ->
  printed room n (l1 ++ l2) st st2.
Proof.
  intros (H1 & H2 & H3 & H4 & H5) (H1' & H2' & H3' & H4' & H5').
  unfold printed. rewrite H2', H2, H3', H4', H5', app_assoc. done.
Qed.

Ltac solve_printed Hfind Hw :=
  eapply printed_intro;
  [exact Hfind|exact Hw
  |prof_cbn; rewrite ?insert_insert_eq, <- ?app_assoc; reflexivity
  |done|done|done].

Lemma wp_ui_room_subject room n s (Q : unit -> State -> Prop) st :
  wins_get_muc room st = Some n ->
  (forall st', printed room n (subject_lines (Some s)) st st' -> Q tt st') ->
  wp (ui_room_subject room None (Some s)) Q st.
Proof.
  intros Hfind HQ. destruct (wins_get_muc_open _ _ _ Hfind) as (w & Hw & _).
  unfold ui_room_subject. wp_steps. rewrite Hfind.
  wp_auto; apply HQ; solve_printed Hfind Hw.
Qed.

Lemma wp_ui_room_broadcast room n message (Q : unit -> State -> Prop) st :
  wins_get_muc room st = Some n ->
  (forall st', printed room n (broadcast_lines [message]) st st' -> Q tt st') ->
  wp (ui_room_broadcast room message) Q st.
Proof.
  intros Hfind HQ. destruct (wins_get_muc_open _ _ _ Hfind) as (w & Hw & _).
  unfold ui_room_broadcast. wp_steps. rewrite Hfind.
  wp_auto; apply HQ; solve_printed Hfind Hw.
Qed.

Lemma wp_ui_room_requires_config room n (Q : unit -> State -> Prop) st :
  wins_get_muc room st = Some n ->
  (forall st', printed room n requires_config_block st st' -> Q tt st') ->
  wp (ui_room_requires_config room) Q st.
Proof.
  intros Hfind HQ. destruct (wins_get_muc_open _ _ _ Hfind) as (w & Hw & _).
  unfold ui_room_requires_config. wp_steps. rewrite Hfind.
  wp_auto; apply HQ; solve_printed Hfind Hw.
Qed.

Lemma no_flush_app l1 l2 : no_flush l1 -> no_flush l2 -> no_flush (l1 ++ l2).
Proof. apply Forall_app_2. Qed.

Ltac solve_no_flush :=
  repeat first [ apply Forall_nil_2 | apply Forall_cons_2; [reflexivity|]
               | apply no_flush_app; [assumption|] | assumption ].

Lemma is_muc_for_clear_unread room w :
  is_muc_for room (win_clear_unread w) = is_muc_for room w.
Proof. by destruct w as [[| | | | |] b]. Qed.

Lemma buffer_clear_unread w : buffer (win_clear_unread w) = buffer w.
Proof. by destruct w as [[| | | | |] b]. Qed.

Lemma wp_ui_room_join room focus (Q : unit -> State -> Prop) st :
  console_open st -> current_open st ->
  (forall st' n ls,
     printed room n ls st st' -> no_flush ls ->
     (forall m, wins_get_muc room st = Some m -> m = n) ->
     Q tt st') ->
  wp (ui_room_join room focus) Q st.
Proof.
  intros [cb Hcons] [cur Hcur] HQ. unfold ui_room_join. wp_steps.
  wp_cut (fun n st1 =>
            exists w1, wins_get_muc room st1 = Some n /\
              windows st1 !! n = Some w1 /\
              buffer w1 = win_buffer n st /\
              (forall m, wins_get_muc room st = Some m -> m = n) /\
              (exists cur1, windows st1 !! current st = Some cur1) /\
              windows st1 !! 1 = Some (mkWin KConsole cb) /\
              current st1 = current st /\ rooms st1 = rooms st /\
              prefs_bool st1 = prefs_bool st /\
              conn_status st1 = conn_status st).
  { destruct (wins_get_muc room st) as [n|] eqn:Hfind.
    - destruct (wins_get_muc_open _ _ _ Hfind) as (w & Hw & HP).
      wp_steps. exists w. unfold win_buffer. rewrite Hw.
      split_and!; eauto. by intros m [= ->].
    - unfold wins_new_muc. wp_steps.
      destruct (get_next_available_win_num_spec (dom (windows st)))
        as [Hfresh Hne1].
      fold n in Hfresh, Hne1.
      apply not_elem_of_dom in Hfresh.
      exists (win_create_muc room). unfold wins_get_muc, win_buffer. prof_cbn.
      rewrite Hfresh.
      split_and!; try done.
      + apply wins_find_insert_fresh; [done|].
        unfold is_muc_for, win_create_muc. cbn. by apply bool_decide_eq_true_2.
      + apply lookup_insert_eq.
      + exists cur. rewrite lookup_insert_ne; [done|].
        intros Heq. rewrite <- Heq in Hcur. congruence.
      + by rewrite lookup_insert_ne. }
  intros n st1 (w1 & Hfind1 & Hw1 & Hbuf1 & Huniq & [cur1 Hcur1] & Hcons1 & Hc1
                & Hr1 & Hp1 & Hcs1).
  assert (Hmuc1 : is_muc_for room w1 = true).
  { destruct (wins_get_muc_open _ _ _ Hfind1) as (w & Hw & HP). congruence. }
  assert (Hn1 : n <> 1).
  { intros ->. rewrite Hcons1 in Hw1. injection Hw1 as <-. done. }
  wp_steps.
  wp_cut (fun (_ : unit) st2 =>
            exists ls, no_flush ls /\
              windows st2
              = <[n := mkWin (kind w1) (buffer w1 ++ ls)]> (windows st1) /\
              current st2 = current st1 /\ rooms st2 = rooms st1 /\
              prefs_bool st2 = prefs_bool st1 /\
              conn_status st2 = conn_status st1).
  { wp_auto.
    all: eexists; split;
      [|split; [prof_cbn; rewrite ?insert_insert_eq, <- ?app_assoc;
                reflexivity|done]].
    all: solve_no_flush. }
  intros _ st2 (ls & Hnf & Hws2 & Hc2 & Hr2 & Hp2 & Hcs2).
  assert (Hw2 : windows st2 !! n = Some (mkWin (kind w1) (buffer w1 ++ ls)))
    by (rewrite Hws2; apply lookup_insert_eq).
  wp_steps. destruct focus.
  - unfold ui_ev_focus_win.
    assert (exists old,
              (<[n := mkWin (kind w1)
                        ((buffer w1 ++ ls)
                         ++ [LPrint "!" None [NO_DATE] THEME_ROOMINFO "" ""
                                    []])]> (windows st2))
                !! current st2 = Some old) as [old Hold].
    { rewrite Hc2, Hc1. destruct (decide (current st = n)) as [->|Hne].
      - rewrite lookup_insert_eq. eauto.
      - rewrite lookup_insert_ne, Hws2, lookup_insert_ne by done. eauto. }
    eapply wp_ui_switch_win; [exact Hold|solve_lookup|].
    unfold switch_state.
    apply (HQ _ n (ls ++ [LPrint "!" None [NO_DATE] THEME_ROOMINFO "" ""
                                 []])%list);
      [|solve_no_flush|exact Huniq].
    unfold printed, wins_get_muc, win_buffer in *. prof_cbn.
    rewrite Hws2, !insert_insert_eq, lookup_insert_eq.
    split_and!; [|idtac|congruence|congruence|congruence].
    2:{ cbn -[win_clear_unread].
        by rewrite buffer_clear_unread, <- Hbuf1, app_assoc. }
    apply wins_find_insert_found; [exact Hfind1|].
    by rewrite is_muc_for_clear_unread.
  - unfold wins_get_console, wins_get_by_num. wp_steps.
    rewrite lookup_insert_ne, Hws2, lookup_insert_ne, Hcons1 by done.
    wp_steps.
    eapply wp_win_append;
      [prof_cbn; rewrite !lookup_insert_ne by done; exact Hcons1|].
    apply (HQ _ n (ls ++ [LPrint "!" None [NO_DATE] THEME_ROOMINFO "" ""
                                 []])%list);
      [|solve_no_flush|exact Huniq].
    unfold printed, wins_get_muc, win_buffer in *. prof_cbn.
    rewrite !insert_insert_eq.
    rewrite lookup_insert_ne, lookup_insert_eq by done.
    split_and!; [|by rewrite <- Hbuf1, app_assoc|congruence|congruence
                 |congruence].
    erewrite wins_find_insert_same;
      [|rewrite lookup_insert_ne by done; exact Hcons1|done].
    by apply wins_find_insert_found.
Qed.

Lemma wp_ui_room_roster_loop n roster w (Q : unit -> State -> Prop) st :
  windows st !! n = Some w ->
  (forall ls, no_flush ls ->
     Q tt (set_windows
             (<[n := mkWin (kind w) (buffer w ++ ls)]> (windows st)) st)) ->
  wp (ui_room_roster_loop n roster) Q st.
Proof.
  revert w Q st.
  induction roster as [|o next IH]; intros w Q st Hw HQ;
    cbn [ui_room_roster_loop].
  - apply wp_ret. specialize (HQ [] (Forall_nil_2 _)).
    rewrite app_nil_r in HQ. destruct w. cbn in HQ.
    rewrite insert_id in HQ; [|done]. by destruct st.
  - cbv zeta. wp_steps. destruct next as [|o' next'].
    + wp_steps. eapply IH; [solve_lookup|]. intros ls Hls. prof_cbn.
      rewrite insert_insert_eq, <- app_assoc. apply HQ. solve_no_flush.
    + wp_steps. eapply IH; [solve_lookup|]. intros ls Hls. prof_cbn.
      rewrite !insert_insert_eq, <- !app_assoc. apply HQ. solve_no_flush.
Qed.

Lemma wp_ui_room_roster room n roster (Q : unit -> State -> Prop) st :
  wins_get_muc room st = Some n ->
  (forall st' ls, printed room n ls st st' -> no_flush ls -> Q tt st') ->
  wp (ui_room_roster room roster None) Q st.
Proof.
  intros Hfind HQ. destruct (wins_get_muc_open _ _ _ Hfind) as (w & Hw & _).
  unfold ui_room_roster. wp_steps. rewrite Hfind.
  destruct roster as [|o roster].
  - wp_steps. eapply HQ; [solve_printed Hfind Hw|solve_no_flush].
  - cbv zeta. wp_steps.
    eapply wp_ui_room_roster_loop; [solve_lookup|]. intros ls Hls.
    wp_steps.
    eapply HQ; [solve_printed Hfind Hw|]. solve_no_flush.
Qed.

Lemma printed_refl room n st :
  wins_get_muc room st = Some n -> printed room n [] st st.
Proof. intros H. unfold printed. by rewrite app_nil_r. Qed.

Lemma wp_broadcasts room n messages (Q : unit -> State -> Prop) st :
  wins_get_muc room st = Some n ->
  (forall st', printed room n (broadcast_lines messages) st st' -> Q tt st') ->
  wp (for_each messages (fun data => ui_room_broadcast room data)) Q st.
Proof.
  revert Q st. induction messages as [|m ms IH]; intros Q st Hfind HQ;
    cbn [for_each].
  - apply wp_ret, HQ. by apply printed_refl.
  - wp_steps. eapply wp_ui_room_broadcast; [exact Hfind|]. intros st1 H1.
    eapply IH; [apply H1|]. intros st2 H2. apply HQ.
    change (broadcast_lines (m :: ms))
      with (broadcast_lines [m] ++ broadcast_lines ms)%list.
    eapply printed_trans; eauto.
Qed.

Ltac room_cbn :=
  cbn [fmap option_fmap option_map mbind option_bind default from_option id
       room_nick room_role room_affiliation room_subject
       room_pending_broadcasts room_roster roster_received
       pending_nick_change room_autojoin room_requires_config].

Lemma self_join_run room nick config_required role affiliation actor reason
    jid show status st r :
  console_open st -> current_open st ->
  rooms st !! room = Some r ->
  roster_received r = false -> pending_nick_change r = false ->
  wp (sv_ev_muc_self_online room nick config_required role affiliation
        actor reason jid show status)
     (fun _ st' =>
        exists n joined,
          wins_get_muc room st' = Some n /\
          (forall m, wins_get_muc room st = Some m -> m = n) /\
          win_buffer n st'
          = (win_buffer n st ++ joined ++ subject_lines (room_subject r)
             ++ broadcast_lines (room_pending_broadcasts r)
             ++ if config_required then requires_config_block else [])%list /\
          no_flush joined /\
          muc_roster_complete room st' = true /\
          muc_requires_config room st'
          = (config_required || room_requires_config r) /\
          conn_status st' = conn_status st) st.
Proof.
  intros Hcons Hcur Hroom Hrr Hpn.
  unfold sv_ev_muc_self_online, muc_roster_add, muc_set_role,
    muc_set_affiliation, muc_roster_set_complete, muc_set_requires_config.
  wp_steps.
  unfold muc_nick_change_pending at 1. prof_cbn.
  rewrite !lookup_alter_eq, Hroom. room_cbn. rewrite Hpn.
  wp_steps.
  unfold muc_roster_complete at 1. prof_cbn.
  rewrite !lookup_alter_eq, Hroom. room_cbn. rewrite Hrr. cbn [negb].
  wp_steps.
  match goal with
  | |- wp (if ?b then _ else _) _ _ =>
      replace (if b then ui_room_join room false else ui_room_join room true)
        with (ui_room_join room (negb b)) by (by destruct b)
  end.
  apply wp_ui_room_join; [exact Hcons|exact Hcur|].
  intros st2 n joined (Hf2 & Hb2 & Hr2 & Hp2 & Hcs2) Hnf2 Huniq.
  change (win_buffer n st2 = (win_buffer n st ++ joined)%list) in Hb2.
  change (prefs_bool st2 = prefs_bool st) in Hp2.
  change (conn_status st2 = conn_status st) in Hcs2.
  change (forall m, wins_get_muc room st = Some m -> m = n) in Huniq.
  assert (Hroom2 : exists r2, rooms st2 !! room = Some r2 /\
            room_subject r2 = room_subject r /\
            room_pending_broadcasts r2 = room_pending_broadcasts r /\
            room_requires_config r2 = room_requires_config r).
  { rewrite Hr2. cbn [rooms set_rooms].
    rewrite !lookup_alter_eq, Hroom. room_cbn. eauto. }
  clear Hr2. destruct Hroom2 as (r2 & Hroom2 & Hsub2 & Hpb2 & Hrc2).
  wp_steps.
  wp_cut (fun (_ : unit) st3 =>
            exists ls, no_flush ls /\
              wins_get_muc room st3 = Some n /\
              win_buffer n st3 = (win_buffer n st2 ++ ls)%list /\
              prefs_bool st3 = prefs_bool st2 /\
              conn_status st3 = conn_status st2 /\
              rooms st3
              = alter (fun r0 =>
                         mkChatRoom (room_nick r0) (room_role r0)
                           (room_affiliation r0) (room_subject r0)
                           (room_pending_broadcasts r0) (room_roster r0) true
                           (pending_nick_change r0) (room_autojoin r0)
                           (room_requires_config r0)) room (rooms st2)).
  { wp_case.
    - wp_steps. eapply wp_ui_room_roster; [exact Hf2|].
      intros st3 ls (Hf3 & Hb3 & Hr3 & Hp3 & Hcs3) Hnf3. exists ls.
      split_and!; done.
    - wp_steps. exists []. rewrite app_nil_r. split_and!; try done.
      apply Forall_nil_2. }
  intros _ st3 (ls3 & Hnf3 & Hf3 & Hb3 & Hp3 & Hcs3 & Hr3).
  assert (Hroom3 : exists r3, rooms st3 !! room = Some r3 /\
            room_subject r3 = room_subject r /\
            room_pending_broadcasts r3 = room_pending_broadcasts r /\
            room_requires_config r3 = room_requires_config r /\
            roster_received r3 = true).
  { rewrite Hr3, lookup_alter_eq, Hroom2. room_cbn.
    eexists. split; [reflexivity|]. room_cbn. split_and!; congruence. }
  clear Hr3. destruct Hroom3 as (r3 & Hroom3 & Hsub3 & Hpb3 & Hrc3 & Hrr3).
  wp_steps. unfold muc_subject. rewrite Hroom3. room_cbn. rewrite Hsub3.
  wp_cut (fun (_ : unit) st4 =>
            printed room n (subject_lines (room_subject r)) st3 st4).
  { destruct (room_subject r) as [s|].
    - eapply wp_ui_room_subject; [exact Hf3|]. done.
    - wp_steps. by apply printed_refl. }
  intros _ st4 (Hf4 & Hb4 & Hr4 & Hp4 & Hcs4).
  wp_steps. unfold muc_pending_broadcasts at 1.
  rewrite Hr4, Hroom3. room_cbn. rewrite Hpb3.
  eapply wp_broadcasts; [exact Hf4|].
  intros st5 (Hf5 & Hb5 & Hr5 & Hp5 & Hcs5).
  assert (Hcs : conn_status st5 = conn_status st) by congruence.
  assert (Hbuf : win_buffer n st5
                 = (win_buffer n st ++ (joined ++ ls3)
                    ++ subject_lines (room_subject r)
                    ++ broadcast_lines (room_pending_broadcasts r))%list).
  { rewrite Hb5, Hb4, Hb3, Hb2, <- !app_assoc. done. }
  assert (Hroom5 : rooms st5 !! room = Some r3) by (by rewrite Hr5, Hr4).
  destruct config_required.
  - wp_steps. eapply wp_ui_room_requires_config; [exact Hf5|].
    intros st6 (Hf6 & Hb6 & Hr6 & Hp6 & Hcs6).
    change (conn_status st6 = conn_status st5) in Hcs6.
    change (win_buffer n st6 = (win_buffer n st5 ++ requires_config_block)%list)
      in Hb6.
    cbn [rooms set_rooms] in Hr6.
    wp_steps. exists n, (joined ++ ls3)%list.
    unfold muc_roster_complete, muc_requires_config. prof_cbn.
    change (wins_get_muc room st6 = Some n
            /\ (forall m, wins_get_muc room st = Some m -> m = n)
            /\ win_buffer n st6
               = (win_buffer n st ++ (joined ++ ls3)
                  ++ subject_lines (room_subject r)
                  ++ broadcast_lines (room_pending_broadcasts r)
                  ++ requires_config_block)%list
            /\ no_flush (joined ++ ls3)
            /\ default false (roster_received <$> rooms st6 !! room) = true
            /\ default false (room_requires_config <$> rooms st6 !! room)
               = true
            /\ conn_status st6 = conn_status st).
    rewrite Hr6, lookup_alter_eq, Hroom5. room_cbn.
    split_and!; try done.
    + rewrite Hb6, Hbuf, <- !app_assoc. done.
    + by apply no_flush_app.
    + congruence.
  - wp_steps. exists n, (joined ++ ls3)%list.
    unfold muc_roster_complete, muc_requires_config. prof_cbn.
    change (wins_get_muc room st5 = Some n
            /\ (forall m, wins_get_muc room st = Some m -> m = n)
            /\ win_buffer n st5
               = (win_buffer n st ++ (joined ++ ls3)
                  ++ subject_lines (room_subject r)
                  ++ broadcast_lines (room_pending_broadcasts r)
                  ++ [])%list
            /\ no_flush (joined ++ ls3)
            /\ default false (roster_received <$> rooms st5 !! room) = true
            /\ default false (room_requires_config <$> rooms st5 !! room)
               = room_requires_config r
            /\ conn_status st5 = conn_status st).
    rewrite Hroom5. room_cbn.
    split_and!; try done.
    + rewrite Hbuf, app_nil_r. done.
    + by apply no_flush_app.
Qed.


Ltac later_leaf Hfind Hw HP Hroom :=
  eexists; split_and!;
  [ unfold wins_get_muc; prof_cbn; rewrite ?insert_insert_eq;
    first [ reflexivity | exact Hfind
          | apply wins_find_insert_found; [exact Hfind|exact HP] ]
  | unfold win_buffer; prof_cbn;
    rewrite ?insert_insert_eq, ?lookup_insert_eq, ?Hw;
    cbn [fmap option_fmap option_map default from_option id buffer];
    rewrite <- ?app_assoc;
    first [ reflexivity | symmetry; apply app_nil_r ]
  | cbn [app]; solve_no_flush
  | unfold muc_roster_complete; prof_cbn;
    rewrite ?lookup_alter_eq, Hroom; room_cbn; done
  | unfold muc_requires_config; prof_cbn;
    rewrite ?lookup_alter_eq, Hroom; room_cbn; done ].

Lemma later_self_presence room nick config_required role affiliation actor
    reason jid show status st n :
  muc_roster_complete room st = true ->
  wins_get_muc room st = Some n ->
  wp (sv_ev_muc_self_online room nick config_required role affiliation
        actor reason jid show status)
     (fun _ st' =>
        exists extra,
          wins_get_muc room st' = Some n /\
          win_buffer n st' = (win_buffer n st ++ extra)%list /\
          no_flush extra /\
          muc_roster_complete room st' = true /\
          muc_requires_config room st' = muc_requires_config room st) st.
Proof.
  intros Hrc Hfind.
  destruct (wins_get_muc_open _ _ _ Hfind) as (w & Hw & HP).
  unfold muc_roster_complete in Hrc.
  destruct (rooms st !! room) as [r|] eqn:Hroom; [|done]. cbn in Hrc.
  unfold sv_ev_muc_self_online, muc_roster_add, muc_set_role,
    muc_set_affiliation, muc_nick_change_complete.
  wp_steps. wp_case.
  - wp_steps. unfold ui_room_nick_change. wp_steps. rewrite Hfind. wp_steps.
    later_leaf Hfind Hw HP Hroom.
  - wp_steps. unfold muc_roster_complete at 1. prof_cbn.
    rewrite !lookup_alter_eq, Hroom. room_cbn. rewrite Hrc. cbn [negb].
    unfold ui_room_role_and_affiliation_change, ui_room_role_change,
      ui_room_affiliation_change.
    wp_auto.
    all: rewrite ?Hfind.
    all: wp_auto.
    all: later_leaf Hfind Hw HP Hroom.
Qed.

(** C4.  The first self-presence of a room whose roster is not yet
    complete, with no nickname change pending, marks the room as joined
    and appends to the window of the room, after the lines of the join
    itself, the pending subject (if any), then every queued broadcast in
    the order of the queue, and last the required-configuration block,
    which is there exactly when [config_required] is set.  A later
    self-presence of the same room prints no subject, no broadcast and
    no required-configuration block, and leaves the room joined and the
    recorded requirement as it was. *)
Theorem C4_first_self_presence (room nick : string) (config_required : bool)
    (role affiliation actor reason jid show status : option string)
    (st : State) (r : ChatRoom) :
  console_open st -> current_open st ->
  rooms st !! room = Some r ->
  roster_received r = false -> pending_nick_change r = false ->
  exists st' n joined,
    exec (sv_ev_muc_self_online room nick config_required role affiliation
            actor reason jid show status) st = Some st' /\
    muc_roster_complete room st' = true /\
    wins_get_muc room st' = Some n /\
    win_buffer n st'
    = (win_buffer n st ++ joined ++ subject_lines (room_subject r)
       ++ broadcast_lines (room_pending_broadcasts r)
       ++ if config_required then requires_config_block else [])%list /\
    no_flush joined /\
    forall nick' config_required' role' affiliation' actor' reason' jid'
           show' status',
    exists st'' extra,
      exec (sv_ev_muc_self_online room nick' config_required' role'
              affiliation' actor' reason' jid' show' status') st'
      = Some st'' /\
      win_buffer n st'' = (win_buffer n st' ++ extra)%list /\
      no_flush extra /\
      muc_roster_complete room st'' = true /\
      muc_requires_config room st'' = muc_requires_config room st'.
Proof.
  intros Hcons Hcur Hroom Hrr Hpn.
  destruct (wp_exec _ _ _
              (self_join_run room nick config_required role affiliation actor
                 reason jid show status st r Hcons Hcur Hroom Hrr Hpn))
    as (st' & Hrun & n & joined & Hf & _ & Hb & Hnf & Hrc & _).
  exists st', n, joined. split_and!; try done.
  intros nick' config_required' role' affiliation' actor' reason' jid' show'
    status'.
  destruct (wp_exec _ _ _
              (later_self_presence room nick' config_required' role'
                 affiliation' actor' reason' jid' show' status' st' n Hrc Hf))
    as (st'' & Hrun' & extra & _ & Hb' & Hnf' & Hrc' & Hcfg').
  by exists st'', extra.
Qed.

Lemma C4_first_self_presence_witness :
  exists st' n joined,
    exec (sv_ev_muc_self_online "r@conf" "me" true None None None None None
            None None) st0 = Some st' /\
    muc_roster_complete "r@conf" st' = true /\
    wins_get_muc "r@conf" st' = Some n /\
    win_buffer n st'
    = (win_buffer n st0 ++ joined ++ subject_lines (room_subject room0)
       ++ broadcast_lines (room_pending_broadcasts room0)
       ++ requires_config_block)%list /\
    no_flush joined /\
    forall nick' config_required' role' affiliation' actor' reason' jid'
           show' status',
    exists st'' extra,
      exec (sv_ev_muc_self_online "r@conf" nick' config_required' role'
              affiliation' actor' reason' jid' show' status') st'
      = Some st'' /\
      win_buffer n st'' = (win_buffer n st' ++ extra)%list /\
      no_flush extra /\
      muc_roster_complete "r@conf" st'' = true /\
      muc_requires_config "r@conf" st'' = muc_requires_config "r@conf" st'.
Proof.
  apply (C4_first_self_presence "r@conf" "me" true None None None None None
           None None st0 room0).
  - eexists. vm_compute. reflexivity.
  - eexists. vm_compute. reflexivity.
  - vm_compute. reflexivity.
  - reflexivity.
  - reflexivity.
Defined.

(** * The required-configuration prompt and [/room accept] *)

Lemma count_config_prompts_app l1 l2 :
  count_config_prompts (l1 ++ l2)
  = (count_config_prompts l1 + count_config_prompts l2)%nat.
Proof.
  unfold count_config_prompts. by rewrite List.filter_app, List.length_app.
Qed.

Lemma count_config_prompts_no_flush ls :
  no_flush ls -> count_config_prompts ls = 0%nat.
Proof.
  unfold count_config_prompts. induction 1 as [|l ls Hl _ IH]; [done|].
  cbn [List.filter]. destruct l; try done. cbn in Hl.
  apply orb_false_iff in Hl as [_ ->]. done.
Qed.

Lemma count_config_prompts_subject s :
  count_config_prompts (subject_lines s) = 0%nat.
Proof. by destruct s. Qed.

Lemma count_config_prompts_broadcasts ms :
  count_config_prompts (broadcast_lines ms) = 0%nat.
Proof. induction ms as [|m ms IH]; [done|]. exact IH. Qed.

Lemma room_accept_run window command st mw b :
  conn_status st = JABBER_CONNECTED ->
  windows st !! window = Some (mkWin (KMuc mw) b) ->
  wp (cmd_room window command ["accept"])
     (fun _ st' =>
        conn_status st' = conn_status st /\
        if muc_requires_config (roomjid mw) st then
          muc_requires_config (roomjid mw) st' = false /\
          windows st'
          = <[window := mkWin (KMuc mw) (b ++ [room_unlocked_line])]>
              (windows st) /\
          trace st'
          = (trace st ++ [Net (IqConfirmInstantRoom (roomjid mw))])%list
        else
          rooms st' = rooms st /\
          windows st'
          = <[window := mkWin (KMuc mw) (b ++ [room_not_locked_line])]>
              (windows st) /\
          trace st' = trace st) st.
Proof.
  intros Hconn Hw. unfold cmd_room. wp_steps. rewrite Hconn.
  rewrite bool_decide_eq_false_2 by (intros H; by apply H).
  wp_steps. cbn [win_type kind].
  rewrite bool_decide_eq_false_2 by (intros H; by apply H).
  cbn [lookup list_lookup]. unfold g_strcmp0_eq.
  rewrite (bool_decide_eq_true_2 (Some "accept" = Some "accept")) by done.
  cbn [negb andb].
  wp_steps. unfold muc_set_requires_config.
  destruct (muc_requires_config (roomjid mw) st) eqn:Hrc; cbn [negb].
  - wp_steps. split; [done|]. split; [|done].
    unfold muc_requires_config in *. prof_cbn. rewrite lookup_alter_eq.
    by destruct (rooms st !! roomjid mw).
  - wp_steps. done.
Qed.

(** C5.  When the self-join of a room completes with [config_required]
    set, the window of the room receives exactly one
    required-configuration block and the requirement is recorded on the
    room.  A following [/room accept] in that window clears the recorded
    requirement, prints "Room unlocked.", confirms the room to the
    server and leaves the window open; as the room then has no recorded
    requirement, a further [/room accept] only prints "Current room
    does not require configuration." and changes neither the rooms nor
    the trace; so does [/room accept] in the window of any room without
    a recorded requirement. *)
Theorem C5_requires_config (room nick command : string)
    (role affiliation actor reason jid show status : option string)
    (st : State) (r : ChatRoom) :
  console_open st -> current_open st ->
  conn_status st = JABBER_CONNECTED ->
  rooms st !! room = Some r ->
  roster_received r = false -> pending_nick_change r = false ->
  exists st1 n,
    exec (sv_ev_muc_self_online room nick true role affiliation actor reason
            jid show status) st = Some st1 /\
    wins_get_muc room st1 = Some n /\
    count_config_prompts (win_buffer n st1)
    = S (count_config_prompts (win_buffer n st)) /\
    muc_requires_config room st1 = true /\
    exists st2,
      exec (cmd_room n command ["accept"]) st1 = Some st2 /\
      muc_requires_config room st2 = false /\
      win_buffer n st2 = (win_buffer n st1 ++ [room_unlocked_line])%list /\
      wins_get_muc room st2 = Some n /\
      trace st2 = (trace st1 ++ [Net (IqConfirmInstantRoom room)])%list /\
      exists st3,
        exec (cmd_room n command ["accept"]) st2 = Some st3 /\
        win_buffer n st3 = (win_buffer n st2 ++ [room_not_locked_line])%list /\
        wins_get_muc room st3 = Some n /\
        rooms st3 = rooms st2 /\
        trace st3 = trace st2 /\
        forall (s : State) (window : Z) (mw : ProfMucWin) (b : list Line),
          conn_status s = JABBER_CONNECTED ->
          windows s !! window = Some (mkWin (KMuc mw) b) ->
          muc_requires_config (roomjid mw) s = false ->
          exists s',
            exec (cmd_room window command ["accept"]) s = Some s' /\
            windows s'
            = <[window := mkWin (KMuc mw) (b ++ [room_not_locked_line])]>
                (windows s) /\
            rooms s' = rooms s /\
            trace s' = trace s.
Proof.
  intros Hcons Hcur Hconn Hroom Hrr Hpn.
  destruct (wp_exec _ _ _
              (self_join_run room nick true role affiliation actor reason jid
                 show status st r Hcons Hcur Hroom Hrr Hpn))
    as (st1 & Hrun & n & joined & Hf & _ & Hb & Hnf & _ & Hrc & Hcs).
  exists st1, n. split_and!; try done.
  { rewrite Hb, !count_config_prompts_app,
      (count_config_prompts_no_flush joined Hnf),
      count_config_prompts_subject, count_config_prompts_broadcasts.
    cbn. lia. }
  destruct (wins_get_muc_open _ _ _ Hf) as ([[| |[rj u]| | |] b] & Hw & HP);
    try done.
  unfold is_muc_for in HP. cbn in HP. apply bool_decide_eq_true in HP as ->.
  destruct (wp_exec _ _ _
              (room_accept_run n command st1 (mkMucWin room u) b
                 ltac:(congruence) Hw))
    as (st2 & Hrun2 & Hcs2 & Hpost2).
  cbn [roomjid] in Hpost2. rewrite Hrc in Hpost2. cbn [orb] in Hpost2.
  destruct Hpost2 as (Hrc2 & Hws2 & Ht2).
  assert (Hw2 : windows st2 !! n
                = Some (mkWin (KMuc (mkMucWin room u))
                          (b ++ [room_unlocked_line])))
    by (rewrite Hws2; apply lookup_insert_eq).
  assert (Hf2 : wins_get_muc room st2 = Some n).
  { unfold wins_get_muc in *. rewrite Hws2.
    apply wins_find_insert_found; [done|].
    unfold is_muc_for. cbn. by apply bool_decide_eq_true_2. }
  exists st2. split_and!; try done.
  { unfold win_buffer. by rewrite Hw2, Hw. }
  destruct (wp_exec _ _ _
              (room_accept_run n command st2 (mkMucWin room u)
                 (b ++ [room_unlocked_line]) ltac:(congruence) Hw2))
    as (st3 & Hrun3 & Hcs3 & Hpost3).
  cbn [roomjid] in Hpost3. rewrite Hrc2 in Hpost3.
  destruct Hpost3 as (Hr3 & Hws3 & Ht3).
  exists st3. split_and!; try done.
  - unfold win_buffer. by rewrite Hws3, lookup_insert_eq, Hw2.
  - unfold wins_get_muc in *. rewrite Hws3.
    apply wins_find_insert_found; [done|].
    unfold is_muc_for. cbn. by apply bool_decide_eq_true_2.
  - intros s window mw b' Hconn' Hw' Hrc'.
    destruct (wp_exec _ _ _ (room_accept_run window command s mw b' Hconn' Hw'))
      as (s' & Hrun' & _ & Hpost').
    rewrite Hrc' in Hpost'. destruct Hpost' as (? & ? & ?). by exists s'.
Qed.

Lemma C5_requires_config_witness :
  exists st1 n,
    exec (sv_ev_muc_self_online "r@conf" "me" true None None None None None
            None None) st0 = Some st1 /\
    wins_get_muc "r@conf" st1 = Some n /\
    count_config_prompts (win_buffer n st1)
    = S (count_config_prompts (win_buffer n st0)) /\
    muc_requires_config "r@conf" st1 = true /\
    exists st2,
      exec (cmd_room n "/room" ["accept"]) st1 = Some st2 /\
      muc_requires_config "r@conf" st2 = false /\
      win_buffer n st2 = (win_buffer n st1 ++ [room_unlocked_line])%list /\
      wins_get_muc "r@conf" st2 = Some n /\
      trace st2 = (trace st1 ++ [Net (IqConfirmInstantRoom "r@conf")])%list /\
      exists st3,
        exec (cmd_room n "/room" ["accept"]) st2 = Some st3 /\
        win_buffer n st3 = (win_buffer n st2 ++ [room_not_locked_line])%list /\
        wins_get_muc "r@conf" st3 = Some n /\
        rooms st3 = rooms st2 /\
        trace st3 = trace st2 /\
        forall (s : State) (window : Z) (mw : ProfMucWin) (b : list Line),
          conn_status s = JABBER_CONNECTED ->
          windows s !! window = Some (mkWin (KMuc mw) b) ->
          muc_requires_config (roomjid mw) s = false ->
          exists s',
            exec (cmd_room window "/room" ["accept"]) s = Some s' /\
            windows s'
            = <[window := mkWin (KMuc mw) (b ++ [room_not_locked_line])]>
                (windows s) /\
            rooms s' = rooms s /\
            trace s' = trace s.
Proof.
  apply (C5_requires_config "r@conf" "me" "/room" None None None None None
           None None st0 room0).
  - eexists. vm_compute. reflexivity.
  - eexists. vm_compute. reflexivity.
  - reflexivity.
  - vm_compute. reflexivity.
  - reflexivity.
  - reflexivity.
Defined.


(** * config/preferences.c *)

Module PrefsFacts.
Import Preferences.

(** The keys that the integer and character settings use. *)
Lemma pref_slot_inj (p q : preference_t) :
  (_get_group p, _get_key p) = (_get_group q, _get_key q) -> p = q.
Proof.
  destruct p, q; intros H; first [reflexivity | discriminate H].
Qed.

Lemma pref_slot_not_alias (p : preference_t) (name : string) :
  (_get_group p, _get_key p) <> (PREF_GROUP_ALIAS, name).
Proof. destruct p; discriminate. Qed.

(** X1.  Every preference has a place of its own in the key file: two
    different preferences never share a group and key, and the place of
    a preference is neither the place of a command alias nor one of the
    keys that the integer and character settings use directly. *)
Theorem pref_slots_distinct (p q : preference_t) (name : string) :
  p <> q ->
  (_get_group p, _get_key p) <> (_get_group q, _get_key q)
  /\ (_get_group p, _get_key p) <> (PREF_GROUP_ALIAS, name)
  /\ ~ In (_get_group p, _get_key p)
        [(PREF_GROUP_CHATSTATES, "gone"); (PREF_GROUP_NOTIFICATIONS, "remind");
         (PREF_GROUP_LOGGING, "maxsize"); (PREF_GROUP_UI, "inpblock");
         (PREF_GROUP_PRESENCE, "priority");
         (PREF_GROUP_CONNECTION, "reconnect");
         (PREF_GROUP_CONNECTION, "autoping");
         (PREF_GROUP_PRESENCE, "autoaway.time");
         (PREF_GROUP_UI, "occupants.size"); (PREF_GROUP_UI, "roster.size");
         (PREF_GROUP_OTR, "otr.char"); (PREF_GROUP_PGP, "pgp.char")].
Proof.
  intros Hpq. split; [|split].
  - intros H. by apply Hpq, pref_slot_inj.
  - apply pref_slot_not_alias.
  - destruct p; cbn; intros H; repeat destruct H as [H|H]; discriminate H || done.
Qed.

Lemma pref_slots_distinct_witness :
  (_get_group PREF_OTR_LOG, _get_key PREF_OTR_LOG)
  <> (_get_group PREF_PGP_LOG, _get_key PREF_PGP_LOG)
  /\ (_get_group PREF_OTR_LOG, _get_key PREF_OTR_LOG)
     <> (PREF_GROUP_ALIAS, "log")
  /\ ~ In (_get_group PREF_OTR_LOG, _get_key PREF_OTR_LOG)
        [(PREF_GROUP_CHATSTATES, "gone"); (PREF_GROUP_NOTIFICATIONS, "remind");
         (PREF_GROUP_LOGGING, "maxsize"); (PREF_GROUP_UI, "inpblock");
         (PREF_GROUP_PRESENCE, "priority");
         (PREF_GROUP_CONNECTION, "reconnect");
         (PREF_GROUP_CONNECTION, "autoping");
         (PREF_GROUP_PRESENCE, "autoaway.time");
         (PREF_GROUP_UI, "occupants.size"); (PREF_GROUP_UI, "roster.size");
         (PREF_GROUP_OTR, "otr.char"); (PREF_GROUP_PGP, "pgp.char")].
Proof. apply (pref_slots_distinct PREF_OTR_LOG PREF_PGP_LOG "log"). discriminate. Defined.

(** [strcmp] orders the strings strictly. *)
Lemma ascii_compare_refl c : Ascii.compare c c = Eq.
Proof. unfold Ascii.compare. apply N.compare_refl. Qed.

Lemma string_compare_refl s : String.compare s s = Eq.
Proof.
  induction s as [|c s IH]; [done|]. cbn. by rewrite ascii_compare_refl.
Qed.





Section WithGLib.
Context (G : GLib).

(** The groups and keys of the preferences are names that the key file
    accepts, so a preference that is set is stored. *)
Lemma set_value_ok (kf : GKeyFile) g k v :
  g_key_file_is_group_name g = true -> g_key_file_is_key_name G k = true ->
  g_key_file_set_value G kf g k v = <[(g, k) := v]> kf.
Proof. intros Hg Hk. unfold g_key_file_set_value. by rewrite Hg, Hk. Qed.

Lemma set_value_pref (kf : GKeyFile) (p : preference_t) v :
  g_key_file_set_value G kf (_get_group p) (_get_key p) v
  = <[(_get_group p, _get_key p) := v]> kf.
Proof. apply set_value_ok; by destruct p. Qed.

Local Ltac stored :=
  unfold g_key_file_set_string, g_key_file_set_boolean,
    g_key_file_set_integer;
  rewrite ?set_value_pref; rewrite ?set_value_ok by reflexivity.

Lemma has_key_insert (kf : GKeyFile) g k v g' k' :
  g_key_file_has_key (<[(g, k) := v]> kf) g' k'
  = if decide ((g', k') = (g, k)) then true else g_key_file_has_key kf g' k'.
Proof.
  unfold g_key_file_has_key. destruct (decide _) as [[= -> ->]|Hne].
  - rewrite lookup_insert_eq. by apply bool_decide_eq_true_2.
  - by rewrite lookup_insert_ne.
Qed.

(** X2.  A boolean preference that is set reads back as the value set,
    and every other boolean preference reads as before, provided that
    the key file reads back the boolean it wrote. *)
Theorem prefs_set_get_boolean (p q : preference_t) (v : bool)
    (st : PrefsState) :
  parse_boolean G (show_boolean G v) = Some v ->
  prefs_get_boolean G q (prefs_set_boolean G p v st)
  = if decide (q = p) then v else prefs_get_boolean G q st.
Proof.
  intros Hrt. unfold prefs_get_boolean, prefs_set_boolean, _save_prefs,
    set_prefs, g_key_file_get_boolean,
    g_key_file_has_key. cbv zeta. stored. cbn [prefs].
  destruct (decide (q = p)) as [->|Hne].
  - rewrite lookup_insert_eq. rewrite bool_decide_eq_true_2 by eauto.
    cbn. by rewrite Hrt.
  - rewrite lookup_insert_ne; [done|].
    intros H. by apply Hne, eq_sym, pref_slot_inj.
Qed.

Lemma get_string_insert (kf : GKeyFile) g k v g' k' :
  g_key_file_get_string G (<[(g, k) := v]> kf) g' k'
  = if decide ((g', k') = (g, k))
    then (if g_utf8_validate G v then Some v else None)
    else g_key_file_get_string G kf g' k'.
Proof.
  unfold g_key_file_get_string. destruct (decide _) as [[= -> ->]|Hne].
  - by rewrite lookup_insert_eq.
  - by rewrite lookup_insert_ne.
Qed.

Lemma get_string_delete (kf : GKeyFile) g k g' k' :
  g_key_file_get_string G (delete (g, k) kf) g' k'
  = if decide ((g', k') = (g, k)) then None
    else g_key_file_get_string G kf g' k'.
Proof.
  unfold g_key_file_get_string. destruct (decide _) as [[= -> ->]|Hne].
  - by rewrite lookup_delete_eq.
  - by rewrite lookup_delete_ne.
Qed.

(** X3.  A string preference that is set reads back as the value set;
    set to [NULL] it is removed and reads as its default; every other
    string preference reads as before. *)
Theorem prefs_set_get_string (p q : preference_t) (value : option string)
    (st : PrefsState) :
  (forall v, value = Some v -> g_utf8_validate G v = true) ->
  prefs_get_string G q (prefs_set_string G p value st)
  = if decide (q = p)
    then match value with
         | Some v => Some v
         | None => _get_default_string p
         end
    else prefs_get_string G q st.
Proof.
  intros Hvalid. unfold prefs_get_string, prefs_set_string, _save_prefs,
    set_prefs, g_key_file_remove_key. cbv zeta. stored.
  cbn [prefs].
  destruct value as [v|].
  - stored. rewrite get_string_insert. destruct (decide (q = p)) as [->|Hne].
    + rewrite decide_True by done. by rewrite Hvalid.
    + rewrite decide_False; [done|]. intros H. by apply Hne, pref_slot_inj.
  - rewrite get_string_delete. destruct (decide (q = p)) as [->|Hne].
    + rewrite decide_True by done. by destruct (_get_default_string p).
    + rewrite decide_False; [done|]. intros H. by apply Hne, pref_slot_inj.
Qed.

(** X6.  Whatever the key file holds, the sizes of the occupants and
    roster panels are read as percentages from 1 to 99, and the input
    block time and the auto-away time are never read as 0. *)
Theorem prefs_sizes_in_range (st : PrefsState) :
  1 <= prefs_get_occupants_size G st <= 99
  /\ 1 <= prefs_get_roster_size G st <= 99
  /\ prefs_get_inpblock G st <> 0
  /\ prefs_get_autoaway_time G st <> 0.
Proof.
  unfold prefs_get_occupants_size, prefs_get_roster_size, prefs_get_inpblock,
    prefs_get_autoaway_time, INPBLOCK_DEFAULT. cbv zeta.
  repeat case_bool_decide; cbn [orb]; lia.
Qed.

(** X4.  An alias is added under a name that is free.  When the name
    is one that the key file accepts as a key name, adding succeeds,
    makes the alias readable, and changes no other alias and no
    preference; adding it again is refused and changes nothing;
    removing it succeeds and restores the key file, after which a
    second removal is refused.  When the name is not accepted (an empty
    name, a name with [=] in it, a name that starts or ends with a
    space), [prefs_add_alias] answers [TRUE] all the same, but nothing
    is stored: the key file is as before, the alias does not read back,
    and adding it again is not refused. *)
Theorem prefs_alias_add_remove (name value value' : string)
    (st : PrefsState) :
  g_key_file_has_key (prefs st) PREF_GROUP_ALIAS name = false ->
  g_utf8_validate G value = true ->
  if g_key_file_is_key_name G name then
    exists st1,
      prefs_add_alias G name value st = (true, st1) /\
      prefs_get_alias G name st1 = Some value /\
      (forall other, other <> name ->
         prefs_get_alias G other st1 = prefs_get_alias G other st) /\
      (forall p, prefs_get_boolean G p st1 = prefs_get_boolean G p st
                 /\ prefs_get_string G p st1 = prefs_get_string G p st) /\
      prefs_add_alias G name value' st1 = (false, st1) /\
      exists st2,
        prefs_remove_alias name st1 = (true, st2) /\
        prefs st2 = prefs st /\
        prefs_remove_alias name st2 = (false, st2)
  else
    exists st1,
      prefs_add_alias G name value st = (true, st1) /\
      prefs st1 = prefs st /\
      prefs_get_alias G name st1 = None /\
      prefs_add_alias G name value' st1 = (true, st1).
Proof.
  intros Hfresh Hvalid.
  assert (Hnone : prefs st !! (PREF_GROUP_ALIAS, name) = None).
  { unfold g_key_file_has_key in Hfresh.
    apply bool_decide_eq_false in Hfresh.
    by apply eq_None_not_Some. }
  destruct (g_key_file_is_key_name G name) eqn:Hname.
  - unfold prefs_add_alias at 1. rewrite Hfresh.
    eexists. split; [reflexivity|].
    unfold prefs_get_alias, prefs_get_boolean, prefs_get_string,
      prefs_add_alias, prefs_remove_alias, _save_prefs, set_prefs,
      g_key_file_set_string, g_key_file_remove_key, g_key_file_get_boolean.
    rewrite !set_value_ok by done.
    cbv zeta. cbn [prefs log_maxsize profrc].
    split_and!.
    + by rewrite get_string_insert, decide_True, Hvalid.
    + intros other Hother. rewrite get_string_insert, decide_False; [done|].
      intros [= ?]. done.
    + intros p. rewrite has_key_insert, get_string_insert.
      rewrite !decide_False by apply pref_slot_not_alias.
      rewrite lookup_insert_ne; [done|]. apply not_eq_sym, pref_slot_not_alias.
    + by rewrite has_key_insert, decide_True.
    + rewrite has_key_insert, decide_True by done. cbn [negb].
      eexists. split; [reflexivity|]. cbn [prefs].
      rewrite delete_insert_eq, delete_id by done. split; [done|].
      unfold g_key_file_has_key. rewrite Hnone.
      rewrite bool_decide_eq_false_2; [done|]. by intros [? ?].
  - unfold prefs_add_alias, prefs_get_alias, _save_prefs, set_prefs,
      g_key_file_set_string, g_key_file_set_value, g_key_file_get_string.
    rewrite Hname, andb_false_r, Hfresh. cbn [prefs log_maxsize profrc].
    eexists. split_and!; [reflexivity|reflexivity| |];
      cbn [prefs]; by rewrite ?Hfresh, ?Hnone.
Qed.



Lemma get_integer_set_integer g k v (st : PrefsState) :
  g_key_file_is_group_name g = true -> g_key_file_is_key_name G k = true ->
  parse_integer G (show_integer G v) = Some v ->
  get_integer G (set_integer G g k v st) g k = v.
Proof.
  intros Hg Hk Hrt. unfold get_integer, set_integer, _save_prefs, set_prefs,
    g_key_file_get_integer, g_key_file_set_integer.
  rewrite set_value_ok by done. cbn [prefs].
  rewrite lookup_insert_eq. cbn. by rewrite Hrt.
Qed.

(** X7.  An integer setting that is written reads back as written,
    except where the getter replaces a value: 0 for the input block
    time and the auto-away time reads as the default, and a panel size
    outside 1..99 reads as the default size. *)
Theorem prefs_integers_read_back (v : Z) (st : PrefsState) :
  parse_integer G (show_integer G v) = Some v ->
  prefs_get_gone G (prefs_set_gone G v st) = v
  /\ prefs_get_notify_remind G (prefs_set_notify_remind G v st) = v
  /\ prefs_get_reconnect G (prefs_set_reconnect G v st) = v
  /\ prefs_get_autoping G (prefs_set_autoping G v st) = v
  /\ prefs_get_inpblock G (prefs_set_inpblock G v st)
     = (if bool_decide (v = 0) then 1000 else v)
  /\ prefs_get_autoaway_time G (prefs_set_autoaway_time G v st)
     = (if bool_decide (v = 0) then 15 else v)
  /\ prefs_get_occupants_size G (prefs_set_occupants_size G v st)
     = (if bool_decide (1 <= v <= 99) then v else 15)
  /\ prefs_get_roster_size G (prefs_set_roster_size G v st)
     = (if bool_decide (1 <= v <= 99) then v else 25).
Proof.
  intros Hrt.
  unfold prefs_get_gone, prefs_set_gone, prefs_get_notify_remind,
    prefs_set_notify_remind, prefs_get_reconnect, prefs_set_reconnect,
    prefs_get_autoping, prefs_set_autoping, prefs_get_inpblock,
    prefs_set_inpblock, prefs_get_autoaway_time, prefs_set_autoaway_time,
    prefs_get_occupants_size, prefs_set_occupants_size,
    prefs_get_roster_size, prefs_set_roster_size, INPBLOCK_DEFAULT.
  cbv zeta. rewrite !get_integer_set_integer by done.
  unfold set_integer, _save_prefs, set_prefs. stored.
  cbn [prefs]. rewrite !has_key_insert, !decide_True by done. cbn [negb].
  split_and!; try done.
  - repeat case_bool_decide; cbn [orb]; lia.
  - repeat case_bool_decide; cbn [orb]; lia.
Qed.

(** X9.  The OTR and PGP indicator characters read back as set when
    the character is valid UTF-8 and as the tilde otherwise, and
    setting one of them leaves the other as it was. *)
Theorem prefs_chars_read_back (ch : ascii) (st : PrefsState) :
  prefs_get_otr_char G (prefs_set_otr_char G ch st)
  = (if g_utf8_validate G (char_string ch) then ch else "~"%char)
  /\ prefs_get_pgp_char G (prefs_set_pgp_char G ch st)
     = (if g_utf8_validate G (char_string ch) then ch else "~"%char)
  /\ prefs_get_pgp_char G (prefs_set_otr_char G ch st)
     = prefs_get_pgp_char G st
  /\ prefs_get_otr_char G (prefs_set_pgp_char G ch st)
     = prefs_get_otr_char G st.
Proof.
  unfold prefs_get_otr_char, prefs_set_otr_char, prefs_get_pgp_char,
    prefs_set_pgp_char, _save_prefs, set_prefs.
  cbv zeta. stored. cbn [prefs]. rewrite !get_string_insert.
  rewrite !decide_True by done. rewrite !decide_False by done.
  assert (Hfc : first_char (char_string ch) = ch).
  { unfold char_string. case_bool_decide; [by subst|done]. }
  destruct (g_utf8_validate G (char_string ch)); by rewrite ?Hfc.
Qed.

(** The steps of [prefs_load] and the keys they touch. *)
Lemma get_string_ext (kf kf' : GKeyFile) (g k : string) :
  kf' !! (g, k) = kf !! (g, k) ->
  g_key_file_get_string G kf' g k = g_key_file_get_string G kf g k.
Proof. unfold g_key_file_get_string. by intros ->. Qed.

Lemma has_key_ext (kf kf' : GKeyFile) (g k : string) :
  kf' !! (g, k) = kf !! (g, k) ->
  g_key_file_has_key kf' g k = g_key_file_has_key kf g k.
Proof. unfold g_key_file_has_key. by intros ->. Qed.

Lemma migrate_time_other (key : string) (kf : GKeyFile)
    (slot : string * string) :
  slot <> (PREF_GROUP_UI, key) -> migrate_time G key kf !! slot = kf !! slot.
Proof.
  intros Hne. unfold migrate_time, g_key_file_set_string,
    g_key_file_set_value. cbv zeta.
  repeat case_match; try done; by rewrite lookup_insert_ne.
Qed.

Lemma migrate_time_fixed (key : string) (kf : GKeyFile) :
  g_key_file_get_string G kf PREF_GROUP_UI key <> Some "minutes" ->
  g_key_file_get_string G kf PREF_GROUP_UI key <> Some "seconds" ->
  g_key_file_get_string G kf PREF_GROUP_UI key <> Some "off" ->
  migrate_time G key kf = kf.
Proof.
  intros H1 H2 H3. unfold migrate_time. cbv zeta.
  rewrite !bool_decide_eq_false_2 by done. by case_match.
Qed.

Lemma migrate_time_done (key : string) (kf : GKeyFile) :
  g_key_file_is_key_name G key = true ->
  let v := g_key_file_get_string G (migrate_time G key kf) PREF_GROUP_UI key in
  v <> Some "minutes" /\ v <> Some "seconds" /\ v <> Some "off".
Proof.
  intros Hkey. cbv zeta. unfold migrate_time, g_key_file_set_string.
  rewrite !set_value_ok by done. cbv zeta.
  destruct (g_key_file_has_key kf PREF_GROUP_UI key) eqn:Hk.
  2:{ unfold g_key_file_has_key in Hk. apply bool_decide_eq_false in Hk.
      unfold g_key_file_get_string.
      destruct (kf !! (PREF_GROUP_UI, key)); [exfalso; eauto|done]. }
  repeat case_bool_decide; rewrite ?get_string_insert, ?decide_True by done;
    try (destruct (g_utf8_validate G _); done).
  done.
Qed.

Lemma migrate_time_idemp (key : string) (kf kf' : GKeyFile) :
  g_key_file_is_key_name G key = true ->
  kf' !! (PREF_GROUP_UI, key) = migrate_time G key kf !! (PREF_GROUP_UI, key) ->
  migrate_time G key kf' = kf'.
Proof.
  intros Hkey Heq.
  destruct (migrate_time_done key kf Hkey) as (H1 & H2 & H3).
  apply migrate_time_fixed; by rewrite (get_string_ext _ _ _ _ Heq).
Qed.

(** X8.  Loading the preferences migrates the file once: loading the
    file that a load has written gives the same preferences, with
    nothing left to migrate. *)
Theorem prefs_load_idempotent (file : GKeyFile) :
  prefs_load G (profrc (prefs_load G file)) = prefs_load G file.
Proof.
  unfold prefs_load at 2. cbv zeta. cbn [_save_prefs prefs log_maxsize profrc].
  set (o := match g_key_file_get_boolean G file PREF_GROUP_UI "otr.warn" with
            | Some otr_warn => _
            | None => file
            end).
  set (P := migrate_time G "time.statusbar" (migrate_time G "time" o)).
  assert (Hwarn : g_key_file_get_boolean G P PREF_GROUP_UI "otr.warn" = None).
  { unfold g_key_file_get_boolean, P.
    rewrite !migrate_time_other by done. unfold o.
    destruct (g_key_file_get_boolean G file PREF_GROUP_UI "otr.warn")
      as [b|] eqn:Hb.
    - unfold g_key_file_remove_key. by rewrite lookup_delete_eq.
    - exact Hb. }
  assert (Hsize : g_key_file_get_integer G P PREF_GROUP_LOGGING "maxsize"
                  = g_key_file_get_integer G file PREF_GROUP_LOGGING "maxsize").
  { unfold g_key_file_get_integer, P.
    rewrite !migrate_time_other by done. unfold o.
    destruct (g_key_file_get_boolean G file PREF_GROUP_UI "otr.warn"); [|done].
    unfold g_key_file_remove_key. stored.
    rewrite lookup_delete_ne by done. by rewrite lookup_insert_ne. }
  unfold prefs_load. cbv zeta. rewrite Hwarn, Hsize.
  rewrite (migrate_time_idemp "time" o P); [|done|].
  2:{ unfold P. by rewrite migrate_time_other. }
  rewrite (migrate_time_idemp "time.statusbar" (migrate_time G "time" o) P)
    by done.
  done.
Qed.

Lemma prefs_load_stable (kf : GKeyFile) :
  g_key_file_get_boolean G kf PREF_GROUP_UI "otr.warn" = None ->
  (forall key, key = "time" \/ key = "time.statusbar" ->
     g_key_file_get_string G kf PREF_GROUP_UI key <> Some "minutes"
     /\ g_key_file_get_string G kf PREF_GROUP_UI key <> Some "seconds"
     /\ g_key_file_get_string G kf PREF_GROUP_UI key <> Some "off") ->
  prefs (prefs_load G kf) = kf.
Proof.
  intros Hwarn Htime. unfold prefs_load. cbv zeta. rewrite Hwarn.
  cbn [_save_prefs prefs].
  destruct (Htime "time") as (? & ? & ?); [by left|].
  destruct (Htime "time.statusbar") as (? & ? & ?); [by right|].
  rewrite (migrate_time_fixed "time") by done.
  by rewrite migrate_time_fixed.
Qed.

Lemma prefs_load_loaded (file : GKeyFile) :
  let P := prefs (prefs_load G file) in
  g_key_file_get_boolean G P PREF_GROUP_UI "otr.warn" = None
  /\ forall key, key = "time" \/ key = "time.statusbar" ->
       g_key_file_get_string G P PREF_GROUP_UI key <> Some "minutes"
       /\ g_key_file_get_string G P PREF_GROUP_UI key <> Some "seconds"
       /\ g_key_file_get_string G P PREF_GROUP_UI key <> Some "off".
Proof.
  cbv zeta. unfold prefs_load. cbv zeta. cbn [_save_prefs prefs].
  set (o := match g_key_file_get_boolean G file PREF_GROUP_UI "otr.warn" with
            | Some otr_warn => _
            | None => file
            end).
  split.
  - unfold g_key_file_get_boolean.
    rewrite !migrate_time_other by done. unfold o.
    destruct (g_key_file_get_boolean G file PREF_GROUP_UI "otr.warn")
      as [b|] eqn:Hb.
    + unfold g_key_file_remove_key. by rewrite lookup_delete_eq.
    + exact Hb.
  - intros key [->| ->].
    + rewrite !(get_string_ext (migrate_time G "time" o)
                  (migrate_time G "time.statusbar" (migrate_time G "time" o)))
        by (by apply migrate_time_other).
      by apply migrate_time_done.
    + by apply migrate_time_done.
Qed.

Lemma pref_slot_not_otr_warn (p : preference_t) :
  (_get_group p, _get_key p) <> (PREF_GROUP_UI, "otr.warn").
Proof. destruct p; discriminate. Qed.

(** X10.  A preference that is set after a load is saved to the file
    and survives the next load: a boolean preference other than the two
    time formats reads as the value set, and so does a string
    preference, the time formats included unless the value is one of
    the words [minutes], [seconds] and [off], which a load rewrites. *)
Theorem prefs_survive_reload (file : GKeyFile) (pb ps : preference_t)
    (v : bool) (s : string) :
  parse_boolean G (show_boolean G v) = Some v ->
  pb <> PREF_TIME -> pb <> PREF_TIME_STATUSBAR ->
  g_utf8_validate G s = true ->
  (ps = PREF_TIME \/ ps = PREF_TIME_STATUSBAR ->
   s <> "minutes" /\ s <> "seconds" /\ s <> "off") ->
  let st := prefs_load G file in
  prefs_get_boolean G pb
    (prefs_load G (profrc (prefs_set_boolean G pb v st))) = v
  /\ prefs_get_string G ps
       (prefs_load G (profrc (prefs_set_string G ps (Some s) st))) = Some s.
Proof.
  intros Hrt Hpb1 Hpb2 Hvalid Hlegacy. cbv zeta.
  destruct (prefs_load_loaded file) as [Hwarn Htime].
  set (st := prefs_load G file) in *.
  split.
  - assert (Hst : prefs (prefs_load G
                           (profrc (prefs_set_boolean G pb v st)))
                  = <[(_get_group pb, _get_key pb) := show_boolean G v]>
                      (prefs st)).
    { unfold prefs_set_boolean, _save_prefs, set_prefs.
      cbv zeta. stored. cbn [prefs profrc].
      apply prefs_load_stable.
      - unfold g_key_file_get_boolean in *.
        rewrite lookup_insert_ne; [done|]. apply pref_slot_not_otr_warn.
      - intros key Hkey.
        rewrite (get_string_ext (prefs st)); [by apply Htime|].
        apply lookup_insert_ne.
        destruct Hkey as [-> | ->]; intros H.
        + by apply Hpb1, pref_slot_inj.
        + by apply Hpb2, pref_slot_inj. }
    unfold prefs_get_boolean, g_key_file_has_key, g_key_file_get_boolean.
    cbv zeta. rewrite Hst, lookup_insert_eq.
    rewrite bool_decide_eq_true_2 by eauto. cbn. by rewrite Hrt.
  - assert (Hst : prefs (prefs_load G
                           (profrc (prefs_set_string G ps (Some s) st)))
                  = <[(_get_group ps, _get_key ps) := s]> (prefs st)).
    { unfold prefs_set_string, _save_prefs, set_prefs.
      cbv zeta. stored. cbn [prefs profrc].
      apply prefs_load_stable.
      - unfold g_key_file_get_boolean in *.
        rewrite lookup_insert_ne; [done|]. apply pref_slot_not_otr_warn.
      - intros key Hkey. rewrite get_string_insert.
        destruct (decide _) as [Heq|Hne]; [|by apply Htime].
        rewrite Hvalid.
        assert (Hps : ps = PREF_TIME \/ ps = PREF_TIME_STATUSBAR).
        { destruct Hkey as [-> | ->]; [left|right];
            by apply pref_slot_inj. }
        destruct (Hlegacy Hps) as (? & ? & ?).
        split_and!; congruence. }
    unfold prefs_get_string. cbv zeta.
    by rewrite Hst, get_string_insert, decide_True, Hvalid.
Qed.

(** X11.  The maximal log size that is reported is never below the
    minimum: a value below it is replaced by the maximum.  The value
    that is set is saved, and is what the next load reads. *)
Theorem prefs_max_log_size (PREFS_MIN_LOG_SIZE PREFS_MAX_LOG_SIZE v : Z)
    (st : PrefsState) :
  PREFS_MIN_LOG_SIZE <= PREFS_MAX_LOG_SIZE ->
  parse_integer G (show_integer G v) = Some v ->
  PREFS_MIN_LOG_SIZE
  <= prefs_get_max_log_size PREFS_MIN_LOG_SIZE PREFS_MAX_LOG_SIZE st
  /\ prefs_get_max_log_size PREFS_MIN_LOG_SIZE PREFS_MAX_LOG_SIZE
       (prefs_set_max_log_size G v st)
     = (if bool_decide (v < PREFS_MIN_LOG_SIZE) then PREFS_MAX_LOG_SIZE
        else v)
  /\ log_maxsize (prefs_load G (profrc (prefs_set_max_log_size G v st))) = v.
Proof.
  intros Hle Hrt. unfold prefs_get_max_log_size, prefs_set_max_log_size,
    prefs_load, _save_prefs, g_key_file_get_integer.
  cbv zeta. stored. cbn [prefs log_maxsize profrc].
  split_and!.
  - case_bool_decide; lia.
  - done.
  - rewrite lookup_insert_eq. cbn. by rewrite Hrt.
Qed.

End WithGLib.

Lemma prefs_set_get_boolean_witness :
  prefs_get_boolean glib0 PREF_BEEP
    (prefs_set_boolean glib0 PREF_FLASH true prefs0)
  = if decide (PREF_BEEP = PREF_FLASH) then true
    else prefs_get_boolean glib0 PREF_BEEP prefs0.
Proof.
  apply (prefs_set_get_boolean glib0 PREF_FLASH PREF_BEEP true prefs0).
  reflexivity.
Defined.

Lemma prefs_set_get_string_witness :
  prefs_get_string glib0 PREF_THEME
    (prefs_set_string glib0 PREF_THEME (Some "boothj5") prefs0)
  = if decide (PREF_THEME = PREF_THEME) then Some "boothj5"
    else prefs_get_string glib0 PREF_THEME prefs0.
Proof.
  apply (prefs_set_get_string glib0 PREF_THEME PREF_THEME (Some "boothj5")
           prefs0).
  intros v [= <-]. reflexivity.
Defined.

Lemma prefs_alias_add_remove_witness :
  (exists st1,
     prefs_add_alias glib0 "w" "/wins" prefs0 = (true, st1) /\
     prefs_get_alias glib0 "w" st1 = Some "/wins" /\
     (forall other, other <> "w" ->
        prefs_get_alias glib0 other st1 = prefs_get_alias glib0 other prefs0) /\
     (forall p, prefs_get_boolean glib0 p st1 = prefs_get_boolean glib0 p prefs0
                /\ prefs_get_string glib0 p st1
                   = prefs_get_string glib0 p prefs0) /\
     prefs_add_alias glib0 "w" "/who" st1 = (false, st1) /\
     exists st2,
       prefs_remove_alias "w" st1 = (true, st2) /\
       prefs st2 = prefs prefs0 /\
       prefs_remove_alias "w" st2 = (false, st2)) /\
  (exists st1,
     prefs_add_alias glib0 "a=b" "/wins" prefs0 = (true, st1) /\
     prefs st1 = prefs prefs0 /\
     prefs_get_alias glib0 "a=b" st1 = None /\
     prefs_add_alias glib0 "a=b" "/who" st1 = (true, st1)).
Proof.
  split.
  - apply (prefs_alias_add_remove glib0 "w" "/wins" "/who" prefs0);
      reflexivity.
  - apply (prefs_alias_add_remove glib0 "a=b" "/wins" "/who" prefs0);
      reflexivity.
Defined.

Lemma prefs_integers_read_back_witness :
  prefs_get_gone glib0 (prefs_set_gone glib0 120 prefs0) = 120
  /\ prefs_get_notify_remind glib0 (prefs_set_notify_remind glib0 120 prefs0)
     = 120
  /\ prefs_get_reconnect glib0 (prefs_set_reconnect glib0 120 prefs0) = 120
  /\ prefs_get_autoping glib0 (prefs_set_autoping glib0 120 prefs0) = 120
  /\ prefs_get_inpblock glib0 (prefs_set_inpblock glib0 120 prefs0)
     = (if bool_decide (120 = 0) then 1000 else 120)
  /\ prefs_get_autoaway_time glib0 (prefs_set_autoaway_time glib0 120 prefs0)
     = (if bool_decide (120 = 0) then 15 else 120)
  /\ prefs_get_occupants_size glib0
       (prefs_set_occupants_size glib0 120 prefs0)
     = (if bool_decide (1 <= 120 <= 99) then 120 else 15)
  /\ prefs_get_roster_size glib0 (prefs_set_roster_size glib0 120 prefs0)
     = (if bool_decide (1 <= 120 <= 99) then 120 else 25).
Proof.
  apply (prefs_integers_read_back glib0 120 prefs0). reflexivity.
Defined.

Lemma prefs_survive_reload_witness :
  let st := prefs_load glib0 profrc0 in
  prefs_get_boolean glib0 PREF_BEEP
    (prefs_load glib0 (profrc (prefs_set_boolean glib0 PREF_BEEP false st)))
  = false
  /\ prefs_get_string glib0 PREF_TIME
       (prefs_load glib0
          (profrc (prefs_set_string glib0 PREF_TIME (Some "%H") st)))
     = Some "%H".
Proof.
  apply (prefs_survive_reload glib0 profrc0 PREF_BEEP PREF_TIME false "%H").
  - reflexivity.
  - discriminate.
  - discriminate.
  - reflexivity.
  - intros _. split_and!; discriminate.
Defined.

Lemma prefs_max_log_size_witness :
  64 <= prefs_get_max_log_size 64 1048580 prefs0
  /\ prefs_get_max_log_size 64 1048580 (prefs_set_max_log_size glib0 10 prefs0)
     = (if bool_decide (10 < 64) then 1048580 else 10)
  /\ log_maxsize
       (prefs_load glib0 (profrc (prefs_set_max_log_size glib0 10 prefs0)))
     = 10.
Proof.
  apply (prefs_max_log_size glib0 64 1048580 10 prefs0).
  - lia.
  - reflexivity.
Defined.

End PrefsFacts.

(** * Closing many windows at once *)

Lemma wp_ui_win_has_unsaved_form n w (Q : bool -> State -> Prop) st :
  windows st !! n = Some w ->
  conf_form w <> Some None ->
  Q (unsaved_form_win w) st ->
  wp (ui_win_has_unsaved_form n) Q st.
Proof.
  intros Hw Hform HQ. unfold ui_win_has_unsaved_form, wins_get_by_num.
  wp_steps. rewrite Hw. wp_steps.
  unfold unsaved_form_win in HQ.
  destruct w as [[| | |[rj [f|]]| |] b]; cbn [kind form] in *; wp_steps;
    done.
Qed.

Lemma rooms_unique_elim st :
  rooms_unique st ->
  forall m n wm wn room,
    windows st !! m = Some wm -> windows st !! n = Some wn ->
    is_muc_for room wm = true -> is_muc_for room wn = true -> m = n.
Proof.
  intros Hu m n wm wn room Hm Hn Pm Pn.
  pose proof (map_Forall_lookup_1 _ _ _ _ Hu Hm) as Fm.
  pose proof (map_Forall_lookup_1 _ _ _ _ Hu Hn) as Fn.
  unfold room_window_found, is_muc_for in *.
  destruct (kind wm) as [| |mm| | |]; try done.
  destruct (kind wn) as [| |mn| | |]; try done.
  apply bool_decide_eq_true in Fm, Fn, Pm, Pn. congruence.
Qed.

Section Closing.
Context (E : Externals).

Lemma wp_wins_close_by_num num (Q : unit -> State -> Prop) st :
  num <> 1 ->
  Q tt (set_windows (delete num (windows st))
          (if bool_decide (num = current st) then set_current 1 st else st)) ->
  wp (wins_close_by_num num) Q st.
Proof.
  intros Hne HQ. unfold wp, wins_close_by_num.
  rewrite bool_decide_eq_false_2 by done. cbv zeta.
  by destruct (bool_decide (num = current st)).
Qed.

Lemma wp_ui_close_win num (Q : unit -> State -> Prop) st :
  num <> 1 ->
  (forall st',
     windows st' = delete num (windows st) ->
     current st' = (if bool_decide (num = current st) then 1 else current st) ->
     conn_status st' = conn_status st ->
     Q tt st') ->
  wp (ui_close_win num) Q st.
Proof.
  intros Hne HQ.
  unfold ui_close_win, wins_get_by_num, cmd_autocomplete_remove_form_fields.
  wp_steps.
  destruct (windows st !! num) as [[[| | |[rj [f|]]| |] b]|] eqn:Hw.
  all: wp_steps.
  all: apply wp_wins_close_by_num; [done|]; wp_steps.
  all: apply HQ; prof_cbn; by case_bool_decide.
Qed.

Lemma wp_ui_close_connected_win num w (Q : unit -> State -> Prop) st :
  windows st !! num = Some w -> num <> 1 ->
  (forall m wm room,
     windows st !! m = Some wm -> is_muc_for room wm = true ->
     is_muc_for room w = true -> m = num) ->
  (forall st' (closed : bool),
     windows st' = (if closed then delete num (windows st) else windows st) ->
     current st' = (if closed && bool_decide (num = current st) then 1
                    else current st) ->
     conn_status st' = conn_status st ->
     Q tt st') ->
  wp (ui_close_connected_win E num) Q st.
Proof.
  intros Hw Hne Huniq HQ.
  unfold ui_close_connected_win, ui_leave_room, wins_get_by_num.
  wp_steps. rewrite Hw. wp_steps.
  destruct w as [[|c|mw|cw|p|] b]; cbn [kind] in *.
  all: wp_steps.
  all: try (apply (HQ _ false); prof_cbn; done).
  - unfold muc_leave. wp_steps.
    assert (Hfind : wins_get_muc (roomjid mw) st = Some num).
    { eapply wins_find_unique; [exact Hw| |].
      - unfold is_muc_for. cbn. by apply bool_decide_eq_true_2.
      - intros m w' Hm HP. eapply Huniq; [exact Hm|exact HP|].
        unfold is_muc_for. cbn. by apply bool_decide_eq_true_2. }
    rewrite Hfind. apply wp_ui_close_win; [done|].
    intros st' Hws Hc Hcs. apply (HQ _ true); done.
Qed.

Lemma wp_close_one {A} status num w (k : unit -> prof A)
    (Q : A -> State -> Prop) st :
  windows st !! num = Some w -> num <> 1 ->
  (forall m wm room,
     windows st !! m = Some wm -> is_muc_for room wm = true ->
     is_muc_for room w = true -> m = num) ->
  (forall st',
     windows st' = delete num (windows st) ->
     current st' = (if bool_decide (num = current st) then 1 else current st) ->
     conn_status st' = conn_status st ->
     wp (k tt) Q st') ->
  wp (bind (when (bool_decide (status = JABBER_CONNECTED))
              (ui_close_connected_win E num))
           (fun _ => bind (ui_close_win num) k)) Q st.
Proof.
  intros Hw Hne Huniq HQ. apply wp_bind.
  destruct (bool_decide (status = JABBER_CONNECTED)); unfold when.
  - eapply wp_ui_close_connected_win; [exact Hw|done|exact Huniq|].
    intros s1 closed Hws1 Hc1 Hcs1. apply wp_bind.
    apply wp_ui_close_win; [done|]. intros s2 Hws2 Hc2 Hcs2.
    apply HQ.
    + rewrite Hws2, Hws1. destruct closed; [apply delete_delete_eq|done].
    + rewrite Hc2, Hc1. destruct closed; cbn [andb];
        repeat case_bool_decide; congruence.
    + congruence.
  - wp_steps. apply wp_bind. by apply wp_ui_close_win.
Qed.

Lemma close_wins_loop_spec (closable : Z -> prof bool)
    (c : Z -> ProfWin -> bool) status :
  (forall num w st (Q : bool -> State -> Prop),
     windows st !! num = Some w -> conf_form w <> Some None ->
     Q (c num w) st -> wp (closable num) Q st) ->
  (forall w, c 1 w = false) ->
  forall l count st,
    NoDup l ->
    (forall n, n ∈ l -> is_Some (windows st !! n)) ->
    (forall m n wm wn room,
       windows st !! m = Some wm -> windows st !! n = Some wn ->
       is_muc_for room wm = true -> is_muc_for room wn = true -> m = n) ->
    forms_present st ->
    is_Some (windows st !! 1) ->
    is_Some (windows st !! current st) ->
    wp (close_wins_loop E closable status l count)
       (fun r st' =>
          (forall n, windows st' !! n
                     = if bool_decide (n ∈ l) then after_close c (windows st) n
                       else windows st !! n) /\
          r = count + Z.of_nat (size (windows st))
              - Z.of_nat (size (windows st')) /\
          current st'
          = (if bool_decide (is_Some (windows st' !! current st))
             then current st else 1) /\
          conn_status st' = conn_status st) st.
Proof.
  intros Hclosable Hc1 l.
  induction l as [|num next IH];
    intros count st Hnd Hopen Huniq Hforms Hcons Hcur;
    cbn [close_wins_loop].
  - wp_steps. split_and!; [done|lia| |done].
    by rewrite bool_decide_eq_true_2.
  - apply NoDup_cons in Hnd as [Hnotin Hnd].
    destruct (Hopen num) as [w Hw]; [by left|].
    apply wp_bind. eapply Hclosable; [exact Hw| |].
    { by apply (map_Forall_lookup_1 _ _ _ _ Hforms Hw). }
    destruct (c num w) eqn:Hc.
    + assert (Hne : num <> 1) by (intros ->; by rewrite Hc1 in Hc).
      eapply wp_close_one; [exact Hw|done| |].
      { intros m wm room Hm Pm Pw. by eapply Huniq. }
      intros s1 Hws1 Hc1' Hcs1. cbv beta.
      eapply wp_mono.
      { apply (IH (count + 1) s1); [done| | | | |].
        - intros n Hn. rewrite Hws1, lookup_delete_ne; [|by intros <-].
          apply Hopen. by right.
        - intros m n wm wn room. rewrite Hws1. intros Hm Hn.
          apply lookup_delete_Some in Hm as [_ Hm], Hn as [_ Hn]. by eapply Huniq.
        - unfold forms_present. rewrite Hws1.
          intros n wn Hn. apply lookup_delete_Some in Hn as [_ Hn].
          by apply (map_Forall_lookup_1 _ _ _ _ Hforms Hn).
        - rewrite Hws1. by rewrite lookup_delete_ne.
        - rewrite Hc1', Hws1. case_bool_decide as Hcn.
          + by rewrite lookup_delete_ne.
          + rewrite lookup_delete_ne by done. done. }
      intros r st' (Hws & Hr & Hcur' & Hcs). split_and!.
      * intros n. rewrite Hws. unfold after_close. rewrite Hws1.
        destruct (decide (n = num)) as [->|Hn].
        -- rewrite (bool_decide_eq_false_2 (num ∈ next)) by done.
           rewrite bool_decide_eq_true_2 by (by left).
           by rewrite lookup_delete_eq, Hw, Hc.
        -- rewrite lookup_delete_ne by done.
           destruct (decide (n ∈ next)).
           ++ rewrite !bool_decide_eq_true_2; [done| by right | done].
           ++ rewrite !bool_decide_eq_false_2; [done| |done].
              intros [?|?]%elem_of_cons; done.
      * rewrite Hr, Hws1, map_size_delete_Some by eauto.
        assert (size (windows st) <> 0%nat).
        { apply map_size_ne_0_lookup. eauto. }
        lia.
      * rewrite Hcur', Hc1'. destruct (decide (num = current st)) as [Hcn|Hcn].
        -- rewrite (bool_decide_eq_true_2 (num = current st)) by done.
           rewrite <- Hcn.
           rewrite (bool_decide_eq_false_2 (is_Some (windows st' !! num))).
           ++ by destruct (bool_decide (is_Some (windows st' !! 1))).
           ++ rewrite Hws. rewrite bool_decide_eq_false_2 by done.
              rewrite Hws1, lookup_delete_eq. by intros [? ?].
        -- by rewrite (bool_decide_eq_false_2 (num = current st)).
      * congruence.
    + eapply wp_mono; [apply IH; try done; intros n Hn; apply Hopen; by right|].
      intros r st' (Hws & Hr & Hcur' & Hcs). split_and!; try done.
      intros n. rewrite Hws. unfold after_close.
      destruct (decide (n = num)) as [->|Hn].
      * rewrite (bool_decide_eq_false_2 (num ∈ next)) by done.
        rewrite bool_decide_eq_true_2 by (by left). by rewrite Hw, Hc.
      * destruct (decide (n ∈ next)).
        -- rewrite !bool_decide_eq_true_2; [done| by right | done].
        -- rewrite !bool_decide_eq_false_2; [done| |done].
           intros [?|?]%elem_of_cons; done.
Qed.

Lemma close_wins_run (closable : Z -> prof bool)
    (c : Z -> ProfWin -> bool) st :
  (forall num w st (Q : bool -> State -> Prop),
     windows st !! num = Some w -> conf_form w <> Some None ->
     Q (c num w) st -> wp (closable num) Q st) ->
  (forall w, c 1 w = false) ->
  rooms_unique st -> forms_present st ->
  is_Some (windows st !! 1) -> current_open st ->
  wp (close_wins_loop E closable (conn_status st) (wins_get_nums st) 0)
     (fun count st' =>
        (forall n, windows st' !! n = after_close c (windows st) n) /\
        count = Z.of_nat (size (windows st)) - Z.of_nat (size (windows st')) /\
        current st'
        = (if bool_decide (is_Some (windows st' !! current st))
           then current st else 1) /\
        conn_status st' = conn_status st) st.
Proof.
  intros Hclosable Hc1 Huniq Hforms Hcons Hcur.
  eapply wp_mono.
  { apply (close_wins_loop_spec closable c); try done.
    - unfold wins_get_nums. apply NoDup_elements.
    - unfold wins_get_nums. intros n Hn.
      by apply elem_of_dom, elem_of_elements.
    - by apply rooms_unique_elim. }
  intros count st' (Hws & Hcount & Hcur' & Hcs). split_and!; try done.
  - intros n. rewrite Hws.
    destruct (bool_decide (n ∈ wins_get_nums st)) eqn:Hn; [done|].
    apply bool_decide_eq_false in Hn.
    unfold after_close. destruct (windows st !! n) eqn:Hl; [|done].
    exfalso. apply Hn. unfold wins_get_nums.
    apply elem_of_elements, elem_of_dom. eauto.
Qed.

(** X12.  [ui_close_all_wins] closes every window except the console
    and the room-configuration windows with unsaved changes, keeps all
    the others as they were, returns the number of windows it closed,
    and leaves the focus on the current window when that one stays open
    and on the console otherwise. *)
Theorem ui_close_all_wins_spec (st : State) :
  rooms_unique st -> forms_present st ->
  console_open st -> current_open st ->
  exists count st',
    ui_close_all_wins E st = Some (count, st') /\
    (forall n, windows st' !! n = after_close closable_all (windows st) n) /\
    count = Z.of_nat (size (windows st)) - Z.of_nat (size (windows st')) /\
    current st'
    = (if bool_decide (is_Some (windows st' !! current st))
       then current st else 1).
Proof.
  intros Huniq Hforms [b Hcons] Hcur.
  apply wp_run. unfold ui_close_all_wins. wp_steps.
  eapply wp_mono.
  { apply (close_wins_run _ closable_all); [| |done|done|eauto|done].
    - intros num w s Q Hw Hform HQ. unfold closable_all in HQ.
      case_bool_decide; cbn [andb] in HQ.
      + wp_steps. eapply wp_ui_win_has_unsaved_form; [exact Hw|done|].
        by wp_steps.
      + by wp_steps.
    - intros w. unfold closable_all.
      by rewrite (bool_decide_eq_false_2 (1 ≠ 1)) by (intros H; by apply H). }
  intros count st' (Hws & Hcount & Hcur' & _). done.
Qed.

(** X13.  [ui_close_read_wins] closes exactly the windows, other than
    the console, that have no unread message and no unsaved form, keeps
    all the others as they were, returns the number of windows it
    closed, and leaves the focus on the current window when that one
    stays open and on the console otherwise. *)
Theorem ui_close_read_wins_spec (st : State) :
  rooms_unique st -> forms_present st ->
  console_open st -> current_open st ->
  exists count st',
    ui_close_read_wins E st = Some (count, st') /\
    (forall n, windows st' !! n = after_close closable_read (windows st) n) /\
    count = Z.of_nat (size (windows st)) - Z.of_nat (size (windows st')) /\
    current st'
    = (if bool_decide (is_Some (windows st' !! current st))
       then current st else 1).
Proof.
  intros Huniq Hforms [b Hcons] Hcur.
  apply wp_run. unfold ui_close_read_wins. wp_steps.
  eapply wp_mono.
  { apply (close_wins_run _ closable_read); [| |done|done|eauto|done].
    - intros num w s Q Hw Hform HQ. unfold closable_read in HQ.
      wp_steps. unfold ui_win_unread, wins_get_by_num.
      rewrite Hw. cbn. rewrite Hw. cbn.
      destruct (bool_decide (num ≠ 1) && bool_decide (win_unread w = 0));
        cbn [andb] in HQ.
      + wp_steps. eapply wp_ui_win_has_unsaved_form; [exact Hw|done|].
        by wp_steps.
      + by wp_steps.
    - intros w. unfold closable_read.
      by rewrite (bool_decide_eq_false_2 (1 ≠ 1)) by (intros H; by apply H). }
  intros count st' (Hws & Hcount & Hcur' & _). done.
Qed.

End Closing.

Lemma ui_close_all_wins_spec_witness :
  exists count st',
    ui_close_all_wins E0 st0 = Some (count, st') /\
    (forall n, windows st' !! n = after_close closable_all (windows st0) n) /\
    count = Z.of_nat (size (windows st0)) - Z.of_nat (size (windows st')) /\
    current st'
    = (if bool_decide (is_Some (windows st' !! current st0))
       then current st0 else 1).
Proof.
  apply (ui_close_all_wins_spec E0 st0).
  - apply (bool_decide_unpack _). vm_compute. exact I.
  - apply (bool_decide_unpack _). vm_compute. exact I.
  - eexists. vm_compute. reflexivity.
  - eexists. vm_compute. reflexivity.
Defined.

Lemma ui_close_read_wins_spec_witness :
  exists count st',
    ui_close_read_wins E0 st0 = Some (count, st') /\
    (forall n, windows st' !! n = after_close closable_read (windows st0) n) /\
    count = Z.of_nat (size (windows st0)) - Z.of_nat (size (windows st')) /\
    current st'
    = (if bool_decide (is_Some (windows st' !! current st0))
       then current st0 else 1).
Proof.
  apply (ui_close_read_wins_spec E0 st0).
  - apply (bool_decide_unpack _). vm_compute. exact I.
  - apply (bool_decide_unpack _). vm_compute. exact I.
  - eexists. vm_compute. reflexivity.
  - eexists. vm_compute. reflexivity.
Defined.

(** * Leaving a room *)

Lemma ui_close_muc_win_run room n w st :
  windows st !! n = Some w -> is_muc_for room w = true -> n <> 1 ->
  ui_close_win n st
  = Some (tt, set_trace (trace st ++ [TitleBarConsole; StatusBarCurrent 1;
                                      StatusBarActive 1])
                (set_windows (delete n (windows st))
                   (set_current (if bool_decide (n = current st) then 1
                                 else current st) st))).
Proof.
  intros Hw HP Hne.
  assert (wp (ui_close_win n)
            (fun _ st' =>
               st' = set_trace (trace st ++ [TitleBarConsole;
                                             StatusBarCurrent 1;
                                             StatusBarActive 1])
                       (set_windows (delete n (windows st))
                          (set_current (if bool_decide (n = current st)
                                        then 1 else current st) st))) st)
    as H.
  2:{ apply wp_run in H as ([] & st' & -> & ->). done. }
  unfold ui_close_win, wins_get_by_num. wp_steps. rewrite Hw. wp_steps.
  destruct w as [[| |mw| | |] b]; try done. cbn [kind]. wp_steps.
  unfold wp, wins_close_by_num. rewrite bool_decide_eq_false_2 by done.
  cbv zeta. destruct (bool_decide (n = current st)); cbn; state_eq.
Qed.

Lemma wins_get_muc_delete room n st :
  (forall m wm, windows st !! m = Some wm -> is_muc_for room wm = true ->
                m = n) ->
  wins_find (is_muc_for room) (delete n (windows st)) = None.
Proof.
  intros Hu. apply wins_find_None. intros m w Hm.
  destruct (decide (m = n)) as [->|Hne].
  - by rewrite lookup_delete_eq in Hm.
  - rewrite lookup_delete_ne in Hm by done.
    destruct (is_muc_for room w) eqn:HP; [|done].
    by specialize (Hu _ _ Hm HP).
Qed.

Lemma wins_find_insert_other P (ws : gmap Z ProfWin) n w w' :
  ws !! n = Some w -> P w = false -> P w' = false ->
  wins_find P (<[n := w']> ws) = wins_find P ws.
Proof. intros Hw H1 H2. apply (wins_find_insert_same P ws n w w'); congruence. Qed.

(** X14.  Whatever ends our stay in a room, the room leaves the table of
    rooms and its window is closed. *)
Theorem room_departure (room : string) (d : departure) (st : State) :
  console_open st -> rooms_unique st ->
  exists st',
    exec (depart room d) st = Some st' /\
    rooms st' = delete room (rooms st) /\
    wins_get_muc room st' = None /\
    (forall n w, n <> 1 -> windows st !! n = Some w ->
                 is_muc_for room w = false -> windows st' !! n = Some w) /\
    (forall n, n <> 1 -> windows st !! n = None -> windows st' !! n = None) /\
    console_open st' /\
    current st'
    = (if bool_decide (wins_get_muc room st = Some (current st)) then 1
       else current st) /\
    net_actions (trace st') = net_actions (trace st).
Proof.
  intros [cb Hcons] Hu. pose proof (rooms_unique_elim st Hu) as Hu'.
  apply wp_exec.
  destruct (wins_get_muc room st) as [n|] eqn:Hfind.
  - destruct (wins_get_muc_open _ _ _ Hfind) as (w & Hw & HP).
    assert (Hne : n <> 1).
    { intros ->. rewrite Hcons in Hw. injection Hw as <-. done. }
    assert (Hnone : wins_find (is_muc_for room) (delete n (windows st)) = None).
    { apply wins_get_muc_delete. intros m wm Hm HPm. by eapply Hu'. }
    assert (Hcons' : delete n (windows st) !! 1 = Some (mkWin KConsole cb)).
    { by rewrite lookup_delete_ne. }
    assert (Hcur : (if bool_decide (n = current st) then 1 else current st)
                   = (if bool_decide (Some n = Some (current st)) then 1
                      else current st)).
    { repeat case_bool_decide; congruence. }
    assert (Hkeep : forall m wm, m <> 1 -> windows st !! m = Some wm ->
              is_muc_for room wm = false ->
              delete n (windows st) !! m = Some wm).
    { intros m wm _ Hm HPm. rewrite lookup_delete_ne; [done|].
      intros ->. congruence. }
    assert (Hkeep' : forall m, m <> 1 -> windows st !! m = None ->
              delete n (windows st) !! m = None).
    { intros m _ Hm. destruct (decide (m = n)) as [->|?].
      - apply lookup_delete_eq.
      - by rewrite lookup_delete_ne. }
    destruct d as [| |new_jid password reason|actor reason|actor reason];
      cbn [depart];
      unfold sv_ev_leave_room, sv_ev_room_destroy, sv_ev_room_destroyed,
        sv_ev_room_kicked, sv_ev_room_banned, ui_leave_room, ui_room_destroy,
        ui_room_destroyed, ui_room_kicked, ui_room_banned, muc_leave;
      wp_steps; rewrite Hfind; cbv zeta; wp_steps.
    all: lazymatch goal with
         | |- wp (ui_close_win _) _ ?s =>
             unfold wp at 1;
             rewrite (ui_close_muc_win_run room n w s) by done
         end.
    all: unfold wins_get_console, wins_get_by_num; wp_steps.
    all: rewrite ?Hcons'.
    all: repeat (wp_step || wp_case).
    all: prof_cbn.
    all: split_and!; try done.
    all: try (unfold wins_get_muc; prof_cbn; rewrite ?insert_insert_eq;
              rewrite ?(wins_find_insert_other _ _ 1 (mkWin KConsole cb))
                by (done || (by rewrite ?lookup_insert_eq));
              done).
    all: try (intros m wm Hm1 Hm HPm; rewrite ?lookup_insert_ne by done;
              by apply Hkeep).
    all: try (intros m Hm1 Hm; rewrite ?lookup_insert_ne by done;
              by apply Hkeep').
    all: try (eexists; rewrite ?insert_insert_eq;
              first [apply lookup_insert_eq | exact Hcons']).
    all: try (rewrite !net_actions_app; cbn; by rewrite ?app_nil_r).
  - destruct d as [| |new_jid password reason|actor reason|actor reason];
      cbn [depart];
      unfold sv_ev_leave_room, sv_ev_room_destroy, sv_ev_room_destroyed,
        sv_ev_room_kicked, sv_ev_room_banned, ui_leave_room, ui_room_destroy,
        ui_room_destroyed, ui_room_kicked, ui_room_banned, muc_leave;
      wp_steps; rewrite Hfind; wp_steps.
    all: split_and!; try done; try (by eexists).
    all: try (rewrite !net_actions_app; cbn; by rewrite ?app_nil_r).
Qed.

Lemma room_departure_witness :
  exists st',
    exec (depart "r@conf" (Kicked (Some "admin") (Some "spam"))) st0
    = Some st' /\
    rooms st' = delete "r@conf" (rooms st0) /\
    wins_get_muc "r@conf" st' = None /\
    (forall n w, n <> 1 -> windows st0 !! n = Some w ->
                 is_muc_for "r@conf" w = false -> windows st' !! n = Some w) /\
    (forall n, n <> 1 -> windows st0 !! n = None -> windows st' !! n = None) /\
    console_open st' /\
    current st'
    = (if bool_decide (wins_get_muc "r@conf" st0 = Some (current st0)) then 1
       else current st0) /\
    net_actions (trace st') = net_actions (trace st0).
Proof.
  apply (room_departure "r@conf" (Kicked (Some "admin") (Some "spam")) st0).
  - eexists. vm_compute. reflexivity.
  - apply (bool_decide_unpack _). vm_compute. exact I.
Defined.

(** * Broadcasts and subjects of a room *)

Lemma with_broadcasts_nil r : with_broadcasts [] r = r.
Proof. unfold with_broadcasts. rewrite app_nil_r. by destruct r. Qed.

Lemma with_broadcasts_app l1 l2 r :
  with_broadcasts l2 (with_broadcasts l1 r) = with_broadcasts (l1 ++ l2) r.
Proof. unfold with_broadcasts. cbn. by rewrite app_assoc. Qed.

Lemma broadcasts_queued room ms st r :
  rooms st !! room = Some r -> roster_received r = false ->
  for_each ms (sv_ev_room_broadcast room) st
  = Some (tt, set_rooms (<[room := with_broadcasts ms r]> (rooms st)) st).
Proof.
  revert st r. induction ms as [|m ms IH]; intros st r Hr Hrr; cbn [for_each].
  - rewrite with_broadcasts_nil, insert_id by done. by destruct st.
  - unfold sv_ev_room_broadcast at 1. unfold bind, gets, muc_roster_complete.
    rewrite Hr. cbn [fmap option_fmap option_map default]. rewrite Hrr.
    unfold muc_pending_broadcasts_add, muc_update, modify. cbn [id].
    rewrite (IH _ (with_broadcasts [m] r)).
    + prof_cbn. rewrite with_broadcasts_app. f_equal. f_equal.
      state_eq.
      apply map_eq. intros k. destruct (decide (k = room)) as [->|Hne].
      * by rewrite !lookup_insert_eq.
      * by rewrite !lookup_insert_ne, lookup_alter_ne.
    + prof_cbn. rewrite lookup_alter_eq, Hr. done.
    + done.
Qed.

(** X15.  Broadcasts that arrive while a room is being joined are shown
    nowhere at first; the join then prints them after the ones already
    queued, in the order of arrival. *)
Theorem broadcasts_during_join (room nick : string) (messages : list string)
    (config_required : bool)
    (role affiliation actor reason jid show status : option string)
    (st : State) (r : ChatRoom) :
  console_open st -> current_open st ->
  rooms st !! room = Some r ->
  roster_received r = false -> pending_nick_change r = false ->
  exists st1 st2 n joined,
    exec (for_each messages (sv_ev_room_broadcast room)) st = Some st1 /\
    windows st1 = windows st /\ trace st1 = trace st /\
    muc_pending_broadcasts room st1
    = (room_pending_broadcasts r ++ messages)%list /\
    exec (sv_ev_muc_self_online room nick config_required role affiliation
            actor reason jid show status) st1 = Some st2 /\
    wins_get_muc room st2 = Some n /\
    win_buffer n st2
    = (win_buffer n st ++ joined ++ subject_lines (room_subject r)
       ++ broadcast_lines (room_pending_broadcasts r ++ messages)
       ++ if config_required then requires_config_block else [])%list /\
    no_flush joined.
Proof.
  intros Hcons Hcur Hroom Hrr Hpn.
  set (st1 := set_rooms (<[room := with_broadcasts messages r]> (rooms st)) st).
  assert (Hroom1 : rooms st1 !! room = Some (with_broadcasts messages r))
    by apply lookup_insert_eq.
  destruct (wp_exec _ _ _
              (self_join_run room nick config_required role affiliation actor
                 reason jid show status st1 (with_broadcasts messages r)
                 Hcons Hcur Hroom1 Hrr Hpn))
    as (st2 & Hrun & n & joined & Hf & _ & Hb & Hnf & _).
  exists st1, st2, n, joined. split_and!; try done.
  - unfold exec. by rewrite (broadcasts_queued room messages st r).
  - unfold muc_pending_broadcasts. by rewrite Hroom1.
Qed.

(** X16.  Once a room is joined, a broadcast is printed at once in the window
    of the room and is not queued; without a window it is only logged. *)
Theorem broadcast_when_joined (room message : string) (st : State) :
  muc_roster_complete room st = true ->
  exists st',
    exec (sv_ev_room_broadcast room message) st = Some st' /\
    rooms st' = rooms st /\
    match wins_get_muc room st with
    | Some n =>
        wins_get_muc room st' = Some n /\
        win_buffer n st'
        = (win_buffer n st ++ broadcast_lines [message])%list /\
        forall m, m <> n -> windows st' !! m = windows st !! m
    | None =>
        windows st' = windows st /\
        trace st'
        = (trace st
           ++ [LogError "Received room broadcast, but no window open for %s."
                        [ArgS (Some room)]])%list
    end.
Proof.
  intros Hrc. apply wp_exec. unfold sv_ev_room_broadcast. wp_steps.
  rewrite Hrc. destruct (wins_get_muc room st) as [n|] eqn:Hfind.
  - destruct (wins_get_muc_open _ _ _ Hfind) as (w & Hw & HP).
    unfold ui_room_broadcast. wp_steps. rewrite Hfind. wp_auto.
    all: split_and!; try done.
    all: try (unfold wins_get_muc; prof_cbn; rewrite insert_insert_eq;
              by apply wins_find_insert_found).
    all: try (unfold win_buffer; prof_cbn;
              rewrite insert_insert_eq, lookup_insert_eq, Hw; cbn;
              by rewrite <- app_assoc).
    all: intros m Hm; by rewrite !lookup_insert_ne.
  - unfold ui_room_broadcast. wp_steps. rewrite Hfind. wp_steps. done.
Qed.

(** X17.  The subject of a room is recorded whenever it arrives, and shown in
    the window of the room only once the room is joined. *)
Theorem room_subject_recorded (room : string) (nick subject : option string)
    (st : State) (r : ChatRoom) :
  rooms st !! room = Some r ->
  exists st',
    exec (sv_ev_room_subject room nick subject) st = Some st' /\
    muc_subject room st' = subject /\
    muc_pending_broadcasts room st' = muc_pending_broadcasts room st /\
    muc_roster_complete room st' = muc_roster_complete room st /\
    (roster_received r = false ->
       windows st' = windows st /\ trace st' = trace st) /\
    (roster_received r = true ->
       forall n, wins_get_muc room st = Some n ->
         win_buffer n st'
         = (win_buffer n st ++ subject_change_lines nick subject)%list).
Proof.
  intros Hroom. apply wp_exec.
  unfold sv_ev_room_subject, muc_set_subject. wp_steps.
  unfold muc_roster_complete at 1. prof_cbn.
  rewrite lookup_alter_eq, Hroom. room_cbn.
  assert (Hobs : forall st', rooms st' = alter
             (fun r => mkChatRoom (room_nick r) (room_role r)
                         (room_affiliation r) subject
                         (room_pending_broadcasts r) (room_roster r)
                         (roster_received r) (pending_nick_change r)
                         (room_autojoin r) (room_requires_config r))
             room (rooms st) ->
           muc_subject room st' = subject /\
           muc_pending_broadcasts room st' = muc_pending_broadcasts room st /\
           muc_roster_complete room st' = muc_roster_complete room st).
  { intros st' Hr. unfold muc_subject, muc_pending_broadcasts,
      muc_roster_complete. rewrite Hr, lookup_alter_eq, Hroom. done. }
  destruct (roster_received r) eqn:Hrr; unfold when.
  - unfold ui_room_subject. wp_steps.
    destruct (wins_get_muc room st) as [n|] eqn:Hfind.
    + destruct (wins_get_muc_open _ _ _ Hfind) as (w & Hw & HP).
      destruct subject as [s|], nick as [k|]; wp_auto.
      all: lazymatch goal with
           | |- muc_subject _ ?s = _ /\ _ =>
               destruct (Hobs s) as (H1 & H2 & H3); [reflexivity|]
           end.
      all: split_and!; try done.
      all: intros _ m [= <-]; unfold win_buffer; prof_cbn;
        rewrite ?insert_insert_eq, lookup_insert_eq, Hw; cbn;
        by rewrite <- ?app_assoc.
    + wp_steps.
      lazymatch goal with
      | |- muc_subject _ ?s = _ /\ _ =>
          destruct (Hobs s) as (H1 & H2 & H3); [reflexivity|]
      end.
      split_and!; done.
  - wp_steps.
    lazymatch goal with
    | |- muc_subject _ ?s = _ /\ _ =>
        destruct (Hobs s) as (H1 & H2 & H3); [reflexivity|]
    end.
    split_and!; done.
Qed.

(** * Starting and ending an encryption session *)

Lemma chat_enc_mode_insert_ne st ws n m w :
  m <> n -> windows st = ws ->
  (<[n := w]> ws) !! m ≫= win_enc_mode = chat_enc_mode m st.
Proof. intros Hne <-. unfold chat_enc_mode. by rewrite lookup_insert_ne. Qed.

Section Sessions.
Context (E : Externals).

Local Ltac nets :=
  prof_cbn; rewrite ?net_actions_app; cbn [net_actions List.filter is_net app];
  rewrite ?app_nil_r; done.

Local Ltac modes Hw Hcur :=
  unfold chat_enc_mode; prof_cbn;
  repeat first
    [ rewrite lookup_insert_eq
    | rewrite lookup_insert_ne by done
    | rewrite insert_insert_eq ];
  rewrite ?Hw, ?Hcur; try done.

(** X18.  Without an argument, [/pgp start] on a chat window that is in no
    encryption mode puts the window in PGP mode and sends nothing,
    whereas [/otr start] sends the OTR query and leaves the mode as it
    is: the window enters OTR mode only when the session is reported
    secure. *)
Theorem start_session (e : engine) (st : State) (window : Z)
    (command : string) (c : ProfChatWin) (b : list Line) :
  current_open st ->
  windows st !! window = Some (mkWin (KChat c) b) ->
  enc_mode c = PROF_ENC_NONE ->
  available E e st = true ->
  keys_ready E e (barejid c) = true ->
  exists st',
    exec (cmd_start E e window command None) st = Some st' /\
    chat_enc_mode window st'
    = Some (match e with ModeA => PROF_ENC_NONE | ModeB => PROF_ENC_PGP end) /\
    (forall m, m <> window -> chat_enc_mode m st' = chat_enc_mode m st) /\
    ui_win_unread window st' = ui_win_unread window st /\
    net_actions (trace st')
    = (net_actions (trace st) ++ start_actions E e (barejid c))%list.
Proof.
  intros [cur Hcur] Hw Hnone Hav Hkeys. apply wp_exec.
  unfold available in Hav. apply andb_true_iff in Hav as [Hlib Hconn].
  apply bool_decide_eq_true in Hconn.
  destruct e; cbn [cmd_start keys_ready start_actions] in *.
  - unfold cmd_otr_start. rewrite Hlib. wp_steps.
    rewrite bool_decide_eq_false_2 by (intros H; by apply H).
    wp_steps. rewrite ?Hw. wp_steps.
    rewrite bool_decide_eq_false_2 by (intros H; by apply H).
    wp_steps. rewrite ?Hw. wp_steps. rewrite Hnone, Hkeys.
    cbn [negb]. rewrite !bool_decide_eq_false_2 by done.
    wp_steps. split_and!; try done.
    + unfold chat_enc_mode. prof_cbn. rewrite Hw. cbn. by rewrite Hnone.
    + nets.
  - unfold cmd_pgp_start. rewrite Hlib. wp_steps.
    rewrite bool_decide_eq_false_2 by (intros H; by apply H).
    wp_steps. rewrite ?Hw. wp_steps.
    rewrite bool_decide_eq_false_2 by (intros H; by apply H).
    cbn [andb]. wp_steps. rewrite ?Hw. wp_steps. rewrite Hnone.
    rewrite !bool_decide_eq_false_2 by done.
    apply andb_true_iff in Hkeys as [-> ->]. cbn [negb].
    wp_steps. rewrite ?Hw. wp_steps.
    unfold ui_current_print_formatted_line, wins_get_current,
      wins_get_by_num. wp_steps.
    destruct (decide (current st = window)) as [Heq|Hne].
    + rewrite Heq, lookup_insert_eq. wp_steps.
      split_and!.
      * modes Hw Hcur.
      * intros m Hm. modes Hw Hcur.
      * rewrite !(ui_win_unread_open _ _ _ Hw).
        erewrite ui_win_unread_open by (prof_cbn; apply lookup_insert_eq).
        done.
      * nets.
    + rewrite lookup_insert_ne, Hcur by done. wp_steps.
      split_and!.
      * modes Hw Hcur.
      * intros m Hm. unfold chat_enc_mode. prof_cbn.
        destruct (decide (m = current st)) as [->|Hmc].
        -- rewrite lookup_insert_eq, Hcur. done.
        -- by rewrite !lookup_insert_ne.
      * rewrite !(ui_win_unread_open _ _ _ Hw).
        erewrite ui_win_unread_open
          by (prof_cbn; rewrite lookup_insert_ne by done;
              apply lookup_insert_eq).
        done.
      * nets.
Qed.

(** X19.  The end action of an engine takes a chat window out of the mode of
    that engine, and only out of that one: in any other mode, without
    the engine or without a connection, it is refused and every window
    keeps its mode.  Only the end of an OTR session is sent. *)
Theorem end_session (e : engine) (st : State) (window : Z)
    (command : string) (c : ProfChatWin) (b : list Line) :
  current_open st ->
  windows st !! window = Some (mkWin (KChat c) b) ->
  wins_get_chat (barejid c) st = Some window ->
  let ended := available E e st && bool_decide (enc_mode c = engine_mode e) in
  exists st',
    exec (cmd_end E e window command) st = Some st' /\
    chat_enc_mode window st'
    = Some (if ended then PROF_ENC_NONE else enc_mode c) /\
    (forall m, m <> window -> chat_enc_mode m st' = chat_enc_mode m st) /\
    ui_win_unread window st' = ui_win_unread window st /\
    net_actions (trace st')
    = (net_actions (trace st)
       ++ if ended then end_actions e (barejid c) else [])%list.
Proof.
  intros [cur Hcur] Hw Hfind ended. subst ended. apply wp_exec.
  assert (Hmode0 : chat_enc_mode window st = Some (enc_mode c)).
  { unfold chat_enc_mode. by rewrite Hw. }
  unfold available.
  destruct e; cbn [cmd_end engine_mode end_actions].
  - unfold cmd_otr_end. destruct (HAVE_LIBOTR E); cbn [andb].
    2:{ wp_steps. split_and!; try done.
        nets. }
    wp_steps.
    destruct (decide (conn_status st = JABBER_CONNECTED)) as [Hc|Hc].
    2:{ rewrite bool_decide_eq_true_2 by done.
        rewrite (bool_decide_eq_false_2 _ Hc). cbn [andb].
        wp_steps. split_and!; try done.
        nets. }
    rewrite bool_decide_eq_false_2 by (intros H; by apply H).
    rewrite (bool_decide_eq_true_2 _ Hc). cbn [andb].
    wp_steps. rewrite ?Hw. wp_steps.
    rewrite bool_decide_eq_false_2 by (intros H; by apply H).
    wp_steps. rewrite ?Hw. wp_steps.
    destruct (decide (enc_mode c = PROF_ENC_OTR)) as [Hm|Hm].
    + rewrite bool_decide_eq_false_2 by (intros H; by apply H).
      rewrite (bool_decide_eq_true_2 _ Hm).
      unfold ui_gone_insecure. wp_steps. rewrite Hfind. wp_steps.
      rewrite ?Hw. wp_steps.
      assert (Hun : forall ws' l,
                ws' !! window
                = Some (mkWin (KChat (mkChatWin (barejid c) (chat_unread c)
                                        PROF_ENC_NONE false
                                        (history_shown c))) l) ->
                forall s, windows s = ws' ->
                  ui_win_unread window s = ui_win_unread window st).
      { intros ws' l Hl s Hs. rewrite (ui_win_unread_open _ _ _ Hw).
        erewrite ui_win_unread_open by (rewrite Hs; exact Hl). done. }
      wp_auto.
      all: split_and!.
      all: try (modes Hw Hcur).
      all: try (intros m Hm'; modes Hw Hcur).
      all: try (eapply Hun; [|prof_cbn; reflexivity];
                rewrite ?insert_insert_eq; apply lookup_insert_eq).
      all: destruct (bool_decide (current st = window)); nets.
    + rewrite (bool_decide_eq_true_2 _ Hm).
      rewrite (bool_decide_eq_false_2 _ Hm).
      unfold ui_current_print_formatted_line, wins_get_current,
        wins_get_by_num. wp_steps. rewrite Hcur. wp_steps.
      destruct (decide (current st = window)) as [Heq|Hne].
      * rewrite Heq in *. rewrite Hw in Hcur. injection Hcur as <-.
        split_and!.
        -- modes Hw Hcur.
        -- intros m Hm'. modes Hw Hcur.
        -- rewrite (ui_win_unread_open _ _ _ Hw).
           erewrite ui_win_unread_open by (prof_cbn; apply lookup_insert_eq).
           done.
        -- nets.
      * split_and!.
        -- modes Hw Hcur.
        -- intros m Hm'. unfold chat_enc_mode. prof_cbn.
           destruct (decide (m = current st)) as [->|Hmc].
           ++ by rewrite lookup_insert_eq, Hcur.
           ++ by rewrite lookup_insert_ne.
        -- rewrite (ui_win_unread_open _ _ _ Hw).
           erewrite ui_win_unread_open
             by (prof_cbn; rewrite lookup_insert_ne by done; exact Hw).
           done.
        -- nets.
  - unfold cmd_pgp_end. destruct (HAVE_LIBGPGME E); cbn [andb].
    2:{ wp_steps. split_and!; try done.
        nets. }
    wp_steps.
    destruct (decide (conn_status st = JABBER_CONNECTED)) as [Hc|Hc].
    2:{ rewrite bool_decide_eq_true_2 by done.
        rewrite (bool_decide_eq_false_2 _ Hc). cbn [andb].
        wp_steps. split_and!; try done.
        nets. }
    rewrite bool_decide_eq_false_2 by (intros H; by apply H).
    rewrite (bool_decide_eq_true_2 _ Hc). cbn [andb].
    wp_steps. rewrite ?Hw. wp_steps.
    rewrite bool_decide_eq_false_2 by (intros H; by apply H).
    wp_steps. rewrite ?Hw. wp_steps.
    unfold ui_current_print_formatted_line, wins_get_current,
      wins_get_by_num.
    destruct (decide (enc_mode c = PROF_ENC_PGP)) as [Hm|Hm].
    + rewrite bool_decide_eq_false_2 by (intros H; by apply H).
      rewrite (bool_decide_eq_true_2 _ Hm).
      wp_steps. rewrite ?Hw. wp_steps.
      destruct (decide (current st = window)) as [Heq|Hne].
      * rewrite Heq, lookup_insert_eq. wp_steps.
        split_and!.
        -- modes Hw Hcur.
        -- intros m Hm'. modes Hw Hcur.
        -- rewrite (ui_win_unread_open _ _ _ Hw).
           erewrite ui_win_unread_open by (prof_cbn; apply lookup_insert_eq).
           done.
        -- nets.
      * rewrite lookup_insert_ne, Hcur by done. wp_steps.
        split_and!.
        -- modes Hw Hcur.
        -- intros m Hm'. unfold chat_enc_mode. prof_cbn.
           destruct (decide (m = current st)) as [->|Hmc].
           ++ by rewrite lookup_insert_eq, Hcur.
           ++ by rewrite !lookup_insert_ne.
        -- rewrite (ui_win_unread_open _ _ _ Hw).
           erewrite ui_win_unread_open
             by (prof_cbn; rewrite lookup_insert_ne by done;
                 apply lookup_insert_eq).
           done.
        -- nets.
    + rewrite (bool_decide_eq_true_2 _ Hm).
      rewrite (bool_decide_eq_false_2 _ Hm).
      wp_steps. rewrite Hcur. wp_steps.
      destruct (decide (current st = window)) as [Heq|Hne].
      * rewrite Heq in *. rewrite Hw in Hcur. injection Hcur as <-.
        split_and!.
        -- modes Hw Hcur.
        -- intros m Hm'. modes Hw Hcur.
        -- rewrite (ui_win_unread_open _ _ _ Hw).
           erewrite ui_win_unread_open by (prof_cbn; apply lookup_insert_eq).
           done.
        -- nets.
      * split_and!.
        -- modes Hw Hcur.
        -- intros m Hm'. unfold chat_enc_mode. prof_cbn.
           destruct (decide (m = current st)) as [->|Hmc].
           ++ by rewrite lookup_insert_eq, Hcur.
           ++ by rewrite lookup_insert_ne.
        -- rewrite (ui_win_unread_open _ _ _ Hw).
           erewrite ui_win_unread_open
             by (prof_cbn; rewrite lookup_insert_ne by done; exact Hw).
           done.
        -- nets.
Qed.

End Sessions.

(** * The start of an OTR session, as reported by the engine *)

(** X20.  [ui_gone_secure] always ends with a chat window for the contact in
    OTR mode, with the trust it was given: the window the contact had,
    or a new one.  It leaves every other window and the focus alone,
    and alerts the user on the console when the window is not the
    current one. *)
Theorem ui_gone_secure_spec (jid : string) (trusted : bool) (st : State) :
  exists st' n c b,
    exec (ui_gone_secure jid trusted) st = Some st' /\
    wins_get_chat jid st' = Some n /\
    (forall m, wins_get_chat jid st = Some m -> m = n) /\
    windows st' !! n = Some (mkWin (KChat c) b) /\
    barejid c = jid /\
    enc_mode c = PROF_ENC_OTR /\
    chat_otr_is_trusted c = trusted /\
    chat_unread c = ui_win_unread n st /\
    (forall m, m <> n -> windows st' !! m = windows st !! m) /\
    current st' = current st /\
    trace st'
    = (trace st ++ gone_secure_calls jid n (wins_is_current n st'))%list.
Proof.
  destruct (wins_get_chat jid st) as [n|] eqn:Hfind.
  - destruct (wins_find_Some _ _ _ Hfind) as (w & Hw & HP).
    destruct (is_chat_for_inv _ _ HP) as (c & b & -> & Hjid).
    assert (wp (ui_gone_secure jid trusted)
              (fun _ st' =>
                 windows st'
                 = <[n := mkWin (KChat (mkChatWin (barejid c) (chat_unread c)
                                          PROF_ENC_OTR trusted
                                          (history_shown c)))
                           (b ++ [LPrint "!" None []
                                    (if trusted then THEME_OTR_STARTED_TRUSTED
                                     else THEME_OTR_STARTED_UNTRUSTED) ""
                                    (if trusted
                                     then "OTR session started (trusted)."
                                     else "OTR session started (untrusted).")
                                    []])]> (windows st) /\
                 current st' = current st /\
                 trace st'
                 = (trace st
                    ++ gone_secure_calls jid n
                         (bool_decide (current st = n)))%list) st) as H.
    { unfold ui_gone_secure, gone_secure_calls. wp_steps. rewrite Hfind.
      wp_steps. destruct trusted; wp_steps.
      all: destruct (bool_decide (current st = n)); wp_steps.
      all: rewrite ?insert_insert_eq; split_and!; try done.
      all: by rewrite <- !app_assoc. }
    apply wp_exec in H as (st' & Hrun & Hws & Hc & Ht).
    eexists st', n, _, _. split_and!; [exact Hrun|..].
    + unfold wins_get_chat. rewrite Hws.
      apply wins_find_insert_found; [exact Hfind|].
      unfold is_chat_for. cbn. by apply bool_decide_eq_true_2.
    + by intros m [= ->].
    + rewrite Hws. apply lookup_insert_eq.
    + done.
    + done.
    + done.
    + by rewrite (ui_win_unread_open _ _ _ Hw).
    + intros m Hm. rewrite Hws. by rewrite lookup_insert_ne.
    + done.
    + rewrite Ht. f_equal. f_equal.
      erewrite wins_is_current_open by (rewrite Hws; apply lookup_insert_eq).
      by rewrite Hc.
  - set (n := get_next_available_win_num (dom (windows st))).
    assert (Hfresh : windows st !! n = None).
    { apply not_elem_of_dom. apply get_next_available_win_num_spec. }
    assert (wp (ui_gone_secure jid trusted)
              (fun _ st' =>
                 windows st'
                 = <[n := mkWin (KChat (mkChatWin jid 0 PROF_ENC_OTR trusted
                                          false))
                           [LPrint "!" None []
                                   (if trusted then THEME_OTR_STARTED_TRUSTED
                                    else THEME_OTR_STARTED_UNTRUSTED) ""
                                   (if trusted
                                    then "OTR session started (trusted)."
                                    else "OTR session started (untrusted).")
                                   []]]> (windows st) /\
                 current st' = current st /\
                 trace st'
                 = (trace st
                    ++ gone_secure_calls jid n
                         (bool_decide (current st = n)))%list) st) as H.
    { unfold ui_gone_secure, gone_secure_calls, wins_new_chat,
        win_create_chat. wp_steps. rewrite Hfind.
      apply wp_bind, wp_wins_new. fold n. cbv zeta.
      destruct trusted; wp_steps.
      all: destruct (bool_decide (current st = n)); wp_steps.
      all: rewrite ?insert_insert_eq; split_and!; try done.
      all: by rewrite <- !app_assoc. }
    apply wp_exec in H as (st' & Hrun & Hws & Hc & Ht).
    eexists st', n, _, _. split_and!; [exact Hrun|..].
    + unfold wins_get_chat. rewrite Hws.
      apply wins_find_insert_fresh; [exact Hfind|].
      unfold is_chat_for. cbn. by apply bool_decide_eq_true_2.
    + done.
    + rewrite Hws. apply lookup_insert_eq.
    + done.
    + done.
    + done.
    + by rewrite (ui_win_unread_closed _ _ Hfresh).
    + intros m Hm. rewrite Hws. by rewrite lookup_insert_ne.
    + done.
    + rewrite Ht. f_equal. f_equal.
      erewrite wins_is_current_open by (rewrite Hws; apply lookup_insert_eq).
      by rewrite Hc.
Qed.

(** * [/close] with a slot number *)

Section CloseCommand.
Context (E : Externals).

Lemma leave_calls_app t1 t2 :
  leave_calls (t1 ++ t2) = (leave_calls t1 ++ leave_calls t2)%list.
Proof. apply List.filter_app. Qed.

(** The state after [ui_close_win], whatever the window was. *)
Lemma wp_ui_close_win_full num (Q : unit -> State -> Prop) st :
  num <> 1 ->
  (forall st' t,
     windows st' = delete num (windows st) ->
     current st' = (if bool_decide (num = current st) then 1 else current st) ->
     conn_status st' = conn_status st ->
     rooms st' = rooms st ->
     prefs_bool st' = prefs_bool st ->
     trace st' = (trace st ++ t)%list ->
     leave_calls t = [] ->
     Q tt st') ->
  wp (ui_close_win num) Q st.
Proof.
  intros Hne HQ.
  unfold ui_close_win, wins_get_by_num, cmd_autocomplete_remove_form_fields.
  wp_steps.
  destruct (windows st !! num) as [[[| | |[rj [f|]]| |] b]|] eqn:Hw.
  all: wp_steps.
  all: apply wp_wins_close_by_num; [done|]; wp_steps.
  all: eapply HQ; prof_cbn;
    [by case_bool_decide|by case_bool_decide|by case_bool_decide
    |by case_bool_decide|by case_bool_decide
    |case_bool_decide; prof_cbn; rewrite <- ?app_assoc; reflexivity
    |reflexivity].
Qed.

(** X21.  [/close] reads the slot number with [atoi] into an [int]
    and refuses a slot that is negative or 10, the console and a slot
    without a window: it says why on the console and changes nothing
    else. *)
Theorem cmd_close_refused (window : Z) (command : string)
    (args : list string) (st : State) :
  args !! 0%nat <> Some "all" -> args !! 0%nat <> Some "read" ->
  close_index args st < 0 \/ close_index args st = 10
  \/ close_index args st = 1 \/ windows st !! close_index args st = None ->
  cmd_close E window command args st
  = Some (true,
          set_trace
            (trace st ++ [ConsShow (close_refusal (close_index args st)) []])
            st).
Proof.
  intros Hall Hread Href.
  assert (wp (cmd_close E window command args)
            (fun r st' =>
               r = true /\
               st' = set_trace
                       (trace st
                        ++ [ConsShow (close_refusal (close_index args st)) []])
                       st) st) as H.
  2:{ apply wp_run in H as (r & st' & -> & -> & ->). done. }
  assert (Hidx : wp (cmd_close_index E (conn_status st) (close_index args st))
            (fun r st' =>
               r = true /\
               st' = set_trace
                       (trace st
                        ++ [ConsShow (close_refusal (close_index args st)) []])
                       st) st).
  { unfold cmd_close_index, close_refusal.
    set (index := close_index args st) in *.
    destruct (bool_decide (index < 0) || bool_decide (index = 10)) eqn:Hr.
    { wp_steps. done. }
    destruct (bool_decide (index = 1)) eqn:H1.
    { wp_steps. done. }
    apply orb_false_iff in Hr as [Hneg H10].
    apply bool_decide_eq_false in Hneg, H10, H1.
    destruct Href as [?|[?|[?|Hnone]]]; try done.
    wp_steps. unfold wins_get_by_num. rewrite Hnone. wp_steps. done. }
  unfold cmd_close. wp_steps. unfold close_index in *.
  destruct (args !! 0%nat) as [args0|] eqn:Hargs.
  - rewrite bool_decide_eq_false_2 by congruence.
    rewrite bool_decide_eq_false_2 by congruence. exact Hidx.
  - wp_steps. exact Hidx.
Qed.

(** X22.  [/close] on an open window other than the console, with no unsaved
    form, closes exactly that window.  While connected it first takes
    leave: of a room window by leaving the room; of a chat window by
    ending the OTR session when the window is in OTR mode and then
    calling [chat_state_gone] and [chat_session_remove] for the
    contact; of any other window by nothing.  Without a connection it
    makes none of these calls. *)
Theorem cmd_close_closes (window : Z) (command : string)
    (args : list string) (st : State) (w : ProfWin) :
  args !! 0%nat <> Some "all" -> args !! 0%nat <> Some "read" ->
  0 <= close_index args st -> close_index args st <> 10 ->
  close_index args st <> 1 ->
  windows st !! close_index args st = Some w ->
  unsaved_form_win w = false -> conf_form w <> Some None ->
  rooms_unique st ->
  prefs_get_boolean PREF_WINS_AUTO_TIDY st = false ->
  let connected := bool_decide (conn_status st = JABBER_CONNECTED) in
  exists st' t,
    cmd_close E window command args st = Some (true, st') /\
    windows st' = delete (close_index args st) (windows st) /\
    current st'
    = (if bool_decide (close_index args st = current st) then 1
       else current st) /\
    rooms st' = (if connected then close_rooms w (rooms st) else rooms st) /\
    trace st'
    = (trace st ++ t
       ++ [ConsShow "Closed window %d" [ArgD (close_index args st)]])%list /\
    leave_calls t = (if connected then close_calls E w else []).
Proof.
  intros Hall Hread Hpos H10 H1 Hw Hunsaved Hform Hu Htidy connected.
  pose proof (rooms_unique_elim st Hu) as Hu'.
  set (index := close_index args st) in *.
  assert (wp (cmd_close_index E (conn_status st) index)
            (fun r st' =>
               r = true /\
               windows st' = delete index (windows st) /\
               current st'
               = (if bool_decide (index = current st) then 1 else current st) /\
               rooms st'
               = (if connected then close_rooms w (rooms st) else rooms st) /\
               exists t,
                 trace st'
                 = (trace st ++ t
                    ++ [ConsShow "Closed window %d" [ArgD index]])%list /\
                 leave_calls t
                 = (if connected then close_calls E w else [])) st) as Hidx.
  { unfold cmd_close_index.
    rewrite (bool_decide_eq_false_2 (index < 0)) by lia.
    rewrite (bool_decide_eq_false_2 (index = 10)) by done.
    rewrite (bool_decide_eq_false_2 (index = 1)) by done.
    cbn [orb]. wp_steps. unfold wins_get_by_num at 1. rewrite Hw.
    apply wp_bind.
    eapply wp_ui_win_has_unsaved_form; [exact Hw|exact Hform|].
    rewrite Hunsaved.
    assert (Hfinish : forall rs na s t0,
              windows s = delete index (windows st) ->
              current s
              = (if bool_decide (index = current st) then 1 else current st) ->
              rooms s = rs ->
              prefs_bool s = prefs_bool st ->
              trace s = (trace st ++ t0)%list ->
              leave_calls t0 = na ->
              wp (bind (cons_show "Closed window %d" [ArgD index])
                    (fun _ =>
                       bind (gets (prefs_get_boolean PREF_WINS_AUTO_TIDY))
                         (fun tidy =>
                            bind (if tidy
                                  then bind (ui_tidy_wins E) (fun _ => ret tt)
                                  else ret tt)
                              (fun _ => ret true))))
                 (fun r st' =>
                    r = true /\
                    windows st' = delete index (windows st) /\
                    current st'
                    = (if bool_decide (index = current st) then 1
                       else current st) /\
                    rooms st' = rs /\
                    exists t,
                      trace st'
                      = (trace st ++ t
                         ++ [ConsShow "Closed window %d" [ArgD index]])%list /\
                      leave_calls t = na) s).
    { intros rs na s t0 Hws Hc Hr Hp Ht Hn. wp_steps.
      assert (prefs_get_boolean PREF_WINS_AUTO_TIDY s = false) as ->.
      { unfold prefs_get_boolean in *. by rewrite Hp. }
      wp_steps. split_and!; try done.
      exists t0. rewrite Ht, <- app_assoc. done. }
    subst connected.
    destruct (decide (conn_status st = JABBER_CONNECTED)) as [Hc|Hc].
    - rewrite (bool_decide_eq_true_2 _ Hc). unfold when. apply wp_bind.
      unfold ui_close_connected_win, wins_get_by_num. wp_steps.
      rewrite Hw. wp_steps.
      destruct w as [[|c|mw|cw|p|] b]; cbn [kind] in *.
      all: wp_steps.
      all: try (apply wp_bind, wp_ui_close_win_full; [done|];
                intros s t Hws Hcur Hcs Hrs Hps Ht Hn;
                cbn [windows current conn_status rooms prefs_bool trace set_trace
                     set_rooms set_windows set_current] in *).
      + by eapply (Hfinish _ _ _ t).
      + eapply (Hfinish _ _ _
                  ((if HAVE_LIBOTR E
                       && bool_decide (enc_mode c = PROF_ENC_OTR)
                    then [Net (OtrEndSession (barejid c))] else [])
                   ++ [ChatStateGone (barejid c);
                       ChatSessionRemove (barejid c)] ++ t)%list).
        * exact Hws.
        * exact Hcur.
        * exact Hrs.
        * exact Hps.
        * rewrite Ht. by rewrite <- !app_assoc.
        * rewrite !leave_calls_app, Hn, app_nil_r.
          unfold close_calls. cbn [kind].
          destruct (HAVE_LIBOTR E && bool_decide (enc_mode c = PROF_ENC_OTR));
            reflexivity.
      + unfold muc_leave, ui_leave_room. wp_steps.
        assert (Hfind : wins_get_muc (roomjid mw) st = Some index).
        { eapply wins_find_unique; [exact Hw| |].
          - unfold is_muc_for. cbn. by apply bool_decide_eq_true_2.
          - intros m w' Hm HP. eapply Hu'; [exact Hm|exact Hw|exact HP|].
            unfold is_muc_for. cbn. by apply bool_decide_eq_true_2. }
        rewrite Hfind. apply wp_ui_close_win_full; [done|].
        intros s1 t1 Hws1 Hcur1 Hcs1 Hrs1 Hps1 Ht1 Hn1.
        cbn [windows current conn_status rooms prefs_bool trace set_trace
             set_rooms set_windows set_current] in *.
        apply wp_bind, wp_ui_close_win_full; [done|].
        intros s t Hws Hcur Hcs Hrs Hps Ht Hn.
        eapply (Hfinish _ _ _ ([Net (PresenceLeaveChatRoom (roomjid mw))]
                               ++ t1 ++ t)%list).
        * rewrite Hws, Hws1. apply delete_delete_eq.
        * rewrite Hcur, Hcur1. repeat case_bool_decide; congruence.
        * by rewrite Hrs, Hrs1.
        * congruence.
        * rewrite Ht, Ht1. by rewrite <- !app_assoc.
        * rewrite !leave_calls_app, Hn, Hn1. done.
      + by eapply (Hfinish _ _ _ t).
      + by eapply (Hfinish _ _ _ t).
      + by eapply (Hfinish _ _ _ t).
    - rewrite (bool_decide_eq_false_2 _ Hc). unfold when. wp_steps.
      apply wp_bind, wp_ui_close_win_full; [done|].
      intros s t Hws Hcur Hcs Hrs Hps Ht Hn.
      by eapply (Hfinish _ _ _ t). }
  assert (wp (cmd_close E window command args)
            (fun r st' =>
               r = true /\
               windows st' = delete index (windows st) /\
               current st'
               = (if bool_decide (index = current st) then 1 else current st) /\
               rooms st'
               = (if connected then close_rooms w (rooms st) else rooms st) /\
               exists t,
                 trace st'
                 = (trace st ++ t
                    ++ [ConsShow "Closed window %d" [ArgD index]])%list /\
                 leave_calls t
                 = (if connected then close_calls E w else [])) st) as H.
  { unfold cmd_close. wp_steps. subst index. unfold close_index in *.
    destruct (args !! 0%nat) as [args0|] eqn:Hargs.
    - rewrite bool_decide_eq_false_2 by congruence.
      rewrite bool_decide_eq_false_2 by congruence. exact Hidx.
    - wp_steps. exact Hidx. }
  apply wp_run in H as (r & st' & Hrun & -> & H2 & H3 & H4 & t & H5 & H6).
  by exists st', t.
Qed.

End CloseCommand.

(** * What [/form] and [/room] send *)

Ltac solve_nets :=
  prof_cbn; rewrite ?net_actions_app;
  cbn [net_actions List.filter is_net app]; rewrite ?app_nil_r; done.

Lemma net_actions_nil_app t1 t2 :
  net_actions t2 = [] -> net_actions (t1 ++ t2) = net_actions t1.
Proof. intros H. by rewrite net_actions_app, H, app_nil_r. Qed.

(** X23.  In the window of a room, [/room] sends one request at most, and
    neither opens nor closes a window; [/room config] moves the focus
    to the configuration window of the room when there is one, and asks
    the server for the form when there is none. *)
Theorem cmd_room_actions (window : Z) (command : string) (args : list string)
    (st : State) (mw : ProfMucWin) (b : list Line) :
  conn_status st = JABBER_CONNECTED ->
  current_open st ->
  windows st !! window = Some (mkWin (KMuc mw) b) ->
  exists st',
    exec (cmd_room window command args) st = Some st' /\
    net_actions (trace st')
    = (net_actions (trace st)
       ++ room_actions (roomjid mw) (args !! 0%nat) st)%list /\
    dom (windows st') = dom (windows st) /\
    current st'
    = (if g_strcmp0_eq (args !! 0%nat) (Some "config")
       then default (current st) (wins_get_muc_conf (roomjid mw) st)
       else current st).
Proof.
  intros Hconn [cur Hcur] Hw. apply wp_exec.
  unfold cmd_room, room_actions. wp_steps. rewrite Hconn.
  rewrite bool_decide_eq_false_2 by (intros H; by apply H).
  wp_steps. cbn [win_type kind].
  rewrite bool_decide_eq_false_2 by (intros H; by apply H).
  cbv zeta.
  destruct (g_strcmp0_eq (args !! 0%nat) (Some "accept")) eqn:Ha;
    cbn [negb andb].
  { assert (g_strcmp0_eq (args !! 0%nat) (Some "config") = false) as ->.
    { apply bool_decide_eq_true in Ha. rewrite Ha.
      by apply bool_decide_eq_false_2. }
    wp_steps.
    destruct (muc_requires_config (roomjid mw) st) eqn:Hrc; cbn [negb].
    - unfold muc_set_requires_config. wp_steps. split_and!; try done.
      + solve_nets.
      + prof_cbn. by rewrite dom_insert_lookup_L.
    - wp_steps. split_and!; try done.
      + solve_nets.
      + prof_cbn. by rewrite dom_insert_lookup_L. }
  destruct (g_strcmp0_eq (args !! 0%nat) (Some "destroy")) eqn:Hd;
    cbn [negb andb].
  { assert (g_strcmp0_eq (args !! 0%nat) (Some "config") = false) as ->.
    { apply bool_decide_eq_true in Hd. rewrite Hd.
      by apply bool_decide_eq_false_2. }
    wp_steps. split_and!; try done. solve_nets. }
  destruct (g_strcmp0_eq (args !! 0%nat) (Some "config")) eqn:Hc;
    cbn [negb andb].
  2:{ wp_steps. split_and!; try done.
      solve_nets. }
  wp_steps.
  destruct (wins_get_muc_conf (roomjid mw) st) as [n|] eqn:Hfind.
  - apply wins_find_Some in Hfind as (w & Hn & HP).
    wp_steps. unfold ui_ev_focus_win.
    eapply (wp_ui_switch_win n cur w); [exact Hcur|exact Hn|].
    wp_steps. unfold switch_state. prof_cbn. split_and!; try done.
    + rewrite app_nil_r. apply net_actions_switch.
    + by rewrite dom_insert_lookup_L.
  - wp_steps. split_and!; try done. solve_nets.
Qed.

Lemma wp_bind_inv {A B} (m : prof A) (k : A -> prof B) Q st :
  wp (bind m k) Q st -> wp m (fun a st' => wp (k a) Q st') st.
Proof. unfold wp, bind. destruct (m st) as [[a st']|]; done. Qed.

Lemma form_close_run (n : Z) (room : string) (f : option DataForm)
    (b : list Line) (console : ProfWin) (st0 st : State) :
  current st = n -> n <> 1 ->
  windows st !! n = Some (mkWin (KMucConf (mkMucConfWin room f)) b) ->
  windows st !! 1 = Some console ->
  windows st0 = windows st ->
  wp (bind (match f with
            | Some _ => cmd_autocomplete_remove_form_fields f
            | None => ret tt
            end)
        (fun _ =>
           bind wins_close_current
             (fun _ =>
                bind (gets (wins_get_muc room))
                  (fun new_current =>
                     bind (match new_current with
                           | Some w => ret (Some w)
                           | None => gets wins_get_console
                           end)
                       (fun new_current => ui_ev_focus_win new_current)))))
     (fun _ st' =>
        windows st' !! n = None /\
        (forall m, m <> n -> is_Some (windows st' !! m)
                             <-> is_Some (windows st0 !! m)) /\
        net_actions (trace st') = net_actions (trace st)) st.
Proof.
  intros Hcur Hn1 Hw Hcons Hws0.
  unfold cmd_autocomplete_remove_form_fields.
  wp_cut (fun (_ : unit) st' =>
            windows st' = windows st /\ current st' = current st /\
            net_actions (trace st') = net_actions (trace st)).
  { destruct f; wp_steps; split_and!; try done. solve_nets. }
  intros _ st1 (Hws1 & Hcur1 & Hn1').
  wp_step. apply wp_wins_close_current; [congruence|].
  rewrite Hws1, Hcur1, Hcur.
  wp_steps. unfold ui_ev_focus_win.
  assert (Hopen : forall (k : Z) (w' : ProfWin) m, m <> n -> k <> n ->
            is_Some (windows st !! k) ->
            is_Some ((<[k := w']> (delete n (windows st))) !! m)
            <-> is_Some (windows st0 !! m)).
  { intros k w' m Hm Hk Hsome. rewrite Hws0.
    destruct (decide (m = k)) as [->|Hmk].
    - rewrite lookup_insert_eq. split; [done|]. by eexists.
    - by rewrite lookup_insert_ne, lookup_delete_ne. }
  destruct (wins_get_muc room _) as [m|] eqn:Hfind.
  - apply wins_find_Some in Hfind as (w & Hm & HP).
    cbn [windows set_windows set_current] in Hm.
    assert (Hmn : m <> n) by (intros ->; by rewrite lookup_delete_eq in Hm).
    rewrite lookup_delete_ne in Hm by done.
    wp_steps.
    eapply (wp_ui_switch_win m console w).
    { prof_cbn. by rewrite lookup_delete_ne. }
    { prof_cbn. by rewrite lookup_delete_ne. }
    unfold switch_state. prof_cbn. split_and!.
    + rewrite lookup_insert_ne by done. apply lookup_delete_eq.
    + intros k Hk. apply Hopen; [done|done|by eexists].
    + rewrite net_actions_switch. exact Hn1'.
  - wp_steps. unfold wins_get_console, wins_get_by_num. prof_cbn.
    rewrite lookup_delete_ne by done. rewrite Hcons.
    eapply (wp_ui_switch_win 1 console console).
    { prof_cbn. by rewrite lookup_delete_ne. }
    { prof_cbn. by rewrite lookup_delete_ne. }
    unfold switch_state. prof_cbn. split_and!.
    + rewrite lookup_insert_ne by done. apply lookup_delete_eq.
    + intros k Hk. apply Hopen; [done|done|by eexists].
    + rewrite net_actions_switch. exact Hn1'.
Qed.

(** X24.  In a room-configuration window, [/form submit] sends the form and
    [/form cancel] the cancellation, and both close the window; every
    other use of [/form] sends nothing and leaves the window open.  No
    other window is opened or closed. *)
Theorem cmd_form_actions (n : Z) (command : string) (args : list string)
    (st : State) (room : string) (f : option DataForm) (b : list Line) :
  conn_status st = JABBER_CONNECTED ->
  console_open st ->
  current st = n ->
  windows st !! n = Some (mkWin (KMucConf (mkMucConfWin room f)) b) ->
  exists st',
    exec (cmd_form n command args) st = Some st' /\
    net_actions (trace st')
    = (net_actions (trace st) ++ form_actions room f (args !! 0%nat))%list /\
    (if g_strcmp0_eq (args !! 0%nat) (Some "submit")
        || g_strcmp0_eq (args !! 0%nat) (Some "cancel")
     then windows st' !! n = None
     else is_Some (windows st' !! n)) /\
    (forall m, m <> n -> is_Some (windows st' !! m)
                         <-> is_Some (windows st !! m)).
Proof.
  intros Hconn [cb Hcons] Hcur Hw.
  assert (Hn1 : n <> 1) by (intros ->; congruence).
  apply wp_exec. unfold cmd_form, form_actions. wp_steps. rewrite Hconn.
  rewrite bool_decide_eq_false_2 by (intros H; by apply H).
  wp_steps. cbn [win_type kind].
  rewrite bool_decide_eq_false_2 by (intros H; by apply H).
  cbv zeta. unfold g_strcmp0_eq.
  destruct (decide (args !! 0%nat = Some "submit")) as [Hs|Hs].
  { rewrite Hs.
    rewrite (bool_decide_eq_true_2 (Some "submit" = Some "submit")) by done.
    rewrite !bool_decide_eq_false_2 by done. cbn [negb andb orb].
    wp_steps. apply wp_bind_inv.
    eapply wp_mono.
    { eapply (form_close_run n room f b (mkWin KConsole cb) st); done. }
    intros _ st' (H1 & H2 & H3). wp_steps. split_and!; try done.
    rewrite H3. solve_nets. }
  destruct (decide (args !! 0%nat = Some "cancel")) as [Hc|Hc].
  { rewrite Hc.
    rewrite (bool_decide_eq_true_2 (Some "cancel" = Some "cancel")) by done.
    rewrite !bool_decide_eq_false_2 by done. cbn [negb andb orb].
    wp_steps. apply wp_bind_inv.
    eapply wp_mono.
    { eapply (form_close_run n room f b (mkWin KConsole cb) st); done. }
    intros _ st' (H1 & H2 & H3). wp_steps. split_and!; try done.
    rewrite H3. solve_nets. }
  rewrite (bool_decide_eq_false_2 (args !! 0%nat = Some "submit")) by done.
  rewrite (bool_decide_eq_false_2 (args !! 0%nat = Some "cancel")) by done.
  cbn [negb andb orb].
  destruct (bool_decide (args !! 0%nat = Some "show")) eqn:Hshow;
    cbn [negb andb orb].
  { wp_steps. split_and!; [solve_nets|by eexists|done]. }
  destruct (bool_decide (args !! 0%nat = Some "help")) eqn:Hhelp;
    cbn [negb andb orb].
  2:{ wp_steps. split_and!; [solve_nets|by eexists|done]. }
  wp_steps. unfold ui_current_print_line, wins_get_current, wins_get_by_num.
  destruct (args !! 1%nat) as [tag|]; wp_steps.
  all: rewrite Hcur, Hw; wp_steps.
  all: split_and!; [solve_nets|rewrite lookup_insert_eq; by eexists|].
  all: intros m Hm; by rewrite lookup_insert_ne.
Qed.

(** * Our role and affiliation in a joined room *)

Lemma joined_self_presence room nick config_required role affiliation actor
    reason jid show status st n :
  muc_roster_complete room st = true ->
  muc_nick_change_pending room st = false ->
  wins_get_muc room st = Some n ->
  wp (sv_ev_muc_self_online room nick config_required role affiliation
        actor reason jid show status)
     (fun _ st' =>
        muc_role_str room st' = role /\
        muc_affiliation_str room st' = affiliation /\
        muc_roster_complete room st' = true /\
        muc_nick_change_pending room st' = false /\
        wins_get_muc room st' = Some n /\
        win_buffer n st'
        = (win_buffer n st
           ++ if prefs_get_boolean PREF_MUC_PRIVILEGES st
              then privilege_lines role affiliation actor reason
                     (muc_role_str room st) (muc_affiliation_str room st)
              else [])%list /\
        (forall m, m <> n -> windows st' !! m = windows st !! m) /\
        prefs_bool st' = prefs_bool st) st.
Proof.
  intros Hrr Hpn Hfind.
  destruct (wins_get_muc_open _ _ _ Hfind) as (w & Hw & HP).
  unfold muc_roster_complete in Hrr. unfold muc_nick_change_pending in Hpn.
  destruct (rooms st !! room) as [r|] eqn:Hroom; [|done].
  cbn in Hrr, Hpn.
  assert (Hr : muc_role_str room st = room_role r)
    by (unfold muc_role_str; by rewrite Hroom).
  assert (Ha : muc_affiliation_str room st = room_affiliation r)
    by (unfold muc_affiliation_str; by rewrite Hroom).
  rewrite Hr, Ha.
  lazymatch goal with |- wp _ ?Q _ => set (post := Q) end.
  unfold sv_ev_muc_self_online, muc_roster_add, muc_set_role,
    muc_set_affiliation.
  wp_steps.
  unfold muc_nick_change_pending, muc_role_str, muc_affiliation_str.
  prof_cbn. rewrite !lookup_alter_eq, Hroom. room_cbn. rewrite Hpn.
  wp_steps. unfold muc_roster_complete. prof_cbn.
  rewrite !lookup_alter_eq, Hroom. room_cbn. rewrite Hrr. cbn [negb].
  wp_steps.
  unfold ui_room_role_and_affiliation_change, ui_room_role_change,
    ui_room_affiliation_change.
  assert (Hobs : forall s r',
            rooms s !! room = Some r' ->
            room_role r' = role ->
            room_affiliation r' = affiliation ->
            roster_received r' = true ->
            pending_nick_change r' = false ->
            muc_role_str room s = role /\
            muc_affiliation_str room s = affiliation /\
            muc_roster_complete room s = true /\
            muc_nick_change_pending room s = false).
  { intros s r' Hs H1 H2 H3 H4.
    unfold muc_role_str, muc_affiliation_str, muc_roster_complete,
      muc_nick_change_pending.
    rewrite Hs. cbn. by rewrite H1, H2, H3, H4. }
  destruct (prefs_get_boolean PREF_MUC_PRIVILEGES st) eqn:Hpriv.
  - destruct (negb (g_strcmp0_eq role (room_role r))) eqn:Hcr;
      destruct (negb (g_strcmp0_eq affiliation (room_affiliation r))) eqn:Hca;
      cbn [andb]; wp_steps; rewrite ?Hfind; wp_auto; rewrite ?Hfind; wp_auto.
    all: subst post; cbv beta; unfold privilege_lines, by_and_reason;
      rewrite ?Hpriv, ?Hcr, ?Hca; cbn [andb];
      repeat match goal with
             | H : bool_decide (is_Some _) = _ |- _ => rewrite H; clear H
             end.
    all: lazymatch goal with
         | |- muc_role_str _ ?s = _ /\ _ =>
             edestruct (Hobs s) as (H1 & H2 & H3 & H4);
             [prof_cbn; rewrite !lookup_alter_eq, Hroom; reflexivity
             |reflexivity|reflexivity|exact Hrr|exact Hpn|]
         end.
    all: split_and!; try done.
    all: try (unfold wins_get_muc; prof_cbn; rewrite ?insert_insert_eq;
              first [exact Hfind|by apply wins_find_insert_found]).
    all: try (unfold win_buffer; prof_cbn;
              rewrite ?insert_insert_eq, ?lookup_insert_eq, ?Hw; cbn;
              rewrite <- ?app_assoc; first [done|by rewrite app_nil_r]).
    all: intros m Hm; prof_cbn; by rewrite ?lookup_insert_ne.
  - wp_steps. subst post. cbv beta. rewrite ?Hpriv.
    lazymatch goal with
    | |- muc_role_str _ ?s = _ /\ _ =>
        edestruct (Hobs s) as (H1 & H2 & H3 & H4);
        [prof_cbn; rewrite !lookup_alter_eq, Hroom; reflexivity
        |reflexivity|reflexivity|exact Hrr|exact Hpn|]
    end.
    split_and!; try done.
    unfold win_buffer. prof_cbn. by rewrite app_nil_r.
Qed.

(** X25.  In a joined room a change of our role or affiliation is announced
    in the window of the room by the self-presence that brings it, and
    a self-presence that repeats the role and the affiliation prints
    nothing. *)
Theorem privileges_announced_once (room nick nick' : string)
    (config_required config_required' : bool)
    (role affiliation actor reason jid show status : option string)
    (actor' reason' jid' show' status' : option string)
    (st : State) (n : Z) :
  muc_roster_complete room st = true ->
  muc_nick_change_pending room st = false ->
  wins_get_muc room st = Some n ->
  exists st1 st2,
    exec (sv_ev_muc_self_online room nick config_required role affiliation
            actor reason jid show status) st = Some st1 /\
    win_buffer n st1
    = (win_buffer n st
       ++ if prefs_get_boolean PREF_MUC_PRIVILEGES st
          then privilege_lines role affiliation actor reason
                 (muc_role_str room st) (muc_affiliation_str room st)
          else [])%list /\
    exec (sv_ev_muc_self_online room nick' config_required' role affiliation
            actor' reason' jid' show' status') st1 = Some st2 /\
    (forall m, win_buffer m st2 = win_buffer m st1) /\
    muc_role_str room st2 = role /\
    muc_affiliation_str room st2 = affiliation.
Proof.
  intros Hrr Hpn Hfind.
  destruct (wp_exec _ _ _
              (joined_self_presence room nick config_required role affiliation
                 actor reason jid show status st n Hrr Hpn Hfind))
    as (st1 & Hrun1 & Hr1 & Ha1 & Hrr1 & Hpn1 & Hfind1 & Hb1 & Ho1 & Hp1).
  destruct (wp_exec _ _ _
              (joined_self_presence room nick' config_required' role
                 affiliation actor' reason' jid' show' status' st1 n Hrr1 Hpn1
                 Hfind1))
    as (st2 & Hrun2 & Hr2 & Ha2 & Hrr2 & Hpn2 & Hfind2 & Hb2 & Ho2 & Hp2).
  exists st1, st2. split_and!; try done.
  intros m. destruct (decide (m = n)) as [->|Hm].
  - rewrite Hb2, Hr1, Ha1. unfold privilege_lines, g_strcmp0_eq.
    rewrite !bool_decide_eq_true_2 by done. cbn.
    destruct (prefs_get_boolean PREF_MUC_PRIVILEGES st1); apply app_nil_r.
  - unfold win_buffer. by rewrite Ho2.
Qed.

(** X26.  A self-presence that arrives while a change of our nickname is
    pending completes that change and does nothing else: the new
    nickname is recorded and shown in the window of the room, and the
    join of the room is not completed by it, whether or not the roster
    was complete. *)
Theorem nick_change_completed (room nick : string) (config_required : bool)
    (role affiliation actor reason jid show status : option string)
    (st : State) (r : ChatRoom) (n : Z) :
  rooms st !! room = Some r ->
  pending_nick_change r = true ->
  wins_get_muc room st = Some n ->
  exists st',
    exec (sv_ev_muc_self_online room nick config_required role affiliation
            actor reason jid show status) st = Some st' /\
    muc_nick room st' = Some nick /\
    muc_nick_change_pending room st' = false /\
    muc_roster_complete room st' = roster_received r /\
    muc_requires_config room st' = room_requires_config r /\
    win_buffer n st'
    = (win_buffer n st
       ++ [LPrint "!" None [] THEME_ME "" "** You are now known as %s"
                  [ArgS (Some nick)]])%list /\
    (forall m, m <> n -> windows st' !! m = windows st !! m) /\
    net_actions (trace st') = net_actions (trace st).
Proof.
  intros Hroom Hpn Hfind.
  destruct (wins_get_muc_open _ _ _ Hfind) as (w & Hw & HP).
  apply wp_exec.
  lazymatch goal with |- wp _ ?Q _ => set (post := Q) end.
  unfold sv_ev_muc_self_online, muc_roster_add, muc_set_role,
    muc_set_affiliation, muc_nick_change_complete.
  wp_steps.
  unfold muc_nick_change_pending. prof_cbn.
  rewrite !lookup_alter_eq, Hroom. room_cbn. rewrite Hpn.
  wp_steps. unfold ui_room_nick_change. wp_steps. rewrite Hfind. wp_steps.
  subst post. cbv beta.
  unfold muc_nick, muc_nick_change_pending, muc_roster_complete,
    muc_requires_config, win_buffer.
  prof_cbn. rewrite !lookup_alter_eq, Hroom, lookup_insert_eq, Hw.
  room_cbn. split_and!; try done.
  - intros m Hm. by rewrite lookup_insert_ne.
  - rewrite net_actions_app. cbn. by rewrite app_nil_r.
Qed.

(** * Carbons and delayed messages *)

Section Relayed.
Context (E : Externals) (enc_arg : prof_enc_t).


End Relayed.

(** * The calls of [beep()] and [notify_message()] *)

Lemma alert_calls_app t1 t2 :
  alert_calls (t1 ++ t2) = (alert_calls t1 ++ alert_calls t2)%list.
Proof. apply List.filter_app. Qed.

Ltac alert_list :=
  prof_cbn; rewrite ?alert_calls_app;
  repeat match goal with
         | |- context [if ?b then _ else _] => destruct b
         end;
  cbn [alert_calls List.filter is_alert_call is_beep is_notify_message orb app];
  rewrite <- ?app_assoc; cbn [app]; rewrite ?app_nil_r; reflexivity.

Section Alerts.
Context (E : Externals).

Lemma alerts_chat st n c b resource message ts wc enc :
  windows st !! n = Some (mkWin (KChat c) b) ->
  exists st',
    exec (ui_incoming_msg E n resource message ts wc enc) st = Some st' /\
    target (InChat n resource message ts wc enc) st' = Some n /\
    alert_calls (trace st')
    = (alert_calls (trace st)
       ++ alerts E (InChat n resource message ts wc enc) n st)%list.
Proof.
  intros Hw. eexists. unfold exec.
  rewrite (ui_incoming_msg_run E st n c b) by done.
  split; [reflexivity|]. cbn [snd fmap option_fmap option_map].
  unfold incoming_msg_state, alerts, sender_name, message_of. 
  split.
  - cbn [target]. prof_cbn. by rewrite lookup_insert_eq.
  - rewrite Hw. unfold incoming_msg_calls, incoming_display_name.
    alert_list.
Qed.

Lemma alerts_private st fulljid message ts :
  wp (ui_incoming_private_msg E fulljid message ts)
     (fun _ st' =>
        exists n,
          wins_get_private fulljid st' = Some n /\
          (forall m, wins_get_private fulljid st = Some m -> m = n) /\
          alert_calls (trace st')
          = (alert_calls (trace st)
             ++ alerts E (InPrivate fulljid message ts) n st)%list) st.
Proof.
  unfold ui_incoming_private_msg, alerts, sender_name, message_of. wp_steps.
  destruct (wins_get_private fulljid st) as [p|] eqn:Hfind.
  - destruct (wins_find_Some _ _ _ Hfind) as (w & Hw & HP).
    destruct (is_private_for_inv _ _ HP) as (pw & b & -> & Hjid).
    wp_steps.
    destruct (bool_decide (current st = p)) eqn:Hc.
    all: wp_auto; exists p.
    all: (split; [|split; [intros k Hk; congruence|]]).
    all: try alert_list.
    all: unfold wins_get_private in *; prof_cbn.
    all: rewrite ?insert_insert_eq; apply wins_find_insert_found; [done|].
    all: cbn; by apply bool_decide_eq_true.
  - unfold wins_new_private. wp_steps.
    destruct (bool_decide (current st = n)) eqn:Hc.
    all: wp_auto; exists n; subst n.
    all: (split; [|split; [intros k Hk; congruence|]]).
    all: try alert_list.
    all: unfold wins_get_private in *; prof_cbn.
    all: rewrite ?insert_insert_eq; apply wins_find_insert_fresh; [done|].
    all: cbn; by apply bool_decide_eq_true.
Qed.

End Alerts.

(** X29.  For an inbound one-to-one chat or private message the handler
    calls [beep()] once when [PREF_BEEP] is set and not at all when it
    is not, and after it calls [notify_message()] once when
    [PREF_NOTIFY_MESSAGE] is set, with the window of the message, the
    name of the sender and the text, and not at all when it is not.
    It makes these calls whether or not that window is the current
    one.  (What [notify_message()] does with the window it is given is
    not part of this statement.) *)
Theorem incoming_alert_calls (E : Externals) (ev : inbound) (st : State) :
  one_to_one ev -> deliverable ev st ->
  exists st' n,
    exec (deliver E ev) st = Some st' /\
    target ev st' = Some n /\
    (forall m, target ev st = Some m -> m = n) /\
    alert_calls (trace st')
    = (alert_calls (trace st)
       ++ (if prefs_get_boolean PREF_BEEP st then [Beep] else [])
       ++ (if prefs_get_boolean PREF_NOTIFY_MESSAGE st
           then [NotifyMessage n (sender_name E ev st) (message_of ev)]
           else []))%list.
Proof.
  intros H11 Hdel.
  destruct ev as [n resource message ts wc enc|jid message ts|]; [| |done];
    cbn [deliver target deliverable] in *.
  - destruct Hdel as [m Hm].
    destruct (windows st !! n) as [[[|c| | | |] b]|] eqn:Hw; try done.
    destruct (alerts_chat E st n c b resource message ts wc enc Hw)
      as (st' & Hrun & Ht & Ha).
    exists st', n. split; [done|]. split; [done|].
    split; [intros k Hk; congruence|]. exact Ha.
  - destruct (wp_exec _ _ _ (alerts_private E st jid message ts))
      as (st' & Hrun & n & Hn & Hsame & Ha).
    by exists st', n.
Qed.

Lemma incoming_alert_calls_witness :
  (exists st' n,
     exec (deliver E0 (InChat 2 None "hi" None false PROF_ENC_NONE))
          st0_alerts = Some st' /\
     target (InChat 2 None "hi" None false PROF_ENC_NONE) st' = Some n /\
     (forall m,
        target (InChat 2 None "hi" None false PROF_ENC_NONE) st0_alerts
        = Some m -> m = n) /\
     alert_calls (trace st')
     = (alert_calls (trace st0_alerts)
        ++ [Beep;
            NotifyMessage n
              (roster_get_msg_display_name E0 "alice@host" None) "hi"])%list)
  /\
  (exists st' n,
     exec (deliver E0 (InChat 2 None "hi" None false PROF_ENC_NONE))
          st0_alerts_focused = Some st' /\
     target (InChat 2 None "hi" None false PROF_ENC_NONE) st' = Some n /\
     (forall m,
        target (InChat 2 None "hi" None false PROF_ENC_NONE)
               st0_alerts_focused = Some m -> m = n) /\
     alert_calls (trace st')
     = (alert_calls (trace st0_alerts_focused)
        ++ [Beep;
            NotifyMessage n
              (roster_get_msg_display_name E0 "alice@host" None) "hi"])%list).
Proof.
  split.
  - apply (incoming_alert_calls E0
             (InChat 2 None "hi" None false PROF_ENC_NONE) st0_alerts).
    + exact I.
    + vm_compute. eauto.
  - apply (incoming_alert_calls E0
             (InChat 2 None "hi" None false PROF_ENC_NONE)
             st0_alerts_focused).
    + exact I.
    + vm_compute. eauto.
Defined.

(** * The properties on the sample session *)

Lemma broadcasts_during_join_witness :
  exists st1 st2 n joined,
    exec (for_each ["maintenance at noon"; "back at one"]
            (sv_ev_room_broadcast "r@conf")) st0 = Some st1 /\
    windows st1 = windows st0 /\ trace st1 = trace st0 /\
    muc_pending_broadcasts "r@conf" st1
    = (room_pending_broadcasts room0
       ++ ["maintenance at noon"; "back at one"])%list /\
    exec (sv_ev_muc_self_online "r@conf" "me" false None None None None None
            None None) st1 = Some st2 /\
    wins_get_muc "r@conf" st2 = Some n /\
    win_buffer n st2
    = (win_buffer n st0 ++ joined ++ subject_lines (room_subject room0)
       ++ broadcast_lines (room_pending_broadcasts room0
                           ++ ["maintenance at noon"; "back at one"])
       ++ [])%list /\
    no_flush joined.
Proof.
  apply (broadcasts_during_join "r@conf" "me"
           ["maintenance at noon"; "back at one"] false None None None None
           None None None st0 room0).
  - eexists. vm_compute. reflexivity.
  - eexists. vm_compute. reflexivity.
  - vm_compute. reflexivity.
  - reflexivity.
  - reflexivity.
Defined.

Lemma broadcast_when_joined_witness :
  exists st',
    exec (sv_ev_room_broadcast "r@conf" "hello") st0_joined = Some st' /\
    rooms st' = rooms st0_joined /\
    match wins_get_muc "r@conf" st0_joined with
    | Some n =>
        wins_get_muc "r@conf" st' = Some n /\
        win_buffer n st'
        = (win_buffer n st0_joined ++ broadcast_lines ["hello"])%list /\
        forall m, m <> n -> windows st' !! m = windows st0_joined !! m
    | None =>
        windows st' = windows st0_joined /\
        trace st'
        = (trace st0_joined
           ++ [LogError "Received room broadcast, but no window open for %s."
                        [ArgS (Some "r@conf")]])%list
    end.
Proof.
  apply (broadcast_when_joined "r@conf" "hello" st0_joined).
  vm_compute. reflexivity.
Defined.

Lemma room_subject_recorded_witness :
  exists st',
    exec (sv_ev_room_subject "r@conf" (Some "bob") (Some "agenda")) st0
    = Some st' /\
    muc_subject "r@conf" st' = Some "agenda" /\
    muc_pending_broadcasts "r@conf" st' = muc_pending_broadcasts "r@conf" st0 /\
    muc_roster_complete "r@conf" st' = muc_roster_complete "r@conf" st0 /\
    (roster_received room0 = false ->
       windows st' = windows st0 /\ trace st' = trace st0) /\
    (roster_received room0 = true ->
       forall n, wins_get_muc "r@conf" st0 = Some n ->
         win_buffer n st'
         = (win_buffer n st0
            ++ subject_change_lines (Some "bob") (Some "agenda"))%list).
Proof.
  apply (room_subject_recorded "r@conf" (Some "bob") (Some "agenda") st0 room0).
  vm_compute. reflexivity.
Defined.

Lemma start_session_witness :
  exists st',
    exec (cmd_start E0_keys ModeB 2 "/pgp" None) st0 = Some st' /\
    chat_enc_mode 2 st' = Some PROF_ENC_PGP /\
    (forall m, m <> 2 -> chat_enc_mode m st' = chat_enc_mode m st0) /\
    ui_win_unread 2 st' = ui_win_unread 2 st0 /\
    net_actions (trace st')
    = (net_actions (trace st0) ++ start_actions E0_keys ModeB "alice@host")%list.
Proof.
  apply (start_session E0_keys ModeB st0 2 "/pgp"
           (mkChatWin "alice@host" 0 PROF_ENC_NONE false false) []).
  - eexists. vm_compute. reflexivity.
  - vm_compute. reflexivity.
  - reflexivity.
  - vm_compute. reflexivity.
  - vm_compute. reflexivity.
Defined.

Lemma end_session_witness :
  exists st',
    exec (cmd_end E0 ModeB 2 "/pgp") st0_pgp = Some st' /\
    chat_enc_mode 2 st' = Some PROF_ENC_NONE /\
    (forall m, m <> 2 -> chat_enc_mode m st' = chat_enc_mode m st0_pgp) /\
    ui_win_unread 2 st' = ui_win_unread 2 st0_pgp /\
    net_actions (trace st') = (net_actions (trace st0_pgp) ++ [])%list.
Proof.
  apply (end_session E0 ModeB st0_pgp 2 "/pgp"
           (mkChatWin "alice@host" 0 PROF_ENC_PGP false false) []).
  - eexists. vm_compute. reflexivity.
  - vm_compute. reflexivity.
  - vm_compute. reflexivity.
Defined.

Lemma cmd_close_refused_witness :
  cmd_close E0 2 "/close" ["1"] st0
  = Some (true,
          set_trace
            (trace st0 ++ [ConsShow (close_refusal (close_index ["1"] st0)) []])
            st0).
Proof.
  apply (cmd_close_refused E0 2 "/close" ["1"] st0).
  - discriminate.
  - discriminate.
  - right. right. left. vm_compute. reflexivity.
Defined.

(** The room window 3 is closed by its number; the chat window 2 by a
    numeral that [atoi] truncates to 2. *)
Lemma cmd_close_closes_witness :
  (exists st' t,
     cmd_close E0 1 "/close" ["3"] st0_no_tidy = Some (true, st') /\
     windows st' = delete 3 (windows st0_no_tidy) /\
     current st' = 1 /\
     rooms st' = delete "r@conf" (rooms st0_no_tidy) /\
     trace st'
     = (trace st0_no_tidy ++ t
        ++ [ConsShow "Closed window %d" [ArgD 3]])%list /\
     leave_calls t = [Net (PresenceLeaveChatRoom "r@conf")]) /\
  (exists st' t,
     cmd_close E0 1 "/close" ["4294967298"] st0_no_tidy = Some (true, st') /\
     windows st' = delete 2 (windows st0_no_tidy) /\
     current st' = 1 /\
     rooms st' = rooms st0_no_tidy /\
     trace st'
     = (trace st0_no_tidy ++ t
        ++ [ConsShow "Closed window %d" [ArgD 2]])%list /\
     leave_calls t
     = [ChatStateGone "alice@host"; ChatSessionRemove "alice@host"]).
Proof.
  split.
  - apply (cmd_close_closes E0 1 "/close" ["3"] st0_no_tidy
             (mkWin (KMuc (mkMucWin "r@conf" 0)) [])).
    + discriminate.
    + discriminate.
    + vm_compute. discriminate.
    + vm_compute. discriminate.
    + vm_compute. discriminate.
    + vm_compute. reflexivity.
    + reflexivity.
    + discriminate.
    + apply (bool_decide_unpack _). vm_compute. exact I.
    + vm_compute. reflexivity.
  - apply (cmd_close_closes E0 1 "/close" ["4294967298"] st0_no_tidy
             (mkWin (KChat (mkChatWin "alice@host" 0 PROF_ENC_NONE false
                              false)) [])).
    + discriminate.
    + discriminate.
    + vm_compute. discriminate.
    + vm_compute. discriminate.
    + vm_compute. discriminate.
    + vm_compute. reflexivity.
    + reflexivity.
    + discriminate.
    + apply (bool_decide_unpack _). vm_compute. exact I.
    + vm_compute. reflexivity.
Defined.

Lemma cmd_room_actions_witness :
  exists st',
    exec (cmd_room 3 "/room" ["config"]) st0 = Some st' /\
    net_actions (trace st')
    = (net_actions (trace st0) ++ room_actions "r@conf" (Some "config") st0)%list /\
    dom (windows st') = dom (windows st0) /\
    current st' = 5.
Proof.
  apply (cmd_room_actions 3 "/room" ["config"] st0 (mkMucWin "r@conf" 0) []).
  - reflexivity.
  - eexists. vm_compute. reflexivity.
  - vm_compute. reflexivity.
Defined.

Lemma cmd_form_actions_witness :
  exists st',
    exec (cmd_form 5 "/form" ["submit"]) st0_form = Some st' /\
    net_actions (trace st')
    = (net_actions (trace st0_form)
       ++ [Net (IqSubmitRoomConfig "r@conf" (Some form0))])%list /\
    windows st' !! 5 = None /\
    (forall m, m <> 5 -> is_Some (windows st' !! m)
                         <-> is_Some (windows st0_form !! m)).
Proof.
  apply (cmd_form_actions 5 "/form" ["submit"] st0_form "r@conf" (Some form0) []).
  - reflexivity.
  - eexists. vm_compute. reflexivity.
  - reflexivity.
  - vm_compute. reflexivity.
Defined.

Lemma privileges_announced_once_witness :
  exists st1 st2,
    exec (sv_ev_muc_self_online "r@conf" "me" false (Some "moderator")
            (Some "admin") (Some "bob") None None None None) st0_joined
    = Some st1 /\
    win_buffer 3 st1
    = (win_buffer 3 st0_joined
       ++ if prefs_get_boolean PREF_MUC_PRIVILEGES st0_joined
          then privilege_lines (Some "moderator") (Some "admin") (Some "bob")
                 None (muc_role_str "r@conf" st0_joined)
                 (muc_affiliation_str "r@conf" st0_joined)
          else [])%list /\
    exec (sv_ev_muc_self_online "r@conf" "me" false (Some "moderator")
            (Some "admin") None None None None None) st1 = Some st2 /\
    (forall m, win_buffer m st2 = win_buffer m st1) /\
    muc_role_str "r@conf" st2 = Some "moderator" /\
    muc_affiliation_str "r@conf" st2 = Some "admin".
Proof.
  apply (privileges_announced_once "r@conf" "me" "me" false false
           (Some "moderator") (Some "admin") (Some "bob") None None None None
           None None None None None st0_joined 3).
  - vm_compute. reflexivity.
  - vm_compute. reflexivity.
  - vm_compute. reflexivity.
Defined.

Lemma nick_change_completed_witness :
  exists st',
    exec (sv_ev_muc_self_online "r@conf" "me2" false None None None None None
            None None) st0_renaming = Some st' /\
    muc_nick "r@conf" st' = Some "me2" /\
    muc_nick_change_pending "r@conf" st' = false /\
    muc_roster_complete "r@conf" st' = false /\
    muc_requires_config "r@conf" st' = false /\
    win_buffer 3 st'
    = (win_buffer 3 st0_renaming
       ++ [LPrint "!" None [] THEME_ME "" "** You are now known as %s"
                  [ArgS (Some "me2")]])%list /\
    (forall m, m <> 3 -> windows st' !! m = windows st0_renaming !! m) /\
    net_actions (trace st') = net_actions (trace st0_renaming).
Proof.
  apply (nick_change_completed "r@conf" "me2" false None None None None None
           None None st0_renaming
           (mkChatRoom (room_nick room0) (room_role room0)
              (room_affiliation room0) (room_subject room0)
              (room_pending_broadcasts room0) (room_roster room0)
              (roster_received room0) true (room_autojoin room0)
              (room_requires_config room0)) 3).
  - vm_compute. reflexivity.
  - reflexivity.
  - vm_compute. reflexivity.
Defined.

(** * Entries of the chat log *)

(** X28.  An entry of the chat log, which starts with the time written
    as [hh:mm:ss], is shown in the history of a chat window with the
    text that follows its eleventh character, under that time when it
    is a time of day (hours up to 23, minutes and seconds up to 59) and
    without a time of its own when it is not; a line of at least two
    characters whose third character is not a colon is a header, shown
    as it is and without a time. *)
Theorem history_line_decodes (E : Externals) (hh mm ss : Z)
    (text header : string) :
  0 <= hh < 100 -> 0 <= mm < 100 -> 0 <= ss < 100 ->
  is_c_string text = true ->
  (2 <= String.length header)%nat ->
  String.get 2 header <> Some ":"%char ->
  history_line E (two_digits hh +:+ ":" +:+ two_digits mm +:+ ":"
                  +:+ two_digits ss +:+ " - " +:+ text)
  = LPrint "-"
      (if bool_decide (hh <= 23 /\ mm <= 59 /\ ss <= 59)
       then Some (Timestamp hh mm ss) else None)
      [NO_COLOUR_DATE] THEME_DEFAULT "" text []
  /\ history_line E header = LPrint "-" None [] THEME_DEFAULT "" header [].
Proof.
  intros Hh Hm Hs Ht Hlen Hhead. split.
  - pose proof (history_line_entry E hh mm ss text Hh Hm Hs Ht) as Hentry.
    cbn [log_text] in Hentry. rewrite Hentry. f_equal.
    unfold g_date_time_new_local.
    case_bool_decide as Hday.
    + replace (_ && _) with true; [done|]. symmetry. cbn.
      repeat (apply andb_true_intro; split); lia.
    + replace (_ && _) with false; [done|]. symmetry. cbn.
      apply not_true_is_false. intros Hall. apply Hday.
      repeat (apply andb_prop in Hall as [Hall ?]). lia.
  - by apply history_line_header.
Qed.

Lemma history_line_decodes_witness :
  (history_line E0 (two_digits 10 +:+ ":" +:+ two_digits 15 +:+ ":"
                    +:+ two_digits 0 +:+ " - " +:+ "me: see you")
   = LPrint "-" (Some (Timestamp 10 15 0)) [NO_COLOUR_DATE] THEME_DEFAULT ""
            "me: see you" []
   /\ history_line E0 "Chat history:"
      = LPrint "-" None [] THEME_DEFAULT "" "Chat history:" [])
  /\ history_line E0 (two_digits 99 +:+ ":" +:+ two_digits 61 +:+ ":"
                      +:+ two_digits 75 +:+ " - " +:+ "late")
     = LPrint "-" None [NO_COLOUR_DATE] THEME_DEFAULT "" "late" [].
Proof.
  split.
  - apply (history_line_decodes E0 10 15 0 "me: see you" "Chat history:").
    + lia.
    + lia.
    + lia.
    + reflexivity.
    + vm_compute. lia.
    + vm_compute. discriminate.
  - apply (history_line_decodes E0 99 61 75 "late" "Chat history:").
    + lia.
    + lia.
    + lia.
    + reflexivity.
    + vm_compute. lia.
    + vm_compute. discriminate.
Defined.
